(** * Draggable points (js/modules/draggable-points.src.js)

    A shallow embedding of the drag/drop module: the registry of draggable
    props per series type, the draggability predicates, the value translator
    ([getDropValues]), the guide-box geometry and the pointer-event handlers
    ([mouseDown], [mouseMove], [mouseUp]) as functions on an explicit chart
    state.

    Conventions of the embedding.
    - A JavaScript number is an exact rational ([Q]); a value that is not a
      number (NaN, or a property that is undefined where a number is read)
      is [None] of [jsnum].  [Math.round x] is [Qfloor (x + 1/2)].
    - A JavaScript object used as a map is an ordered association list
      ([Obj.t]): [Obj.get] reads a key, [Obj.set] assigns it in place.
    - Points are mutable objects shared between the series and the drag
      data: the chart holds the store of points and every other structure
      refers to a point by its position in that store. *)

From Stdlib Require Import QArith Qround Qminmax ZArith List String Bool.
From Stdlib Require Import Lia Psatz Reals Qreals.
Import ListNotations.

Open Scope string_scope.
Open Scope Q_scope.

(** ** JavaScript objects as ordered key/value lists *)

Module Obj.

Definition t (A : Type) : Type := list (string * A).

Fixpoint get {A : Type} (k : string) (o : t A) : option A :=
  match o with
  | [] => None
  | (k', v) :: rest => if String.eqb k k' then Some v else get k rest
  end.

(** [o[k] = v]: an existing key keeps its place, a new one is appended. *)
Fixpoint set {A : Type} (k : string) (v : A) (o : t A) : t A :=
  match o with
  | [] => [(k, v)]
  | (k', v') :: rest =>
      if String.eqb k k' then (k, v) :: rest else (k', v') :: set k v rest
  end.

(** [H.merge(a, b)] on flat objects: a copy of [a] overridden by [b]. *)
Definition merge {A : Type} (a b : t A) : t A :=
  fold_left (fun acc kv => set (fst kv) (snd kv) acc) b a.

(** [delete o[k]]. *)
Fixpoint remove {A : Type} (k : string) (o : t A) : t A :=
  match o with
  | [] => []
  | (k', v') :: rest =>
      if String.eqb k k' then rest else (k', v') :: remove k rest
  end.

Definition keys {A : Type} (o : t A) : list string := map fst o.

End Obj.

(** [H.pick]: the first argument that is neither undefined nor null. *)
Definition pick {A : Type} (a b : option A) : option A :=
  match a with
  | Some _ => a
  | None => b
  end.

Definition pickD {A : Type} (a : option A) (d : A) : A :=
  match a with
  | Some v => v
  | None => d
  end.

(** ** Numbers *)

Definition jsnum : Type := option Q.

Definition Qltb (a b : Q) : bool := negb (Qle_bool b a).

Definition nadd (a b : jsnum) : jsnum :=
  match a, b with
  | Some x, Some y => Some (x + y)
  | _, _ => None
  end.

(** Comparisons with NaN are false. *)
Definition nlt (a b : jsnum) : bool :=
  match a, b with
  | Some x, Some y => Qltb x y
  | _, _ => false
  end.

Definition nge (a b : jsnum) : bool :=
  match a, b with
  | Some x, Some y => Qle_bool y x
  | _, _ => false
  end.

Definition MathRound (x : Q) : Z := Qfloor (x + (1 # 2)).

(** [Math.max(lo, v)] and [Math.min(hi, v)] where the bound may be
    [-Infinity] / [Infinity] ([None]). *)
Definition MathMax (lo : option Q) (v : Q) : Q :=
  match lo with
  | Some l => if Qle_bool l v then v else l
  | None => v
  end.

Definition MathMin (hi : option Q) (v : Q) : Q :=
  match hi with
  | Some h => if Qle_bool v h then v else h
  | None => v
  end.

(** Values of user options that are compared or tested for truth. *)
Inductive jsval : Type :=
| VStr (s : string)
| VNum (q : Q)
| VBool (b : bool).

Definition truthy (v : option jsval) : bool :=
  match v with
  | None => false
  | Some (VStr s) => negb (String.eqb s "")
  | Some (VNum q) => negb (Qeq_bool q 0)
  | Some (VBool b) => b
  end.

(** [a === b] on optional values; undefined equals undefined only. *)
Definition strictEq (a b : option jsval) : bool :=
  match a, b with
  | None, None => true
  | Some (VStr s), Some (VStr s') => String.eqb s s'
  | Some (VNum q), Some (VNum q') => Qeq_bool q q'
  | Some (VBool x), Some (VBool y) => Bool.eqb x y
  | _, _ => false
  end.

(** ** Data model *)

(** [series.options.dragDrop] and [point.options.dragDrop], keyed by the
    option names the source reads and split by the type of the value. *)
Record DragDropOptions : Type := {
  flags : Obj.t bool;
  nums : Obj.t Q;
  groupBy : option string
}.

Definition noOptions : DragDropOptions :=
  {| flags := []; nums := []; groupBy := None |}.

(** [merge(series.options.dragDrop, point.options.dragDrop)]; either
    argument may be undefined. *)
Definition mergeOptions (a b : option DragDropOptions) : DragDropOptions :=
  let a' := pickD a noOptions in
  let b' := pickD b noOptions in
  {| flags := Obj.merge (flags a') (flags b');
     nums := Obj.merge (nums a') (nums b');
     groupBy := pick (groupBy b') (groupBy a') |}.

(** Truth of [options[name]] for a boolean option. *)
Definition flagOn (o : DragDropOptions) (name : string) : bool :=
  pickD (Obj.get name (flags o)) false.

Record Rect : Type := {
  rx : Q;
  ry : Q;
  rwidth : Q;
  rheight : Q
}.

Record Point : Type := {
  p_id : string;                         (* point.id *)
  p_vals : Obj.t Q;                      (* point[key] for the data props *)
  p_options : Obj.t jsval;               (* point.options[key] *)
  p_dragDrop : option DragDropOptions;   (* point.options.dragDrop *)
  p_bBox : Rect                          (* point.graphic.getBBox() *)
}.

Definition prop (p : Point) (key : string) : jsnum := Obj.get key (p_vals p).

Record Axis : Type := {
  toPixels : Q -> Q;      (* axis.toPixels(value, true) *)
  toValue : Q -> Q;       (* axis.toValue(pixel, true) *)
  horiz : bool;
  reversed : bool
}.

Inductive AxisName : Type := AxisX | AxisY.

Inductive Side : Type := SLeft | SRight | STop | SBottom.

(** What the prop functions read of [point.series]. *)
Record SeriesInfo : Type := {
  threshold : option Q;             (* series.options.threshold *)
  translatedThreshold : option Q    (* series.translatedThreshold *)
}.

Inductive ResizeSide : Type :=
| SideStatic (s : Side)
| SideFn (f : Obj.t jsnum -> Point -> SeriesInfo -> Side).

Record DragDropProp : Type := {
  optionName : option string;
  axis : AxisName;
  move : bool;
  resize : bool;
  resizeSide : option ResizeSide;
  propValidate : option (jsnum -> Point -> bool);
  beforeResize : option (Rect -> Obj.t jsnum -> Point -> SeriesInfo -> Rect)
}.

Record Series : Type := {
  s_dragDrop : option DragDropOptions;   (* series.options.dragDrop *)
  dragDropProps : Obj.t DragDropProp;
  xAxis : option Axis;
  yAxis : option Axis;
  s_info : SeriesInfo
}.

(** A pointer event: position and modifier keys. *)
Inductive ModKey : Type := KAlt | KCtrl | KMeta | KShift.

Record Event : Type := {
  pageX : Q;
  pageY : Q;
  keysDown : ModKey -> bool
}.

(** Per point entry of the snapshot: the data props and the point itself. *)
Record PointProps : Type := {
  pp_props : Obj.t Q;
  pp_point : nat
}.

Record PositionSnapshot : Type := {
  o_pageX : Q;
  o_pageY : Q;
  o_guideBox : option Rect;
  o_points : Obj.t PointProps;
  o_x : option Q;          (* origin.x, read by getDropValues *)
  o_y : option Q;          (* origin.y, read by getDropValues *)
  o_prevdX : option Q;
  o_prevdY : option Q
}.

(** ** The registry of draggable props *)

Module Registry.

Definition qround (x : Q) : Q := inject_Z (MathRound x).

(** Column series: [y.beforeResize].  The test of the source is
    [pointVals.y >= point.series.options.threshold || 0]: the comparison
    binds tighter than [||], and a false comparison leaves [0], falsy.
    The threshold is a number or undefined here; a [null] threshold, which
    the source compares as 0, is not modelled. *)
Definition column_beforeResize
    (guideBox : Rect) (pointVals : Obj.t jsnum) (point : Point)
    (si : SeriesInfo) : Rect :=
  let y := ry guideBox in
  let thr := translatedThreshold si in
  let thrTruthy := match thr with
                   | Some t => negb (Qeq_bool t 0)
                   | None => false
                   end in
  if nge (pickD (Obj.get "y" pointVals) None) (threshold si) then
    let height := rheight guideBox in
    let diff := if thrTruthy then pickD thr 0 - (y + height) else 0 in
    let h := qround (height + diff) in
    {| rx := rx guideBox; ry := y; rwidth := rwidth guideBox;
       rheight := if Qle_bool 0 h then h else 0 |}
  else
    {| rx := rx guideBox;
       ry := qround (y + (if thrTruthy then pickD thr 0 - y else 0));
       rwidth := rwidth guideBox; rheight := rheight guideBox |}.

Definition column_resizeSide
    (pointVals : Obj.t jsnum) (point : Point) (si : SeriesInfo) : Side :=
  if nge (pickD (Obj.get "y" pointVals) None)
         (Some (pickD (threshold si) 0))
  then STop else SBottom.

Definition column : Obj.t DragDropProp :=
  [ ("x", {| optionName := None; axis := AxisX; move := true;
             resize := false; resizeSide := None; propValidate := None;
             beforeResize := None |});
    ("y", {| optionName := None; axis := AxisY; move := false;
             resize := true;
             resizeSide := Some (SideFn column_resizeSide);
             propValidate := None;
             beforeResize := Some column_beforeResize |}) ].

Definition columnrange_low : DragDropProp :=
  {| optionName := Some "draggableLow"; axis := AxisY;
     move := true; resize := true;
     resizeSide := Some (SideStatic SBottom);
     propValidate := Some (fun val point => nlt val (prop point "high"));
     beforeResize := None |}.

Definition columnrange_high : DragDropProp :=
  {| optionName := Some "draggableHigh"; axis := AxisY;
     move := true; resize := true;
     resizeSide := Some (SideStatic STop);
     propValidate := Some (fun val point => nlt (prop point "low") val);
     beforeResize := None |}.

Definition columnrange : Obj.t DragDropProp :=
  [ ("x", {| optionName := None; axis := AxisX; move := true;
             resize := false; resizeSide := None; propValidate := None;
             beforeResize := None |});
    ("low", columnrange_low);
    ("high", columnrange_high) ].

Definition xrange_x : DragDropProp :=
  {| optionName := Some "draggableX1"; axis := AxisX; move := true;
     resize := true; resizeSide := Some (SideStatic SLeft);
     propValidate := Some (fun val point => nlt val (prop point "x2"));
     beforeResize := None |}.

Definition xrange_x2 : DragDropProp :=
  {| optionName := Some "draggableX2"; axis := AxisX; move := true;
     resize := true; resizeSide := Some (SideStatic SRight);
     propValidate := Some (fun val point => nlt (prop point "x") val);
     beforeResize := None |}.

Definition xrange_y : DragDropProp :=
  {| optionName := None; axis := AxisY; move := true; resize := false;
     resizeSide := None; propValidate := None; beforeResize := None |}.

Definition xrange : Obj.t DragDropProp :=
  [ ("y", xrange_y); ("x", xrange_x); ("x2", xrange_x2) ].

Definition withOptionName (d : DragDropProp) (n : string) : DragDropProp :=
  {| optionName := Some n; axis := axis d; move := move d;
     resize := resize d; resizeSide := resizeSide d;
     propValidate := propValidate d; beforeResize := beforeResize d |}.

(** Gantt: the xrange props under the names [start] and [end]. *)
Definition gantt : Obj.t DragDropProp :=
  [ ("y", xrange_y);
    ("start", withOptionName xrange_x "draggableStart");
    ("end", withOptionName xrange_x2 "draggableEnd") ].

End Registry.

(** ** Chart state *)

(** The guide box element: its rectangle attributes and its translation. *)
Record GuideBox : Type := {
  attrs : Rect;
  translateX : Q;
  translateY : Q
}.

Record NewPoint : Type := {
  np_point : nat;
  newValues : Obj.t jsnum
}.

Record DragDropData : Type := {
  origin : PositionSnapshot;
  dd_point : nat;
  groupedPoints : list nat;
  isDragging : bool;
  draggedPastSensitivity : bool;
  updateProp : option string;
  newPoints : option (Obj.t NewPoint)
}.

(** What the handlers ask of the event bus and of the renderer. *)
Inductive Effect : Type :=
| Fired (name : string)
| Redraw (animated : bool)
| GuideBoxDestroyed (g : GuideBox)
| HandlesDestroyed.

Record Chart : Type := {
  series : Series;
  points : list Point;                 (* series.points, the live objects *)
  hoverPoint : option nat;
  inverted : bool;
  panKey : option ModKey;              (* chart.userOptions.chart.panKey *)
  zoomKey : option ModKey;             (* chart.userOptions.chart.zoomKey *)
  dragDropData : option DragDropData;
  dragGuideBox : option GuideBox;
  dragHandles : bool;
  isDragDropAnimating : bool;
  c_isDragging : bool;                 (* chart.isDragging *)
  log : list Effect
}.

Definition setData (c : Chart) (d : option DragDropData) : Chart :=
  {| series := series c; points := points c; hoverPoint := hoverPoint c;
     inverted := inverted c; panKey := panKey c; zoomKey := zoomKey c;
     dragDropData := d; dragGuideBox := dragGuideBox c;
     dragHandles := dragHandles c;
     isDragDropAnimating := isDragDropAnimating c;
     c_isDragging := c_isDragging c; log := log c |}.

Definition setPoints (c : Chart) (ps : list Point) : Chart :=
  {| series := series c; points := ps; hoverPoint := hoverPoint c;
     inverted := inverted c; panKey := panKey c; zoomKey := zoomKey c;
     dragDropData := dragDropData c; dragGuideBox := dragGuideBox c;
     dragHandles := dragHandles c;
     isDragDropAnimating := isDragDropAnimating c;
     c_isDragging := c_isDragging c; log := log c |}.

Definition setGuideBox (c : Chart) (g : option GuideBox) : Chart :=
  {| series := series c; points := points c; hoverPoint := hoverPoint c;
     inverted := inverted c; panKey := panKey c; zoomKey := zoomKey c;
     dragDropData := dragDropData c; dragGuideBox := g;
     dragHandles := dragHandles c;
     isDragDropAnimating := isDragDropAnimating c;
     c_isDragging := c_isDragging c; log := log c |}.

Definition setHandles (c : Chart) (h : bool) : Chart :=
  {| series := series c; points := points c; hoverPoint := hoverPoint c;
     inverted := inverted c; panKey := panKey c; zoomKey := zoomKey c;
     dragDropData := dragDropData c; dragGuideBox := dragGuideBox c;
     dragHandles := h;
     isDragDropAnimating := isDragDropAnimating c;
     c_isDragging := c_isDragging c; log := log c |}.

Definition setAnimating (c : Chart) (a : bool) : Chart :=
  {| series := series c; points := points c; hoverPoint := hoverPoint c;
     inverted := inverted c; panKey := panKey c; zoomKey := zoomKey c;
     dragDropData := dragDropData c; dragGuideBox := dragGuideBox c;
     dragHandles := dragHandles c;
     isDragDropAnimating := a;
     c_isDragging := c_isDragging c; log := log c |}.

Definition setChartDragging (c : Chart) (b : bool) : Chart :=
  {| series := series c; points := points c; hoverPoint := hoverPoint c;
     inverted := inverted c; panKey := panKey c; zoomKey := zoomKey c;
     dragDropData := dragDropData c; dragGuideBox := dragGuideBox c;
     dragHandles := dragHandles c;
     isDragDropAnimating := isDragDropAnimating c;
     c_isDragging := b; log := log c |}.

Definition emit (c : Chart) (ev : Effect) : Chart :=
  {| series := series c; points := points c; hoverPoint := hoverPoint c;
     inverted := inverted c; panKey := panKey c; zoomKey := zoomKey c;
     dragDropData := dragDropData c; dragGuideBox := dragGuideBox c;
     dragHandles := dragHandles c;
     isDragDropAnimating := isDragDropAnimating c;
     c_isDragging := c_isDragging c; log := (log c ++ [ev])%list |}.

(** ** Draggability predicates *)

Definition isSeriesDraggable (s : Series) : bool :=
  let options := pickD (s_dragDrop s) noOptions in
  let props :=
    (["draggableX"; "draggableY"] ++
     flat_map (fun kv => match optionName (snd kv) with
                         | Some n => if String.eqb n "" then [] else [n]
                         | None => []
                         end) (dragDropProps s))%list in
  existsb (flagOn options) props.

(** [isPointMovable].  The source reads [series.options.dragDrop] without
    a guard and raises a TypeError for a series that has no drag options;
    the model reads such a series as one with empty options, so statements
    about the result are made for series with drag options. *)
Definition isPointMovable (s : Series) (point : Point) : bool :=
  let seriesDragDropOptions := pickD (s_dragDrop s) noOptions in
  let hasMovableX :=
    existsb (fun kv => match axis (snd kv) with
                       | AxisX => move (snd kv)
                       | AxisY => false
                       end) (dragDropProps s) in
  let hasMovableY :=
    existsb (fun kv => match axis (snd kv) with
                       | AxisX => false
                       | AxisY => move (snd kv)
                       end) (dragDropProps s) in
  let isFalse (o : DragDropOptions) (n : string) :=
    match Obj.get n (flags o) with
    | Some false => true
    | _ => false
    end in
  (flagOn seriesDragDropOptions "draggableX" && hasMovableX
   || flagOn seriesDragDropOptions "draggableY" && hasMovableY)
  && negb (match p_dragDrop point with
           | Some pdd => isFalse pdd "draggableX" && isFalse pdd "draggableY"
           | None => false
           end)
  && (match yAxis s with Some _ => true | None => false end)
  && (match xAxis s with Some _ => true | None => false end).

(** [Math.sqrt(d2) > sensitivity] for [d2 >= 0], without the square root:
    a negative threshold is always exceeded, otherwise squares compare.
    This is the comparison over the reals; the double [Math.sqrt] of the
    source can differ for a threshold within one unit in the last place of
    the distance. *)
Definition sqrtGt (d2 sensitivity : Q) : bool :=
  Qltb sensitivity 0 || Qltb (sensitivity * sensitivity) d2.

Definition hasDraggedPastSensitivity
    (e : Event) (data : DragDropData) (sensitivity : Q) : bool :=
  let orig := origin data in
  let oldX := o_pageX orig in
  let oldY := o_pageY orig in
  let newX := pageX e in
  let newY := pageY e in
  sqrtGt ((newX - oldX) * (newX - oldX) + (newY - oldY) * (newY - oldY))
         sensitivity.

(** ** Snapshot and grouping *)

Definition getPositionSnapshot
    (s : Series) (e : Event) (pts : list (nat * Point))
    (guideBox : option GuideBox) : PositionSnapshot :=
  {| o_pageX := pageX e;
     o_pageY := pageY e;
     o_guideBox := option_map attrs guideBox;
     o_points :=
       fold_left
         (fun res rp =>
            let point := snd rp in
            let pointProps :=
              fold_left
                (fun acc kv =>
                   match prop point (fst kv) with
                   | Some v => Obj.set (fst kv) v acc
                   | None => acc
                   end) (dragDropProps s) [] in
            Obj.set (p_id point)
                    {| pp_props := pointProps; pp_point := fst rp |} res)
         pts [];
     o_x := None; o_y := None;
     o_prevdX := None; o_prevdY := None |}.

(** Positions of the points of the store that satisfy [f]: [H.grep]. *)
Fixpoint filterRefs (f : Point -> bool) (i : nat) (ps : list Point)
  : list nat :=
  match ps with
  | [] => []
  | p :: rest =>
      if f p then i :: filterRefs f (S i) rest else filterRefs f (S i) rest
  end.

(** [getGroupedPoints].  Its callers pass a series with drag options;
    for a series without them the source raises a TypeError, the model
    reads no [groupBy]. *)
Definition getGroupedPoints
    (s : Series) (ps : list Point) (r : nat) (point : Point) : list nat :=
  match groupBy (pickD (s_dragDrop s) noOptions) with
  | Some groupKey =>
      if truthy (Obj.get groupKey (p_options point)) then
        filterRefs
          (fun comparePoint =>
             strictEq (Obj.get groupKey (p_options comparePoint))
                      (Obj.get groupKey (p_options point)))
          0%nat ps
      else [r]
  | None => [r]
  end.

(** The live points behind a list of references. *)
Definition deref (ps : list Point) (refs : list nat) : list (nat * Point) :=
  flat_map (fun r => match nth_error ps r with
                     | Some p => [(r, p)]
                     | None => []
                     end) refs.

(** ** Guide-box geometry *)

Definition Qmax2 (a b : Q) : Q := if Qle_bool a b then b else a.
Definition Qmin2 (a b : Q) : Q := if Qle_bool a b then a else b.

Definition withAttrs (g : GuideBox) (r : Rect) : GuideBox :=
  {| attrs := r; translateX := translateX g; translateY := translateY g |}.

(** [update] is the pair of the x and y amounts. *)
Definition resizeRect (rect : GuideBox) (updateSide : option Side)
    (update : Q * Q) : GuideBox :=
  let a := attrs rect in
  match updateSide with
  | Some SLeft =>
      withAttrs rect
        {| rx := rx a + fst update; ry := ry a;
           rwidth := Qmax2 1 (rwidth a - fst update); rheight := rheight a |}
  | Some SRight =>
      withAttrs rect
        {| rx := rx a; ry := ry a;
           rwidth := Qmax2 1 (rwidth a + fst update); rheight := rheight a |}
  | Some STop =>
      withAttrs rect
        {| rx := rx a; ry := ry a + snd update;
           rwidth := rwidth a; rheight := Qmax2 1 (rheight a - snd update) |}
  | Some SBottom =>
      withAttrs rect
        {| rx := rx a; ry := ry a;
           rwidth := rwidth a; rheight := Qmax2 1 (rheight a + snd update) |}
  | None => rect
  end.

Definition flipResizeSide (side : Side) : Side :=
  match side with
  | SLeft => SRight
  | SRight => SLeft
  | STop => SBottom
  | SBottom => STop
  end.

(** [Series.prototype.getGuideBox]: the bounding box of the points'
    graphics.  The accumulators start at plus and minus infinity ([None]);
    without any point there is no finite rectangle. *)
Definition getGuideBox (pts : list (nat * Point)) : option GuideBox :=
  let step (acc : option (Q * Q * Q * Q)) (rp : nat * Point) :=
    let bBox := p_bBox (snd rp) in
    match acc with
    | None =>
        Some (rx bBox, rx bBox + rwidth bBox, ry bBox, ry bBox + rheight bBox)
    | Some (minX, maxX, minY, maxY) =>
        Some (Qmin2 (rx bBox) minX, Qmax2 (rx bBox + rwidth bBox) maxX,
              Qmin2 (ry bBox) minY, Qmax2 (ry bBox + rheight bBox) maxY)
    end in
  match fold_left step pts None with
  | Some (minX, maxX, minY, maxY) =>
      Some {| attrs := {| rx := minX; ry := minY;
                          rwidth := maxX - minX; rheight := maxY - minY |};
              translateX := 0; translateY := 0 |}
  | None => None
  end.

(** ** Value translator *)

Definition axisUpper (a : AxisName) : string :=
  match a with
  | AxisX => "X"
  | AxisY => "Y"
  end.

(** The utility nested in [getDropValues]: apply the precision and limit
    the value within the draggable range.  Numbers are exact rationals
    here; the doubles of the source can differ from [round(val / P) * P]
    by one unit in the last place for a precision such as 0.1. *)
Definition limitToRange (options : DragDropOptions) (val : Q)
    (direction : string) : Q :=
  let precision :=
    pickD (Obj.get ("dragPrecision" ++ direction) (nums options)) 1 in
  let min := Obj.get ("dragMin" ++ direction) (nums options) in
  let max := Obj.get ("dragMax" ++ direction) (nums options) in
  let res :=
    if negb (Qeq_bool precision 0)
    then inject_Z (MathRound (val / precision)) * precision
    else val in
  MathMax min (MathMin max res).

(** [axis.toValue(axis.toPixels(old, true) + (axis.horiz ? dX : dY), true)
    - old], NaN when [old] is not a number. *)
Definition deltaValue (a : Axis) (old : jsnum) (dX dY : Q) : jsnum :=
  match old with
  | Some v =>
      Some (toValue a (toPixels a v + (if horiz a then dX else dY)) - v)
  | None => None
  end.

(** The local [newVal] of the loop over [updateProps]. *)
Definition newVal (options : DragDropOptions) (pointOrigin : PointProps)
    (dXValue dYValue : jsnum) (key : string) (val : DragDropProp) : jsnum :=
  let oldVal := Obj.get key (pp_props pointOrigin) in
  option_map
    (fun v => limitToRange options v (axisUpper (axis val)))
    (nadd oldVal (match axis val with
                  | AxisX => dXValue
                  | AxisY => dYValue
                  end)).

(** [updateSingleProp]: undefined without a prop, true with exactly one,
    false with more. *)
Definition updateSingleProp (updateProps : Obj.t DragDropProp)
  : option bool :=
  match updateProps with
  | [] => None
  | [_] => Some true
  | _ :: _ :: _ => Some false
  end.

(** [Point.prototype.getDropValues].  A missing axis or a point that is
    not in the snapshot raises a TypeError in the source; the model then
    yields no value. *)
Definition getDropValues (s : Series) (point : Point)
    (orig : PositionSnapshot) (newPos : Event)
    (updateProps : Obj.t DragDropProp) : Obj.t jsnum :=
  match xAxis s, yAxis s, Obj.get (p_id point) (o_points orig) with
  | Some xAx, Some yAx, Some pointOrigin =>
      let options := mergeOptions (s_dragDrop s) (p_dragDrop point) in
      let dX := pageX newPos - o_pageX orig in
      let dY := pageY newPos - o_pageY orig in
      let oldX := pick (o_x orig) (prop point "x") in
      let oldY := pick (o_y orig) (prop point "y") in
      let dXValue := deltaValue xAx oldX dX dY in
      let dYValue := deltaValue yAx oldY dX dY in
      let single := pickD (updateSingleProp updateProps) false in
      fold_left
        (fun result kv =>
           let key := fst kv in
           let val := snd kv in
           let nv := newVal options pointOrigin dXValue dYValue key val in
           if single
              && match propValidate val with
                 | Some validate => negb (validate nv point)
                 | None => false
                 end
           then result
           else Obj.set key nv result)
        updateProps []
  | _, _, _ => []
  end.

(** Modelled from the spec: [Point.update(options, false)] of the chart
    core is not part of this module; it is the "point field write" of the
    data model: every key of [options] is written to the point, the other
    fields are left as they are. *)
Definition pointUpdate (p : Point) (values : Obj.t jsnum) : Point :=
  {| p_id := p_id p;
     p_vals :=
       fold_left
         (fun vs kv => match snd kv with
                       | Some v => Obj.set (fst kv) v vs
                       | None => Obj.remove (fst kv) vs
                       end) values (p_vals p);
     p_options := p_options p;
     p_dragDrop := p_dragDrop p;
     p_bBox := p_bBox p |}.

Fixpoint updateNth {A : Type} (n : nat) (f : A -> A) (l : list A) : list A :=
  match l, n with
  | [], _ => []
  | a :: rest, O => f a :: rest
  | a :: rest, S n' => a :: updateNth n' f rest
  end.

Definition truthyKey (k : option string) : bool :=
  match k with
  | Some key => negb (String.eqb key "")
  | None => false
  end.

(** The props of the series that this drag updates. *)
Definition getUpdateProps (s : Series) (options : DragDropOptions)
    (resizeProp : option string) : Obj.t DragDropProp :=
  fold_left
    (fun updateProps kv =>
       let key := fst kv in
       let val := snd kv in
       let enabled :=
         pickD (pick (match optionName val with
                      | Some n => if String.eqb n "" then Some false
                                  else Obj.get n (flags options)
                      | None => None
                      end)
                     (match axis val with
                      | AxisX => Obj.get "draggableX" (flags options)
                      | AxisY => Obj.get "draggableY" (flags options)
                      end)) false in
       if truthyKey resizeProp
          && negb (String.eqb (pickD resizeProp "") key)
       then updateProps
       else if enabled
               && (if truthyKey resizeProp then resize val else move val)
       then Obj.set key val updateProps
       else updateProps)
    (dragDropProps s) [].

Definition getNewPoints (s : Series) (ps : list Point)
    (data : DragDropData) (newPos : Event) : Obj.t NewPoint :=
  match nth_error ps (dd_point data) with
  | Some point =>
      let options := mergeOptions (s_dragDrop s) (p_dragDrop point) in
      let resizeProp := updateProp data in
      let updateProps := getUpdateProps s options resizeProp in
      fold_left
        (fun hashmap rp =>
           Obj.set (p_id (snd rp))
                   {| np_point := fst rp;
                      newValues :=
                        getDropValues s (snd rp) (origin data) newPos
                                      updateProps |}
                   hashmap)
        (if truthyKey resizeProp
         then [(dd_point data, point)]
         else deref ps (groupedPoints data))
        []
  | None => []
  end.

(** [updatePoints]: write [dragDropData.newPoints] to the points and
    redraw.  The timer that clears [isDragDropAnimating] is a step of its
    own, [clearAnimating]. *)
Definition updatePoints (c : Chart) (animate : bool) : Chart :=
  let nps := match dragDropData c with
             | Some data => pickD (newPoints data) []
             | None => []
             end in
  let c1 := setAnimating c true in
  let ps :=
    fold_left
      (fun acc kv =>
         updateNth (np_point (snd kv))
                   (fun p => pointUpdate p (newValues (snd kv))) acc)
      nps (points c1) in
  emit (setPoints c1 ps) (Redraw animate).

Definition clearAnimating (c : Chart) : Chart := setAnimating c false.

(** ** Drag handles *)

(** [Point.prototype.showDragHandles]: the handle group exists as soon as
    one prop asks for a handle.  Paths and positions of the handles belong
    to the renderer. *)
Definition showDragHandles (point : Point) (c : Chart) : Chart :=
  let s := series c in
  let options := mergeOptions (s_dragDrop s) (p_dragDrop point) in
  let wanted (val : DragDropProp) : bool :=
    let byName := match optionName val with
                  | Some n => Obj.get n (flags options)
                  | None => None
                  end in
    resize val
    && (match resizeSide val with Some _ => true | None => false end)
    && (flagOn options ("draggable" ++ axisUpper (axis val))
        || pickD byName false)
    && negb (match byName with Some false => true | _ => false end) in
  if existsb (fun kv => wanted (snd kv)) (dragDropProps s)
  then setHandles c true
  else c.

Definition hideDragHandles (c : Chart) : Chart :=
  if dragHandles c then setHandles (emit c HandlesDestroyed) false else c.

(** ** Session *)

Definition withOrigin (d : DragDropData) (o : PositionSnapshot)
  : DragDropData :=
  {| origin := o; dd_point := dd_point d; groupedPoints := groupedPoints d;
     isDragging := isDragging d;
     draggedPastSensitivity := draggedPastSensitivity d;
     updateProp := updateProp d; newPoints := newPoints d |}.

Definition withIsDragging (d : DragDropData) (b : bool) : DragDropData :=
  {| origin := origin d; dd_point := dd_point d;
     groupedPoints := groupedPoints d; isDragging := b;
     draggedPastSensitivity := draggedPastSensitivity d;
     updateProp := updateProp d; newPoints := newPoints d |}.

Definition withPastSensitivity (d : DragDropData) (b : bool)
  : DragDropData :=
  {| origin := origin d; dd_point := dd_point d;
     groupedPoints := groupedPoints d; isDragging := isDragging d;
     draggedPastSensitivity := b;
     updateProp := updateProp d; newPoints := newPoints d |}.

Definition withUpdateProp (d : DragDropData) (k : option string)
  : DragDropData :=
  {| origin := origin d; dd_point := dd_point d;
     groupedPoints := groupedPoints d; isDragging := isDragging d;
     draggedPastSensitivity := draggedPastSensitivity d;
     updateProp := k; newPoints := newPoints d |}.

Definition withNewPoints (d : DragDropData) (n : option (Obj.t NewPoint))
  : DragDropData :=
  {| origin := origin d; dd_point := dd_point d;
     groupedPoints := groupedPoints d; isDragging := isDragging d;
     draggedPastSensitivity := draggedPastSensitivity d;
     updateProp := updateProp d; newPoints := n |}.

Definition withPrev (o : PositionSnapshot) (dX dY : Q) : PositionSnapshot :=
  {| o_pageX := o_pageX o; o_pageY := o_pageY o;
     o_guideBox := o_guideBox o; o_points := o_points o;
     o_x := o_x o; o_y := o_y o;
     o_prevdX := Some dX; o_prevdY := Some dY |}.

Definition seriesFlag (s : Series) (name : string) : option bool :=
  match s_dragDrop s with
  | Some o => Obj.get name (flags o)
  | None => None
  end.

(** [initDragDrop]: the group, the guide box when live redraw is off, and
    the drag data with the snapshot. *)
Definition initDragDrop (e : Event) (r : nat) (point : Point) (c : Chart)
  : Chart :=
  let s := series c in
  let grouped := getGroupedPoints s (points c) r point in
  let live := pickD (seriesFlag s "liveRedraw") true in
  let guideBox :=
    if live then None else getGuideBox (deref (points c) grouped) in
  let c1 := if live then c else setGuideBox c guideBox in
  setChartDragging
    (setData c1
       (Some {| origin :=
                  getPositionSnapshot s e (deref (points c) grouped) guideBox;
                dd_point := r;
                groupedPoints := grouped;
                isDragging := false;
                draggedPastSensitivity := false;
                updateProp := None;
                newPoints := None |}))
    true.

(** The test of [resizeGuideBox] for a reversed axis:
    [resizeProp.axis === 'x' && series.xAxis.reversed ||
     resizeProp.axis === 'y' && series.yAxis.reversed]. *)
Definition axisReversed (s : Series) (a : AxisName) : bool :=
  match a with
  | AxisX => match xAxis s with
             | Some ax => reversed ax
             | None => false
             end
  | AxisY => match yAxis s with
             | Some ax => reversed ax
             | None => false
             end
  end.

(** [resizeGuideBox]: one side of the guide box follows the pointer. *)
Definition resizeGuideBox (point : Point) (dX dY : Q) (c : Chart) : Chart :=
  let s := series c in
  match dragDropData c, dragGuideBox c with
  | Some data, Some box =>
      match Obj.get (pickD (updateProp data) "") (dragDropProps s),
            Obj.get (p_id point) (pickD (newPoints data) []) with
      | Some resizeProp, Some np =>
          let newPoint := newValues np in
          let side :=
            match resizeSide resizeProp with
            | Some (SideFn f) => Some (f newPoint point (s_info s))
            | Some (SideStatic sd) => Some sd
            | None => None
            end in
          let box1 :=
            match beforeResize resizeProp with
            | Some hook =>
                withAttrs box (hook (attrs box) newPoint point (s_info s))
            | None => box
            end in
          setGuideBox c
            (Some (resizeRect box1
                     (if axisReversed s (axis resizeProp)
                      then option_map flipResizeSide side
                      else side)
                     (match axis resizeProp with
                      | AxisX => dX - pickD (o_prevdX (origin data)) 0
                      | AxisY => 0
                      end,
                      match axis resizeProp with
                      | AxisX => 0
                      | AxisY => dY - pickD (o_prevdY (origin data)) 0
                      end)))
      | _, _ => c
      end
  | _, _ => c
  end.

(** [dragMove]: the default handler of the [drag] event.  In the branch
    without live redraw the source calls [chart.dragGuideBox.translate] and
    raises when there is no guide box; the model goes on to the record of
    [prevdX] and [prevdY]. *)
Definition dragMove (e : Event) (point : Point) (c : Chart) : Chart :=
  match dragDropData c with
  | None => c
  | Some data =>
      let s := series c in
      let options := mergeOptions (s_dragDrop s) (p_dragDrop point) in
      let draggableX := flagOn options "draggableX" in
      let draggableY := flagOn options "draggableY" in
      let orig := origin data in
      let dX0 := pageX e - o_pageX orig in
      let dY0 := pageY e - o_pageY orig in
      let dX := if inverted c then - dY0 else dX0 in
      let dY := if inverted c then - dX0 else dY0 in
      let data1 :=
        withNewPoints data (Some (getNewPoints s (points c) data e)) in
      let c1 := setData c (Some data1) in
      let c2 :=
        if pickD (Obj.get "liveRedraw" (flags options)) true then
          showDragHandles point (hideDragHandles (updatePoints c1 false))
        else if truthyKey (updateProp data) then
          resizeGuideBox point dX dY c1
        else
          setGuideBox c1
            (option_map
               (fun g => {| attrs := attrs g;
                            translateX := if draggableX then dX else 0;
                            translateY := if draggableY then dY else 0 |})
               (dragGuideBox c1)) in
      setData c2 (option_map (fun d => withOrigin d (withPrev (origin d) dX dY))
                             (dragDropData c2))
  end.

Definition zoomOrPanKeyPressed (c : Chart) (e : Event) : bool :=
  (match zoomKey c with Some k => keysDown e k | None => false end)
  || (match panKey c with Some k => keysDown e k | None => false end).

Definition defaultDragSensitivity : Q := 2.

Definition numOption (o : option DragDropOptions) (name : string)
  : option Q :=
  match o with
  | Some d => Obj.get name (nums d)
  | None => None
  end.

(** The threshold that [mouseMove] hands to [hasDraggedPastSensitivity]:
    [pick(point.options.dragDrop && point.options.dragDrop.dragSensitiviy,
          seriesDragDropOpts && seriesDragDropOpts.dragSensitiviy,
          defaultDragSensitivity)], with the option name as the source
    spells it. *)
Definition sensitivityOf (s : Series) (point : Point) : Q :=
  let seriesDragDropOpts := s_dragDrop s in
  pickD (pick (numOption (p_dragDrop point) "dragSensitiviy")
              (numOption seriesDragDropOpts "dragSensitiviy"))
        defaultDragSensitivity.

(** [mouseMove]: on container mouse move.  [firePointEvent] is taken
    without user handlers: the event is recorded and its default function
    runs. *)
Definition mouseMove (e : Event) (c : Chart) : Chart :=
  if zoomOrPanKeyPressed c e then c
  else
    match dragDropData c with
    | None => c
    | Some data =>
        if isDragging data then
          match nth_error (points c) (dd_point data) with
          | None => c
          | Some point =>
              let past :=
                if draggedPastSensitivity data then true
                else
                  hasDraggedPastSensitivity e data
                    (sensitivityOf (series c) point) in
              let c1 := setData c (Some (withPastSensitivity data past)) in
              if past then dragMove e point (emit c1 (Fired "drag"))
              else c1
          end
        else c
    end.

(** [mouseUp]: on container mouse up (and mouse leave). *)
Definition mouseUp (e : Event) (c : Chart) : Chart :=
  let c1 :=
    match dragDropData c with
    | Some data =>
        if isDragging data && draggedPastSensitivity data then
          updatePoints (emit (hideDragHandles c) (Fired "drop")) true
        else c
    | None => c
    end in
  let c2 := setData c1 None in
  match dragGuideBox c2 with
  | Some g => setGuideBox (emit c2 (GuideBoxDestroyed g)) None
  | None => c2
  end.

Definition draggedPastSensitivity_of (c : Chart) : bool :=
  match dragDropData c with
  | Some data => draggedPastSensitivity data
  | None => false
  end.

Definition sessionDragging (c : Chart) : bool :=
  match dragDropData c with
  | Some data => isDragging data
  | None => false
  end.

(** [mouseDown]: on container mouse down. *)
Definition mouseDown (e : Event) (c : Chart) : Chart :=
  if zoomOrPanKeyPressed c e then c
  else if sessionDragging c then mouseUp e c
  else
    match hoverPoint c with
    | None => c
    | Some r =>
        match nth_error (points c) r with
        | None => c
        | Some dragPoint =>
            if isPointMovable (series c) dragPoint then
              let c1 := initDragDrop e r dragPoint c in
              emit (setData c1 (option_map (fun d => withIsDragging d true)
                                           (dragDropData c1)))
                   (Fired "dragStart")
            else c
        end
    end.

(** [onResizeHandleMouseDown]: mouse down on the resize handle of
    [updateProp]. *)
Definition onResizeHandleMouseDown (e : Event) (r : nat) (key : string)
    (c : Chart) : Chart :=
  if zoomOrPanKeyPressed c e then c
  else
    match nth_error (points c) r with
    | None => c
    | Some point =>
        let c1 := initDragDrop e r point c in
        emit (setData c1
                (option_map
                   (fun d => withUpdateProp (withIsDragging d true) (Some key))
                   (dragDropData c1)))
             (Fired "dragStart")
    end.

(** The handlers as events of a chart. *)
Inductive Input : Type :=
| Down (e : Event)
| HandleDown (e : Event) (r : nat) (key : string)
| Move (e : Event)
| Up (e : Event)
| Leave (e : Event).

Definition step (c : Chart) (i : Input) : Chart :=
  match i with
  | Down e => mouseDown e c
  | HandleDown e r key => onResizeHandleMouseDown e r key c
  | Move e => mouseMove e c
  | Up e => mouseUp e c
  | Leave e => mouseUp e c
  end.

Definition run (c : Chart) (inputs : list Input) : Chart :=
  fold_left step inputs c.

(** * Statements and scenarios *)

(** ** Precision and range options *)

(** A value is a multiple of [P]. *)
Definition multipleOf (P v : Q) : Prop := exists k : Z, v == inject_Z k * P.

(** The range and precision configured for one direction. *)
Definition dragMin (o : DragDropOptions) (direction : string) : option Q :=
  Obj.get ("dragMin" ++ direction) (nums o).
Definition dragMax (o : DragDropOptions) (direction : string) : option Q :=
  Obj.get ("dragMax" ++ direction) (nums o).
Definition dragPrecision (o : DragDropOptions) (direction : string)
  : option Q :=
  Obj.get ("dragPrecision" ++ direction) (nums o).

(** ** Scenario: a movable [y] on a linear axis *)

Definition noKeys : ModKey -> bool := fun _ => false.

Definition pointerAt (x y : Q) : Event :=
  {| pageX := x; pageY := y; keysDown := noKeys |}.

Definition unitBox : Rect :=
  {| rx := 0; ry := 0; rwidth := 1; rheight := 1 |}.

Definition noInfo : SeriesInfo :=
  {| threshold := None; translatedThreshold := None |}.

(** The vertical axis with [toPixels(v) = v * 2] and its inverse. *)
Definition doublingAxis : Axis :=
  {| toPixels := fun v => v * 2;
     toValue := fun p => p / 2;
     horiz := false;
     reversed := false |}.

Definition movableY : DragDropProp :=
  {| optionName := None; axis := AxisY; move := true; resize := false;
     resizeSide := None; propValidate := None; beforeResize := None |}.

(** A series whose only prop is the movable [y], without precision or
    limits in its options. *)
Definition ySeries (fl : Obj.t bool) (xAx : Axis) : Series :=
  {| s_dragDrop := Some {| flags := fl; nums := []; groupBy := None |};
     dragDropProps := [("y", movableY)];
     xAxis := Some xAx;
     yAxis := Some doublingAxis;
     s_info := noInfo |}.

Definition yPoint (name : string) (x : Q) : Point :=
  {| p_id := name; p_vals := [("x", x); ("y", 10)]; p_options := [];
     p_dragDrop := None; p_bBox := unitBox |}.

(** ** Precision and range *)

(** The argument of [limitToRange] in the loop of [getDropValues]:
    [oldVal + (val.axis === 'x' ? dXValue : dYValue)]. *)
Definition proposedValue (s : Series) (point : Point)
    (orig : PositionSnapshot) (newPos : Event) (key : string)
    (val : DragDropProp) : jsnum :=
  match xAxis s, yAxis s, Obj.get (p_id point) (o_points orig) with
  | Some xAx, Some yAx, Some pointOrigin =>
      let dX := pageX newPos - o_pageX orig in
      let dY := pageY newPos - o_pageY orig in
      nadd (Obj.get key (pp_props pointOrigin))
           (match axis val with
            | AxisX => deltaValue xAx (pick (o_x orig) (prop point "x")) dX dY
            | AxisY => deltaValue yAx (pick (o_y orig) (prop point "y")) dX dY
            end)
  | _, _, _ => None
  end.

Definition clampOptions : DragDropOptions :=
  {| flags := [("draggableY", true)];
     nums := [("dragMinY", 1); ("dragMaxY", 5); ("dragPrecisionY", 2)];
     groupBy := None |}.

Definition clampSeries : Series :=
  {| s_dragDrop := Some clampOptions;
     dragDropProps := [("y", movableY)];
     xAxis := Some doublingAxis;
     yAxis := Some doublingAxis;
     s_info := noInfo |}.

Definition clampPoint : Point :=
  {| p_id := "p"; p_vals := [("x", 0); ("y", 0)]; p_options := [];
     p_dragDrop := None; p_bBox := unitBox |}.

Definition clampOrigin : PositionSnapshot :=
  getPositionSnapshot clampSeries (pointerAt 0 0) [(0%nat, clampPoint)] None.

(** ** Validation of a single resized prop *)

Definition rangeOptions : DragDropOptions :=
  {| flags := [("draggableY", true)]; nums := []; groupBy := None |}.

(** A vertical axis with one pixel per unit. *)
Definition unitAxisV : Axis :=
  {| toPixels := fun v => v; toValue := fun p => p;
     horiz := false; reversed := false |}.

Definition unitAxisH : Axis :=
  {| toPixels := fun v => v; toValue := fun p => p;
     horiz := true; reversed := false |}.

Definition rangeSeries : Series :=
  {| s_dragDrop := Some rangeOptions;
     dragDropProps := Registry.columnrange;
     xAxis := Some unitAxisH;
     yAxis := Some unitAxisV;
     s_info := noInfo |}.

(** A columnrange point with [low = 5] and [high = 15]; its [y] is its
    [low]. *)
Definition rangePoint : Point :=
  {| p_id := "r";
     p_vals := [("x", 0); ("y", 5); ("low", 5); ("high", 15)];
     p_options := []; p_dragDrop := None; p_bBox := unitBox |}.

(** A chart at rest, without and with a point under the pointer. *)
Definition chartOf (s : Series) (ps : list Point) : Chart :=
  {| series := s; points := ps; hoverPoint := None; inverted := false;
     panKey := None; zoomKey := None; dragDropData := None;
     dragGuideBox := None; dragHandles := false;
     isDragDropAnimating := false; c_isDragging := false; log := [] |}.

Definition hovering (s : Series) (ps : list Point) (r : nat) : Chart :=
  {| series := s; points := ps; hoverPoint := Some r; inverted := false;
     panKey := None; zoomKey := None; dragDropData := None;
     dragGuideBox := None; dragHandles := false;
     isDragDropAnimating := false; c_isDragging := false; log := [] |}.

Definition rangeChart : Chart := chartOf rangeSeries [rangePoint].

(** The handle of [low] is pressed at (0, 0) and dragged 11 pixels, which
    proposes [low = 16]. *)
Definition lowResize : list Input :=
  [HandleDown (pointerAt 0 0) 0%nat "low"; Move (pointerAt 0 11)].

Definition rangeOrigin : PositionSnapshot :=
  getPositionSnapshot rangeSeries (pointerAt 0 0) [(0%nat, rangePoint)] None.

(** ** Guide box: resizing on a reversed axis *)

(** A columnrange series on a reversed y axis, with a guide box instead of
    live redraw. *)
Definition reversedAxisV : Axis :=
  {| toPixels := fun v => 100 - v; toValue := fun p => 100 - p;
     horiz := false; reversed := true |}.

Definition reversedSeries : Series :=
  {| s_dragDrop :=
       Some {| flags := [("draggableY", true); ("liveRedraw", false)];
               nums := []; groupBy := None |};
     dragDropProps := Registry.columnrange;
     xAxis := Some unitAxisH;
     yAxis := Some reversedAxisV;
     s_info := noInfo |}.

Definition reversedPoint : Point :=
  {| p_id := "r";
     p_vals := [("x", 0); ("y", 5); ("low", 5); ("high", 15)];
     p_options := []; p_dragDrop := None;
     p_bBox := {| rx := 10; ry := 85; rwidth := 4; rheight := 10 |} |}.

(** The handle of [high] has been pressed and moved 3 pixels down. *)
Definition reversedResizing : Chart :=
  run (chartOf reversedSeries [reversedPoint])
      [HandleDown (pointerAt 0 0) 0%nat "high"; Move (pointerAt 0 3)].

(** ** The sensitivity gate *)

(** The pointer of [e] is no further than [t] pixels from the pointer
    position of the snapshot: [sqrt (dx^2 + dy^2) <= t], stated with
    squares. *)
Definition squaredDistance (e : Event) (o : PositionSnapshot) : Q :=
  (pageX e - o_pageX o) * (pageX e - o_pageX o)
  + (pageY e - o_pageY o) * (pageY e - o_pageY o).

Definition withinSensitivity (e : Event) (o : PositionSnapshot) (t : Q)
  : Prop :=
  0 <= t /\ squaredDistance e o <= t * t.

(** A session that has just been opened by a pointer-down at
    (100, 100). *)
Definition armedChart : Chart :=
  mouseDown (pointerAt 100 100)
    (hovering (ySeries [("draggableY", true)] unitAxisH) [yPoint "p" 0]
              0%nat).

(** ** The configured sensitivity *)

Definition sensitiveSeries (v : Q) : Series :=
  {| s_dragDrop := Some {| flags := [("draggableY", true)];
                           nums := [("dragSensitivity", v)];
                           groupBy := None |};
     dragDropProps := [("y", movableY)];
     xAxis := Some unitAxisH;
     yAxis := Some unitAxisV;
     s_info := noInfo |}.

Definition sensitivePoint (w : option Q) : Point :=
  {| p_id := "p"; p_vals := [("x", 0); ("y", 0)]; p_options := [];
     p_dragDrop :=
       option_map (fun q => {| flags := [];
                               nums := [("dragSensitivity", q)];
                               groupBy := None |}) w;
     p_bBox := unitBox |}.

(** ** The origin of the value computation *)

(** A vertical axis that is not linear: one pixel per unit up to 10, two
    pixels per unit above. *)
Definition brokenAxis : Axis :=
  {| toPixels := fun v => if Qle_bool v 10 then v else 10 + (v - 10) * 2;
     toValue := fun p => if Qle_bool p 10 then p else 10 + (p - 10) / 2;
     horiz := false;
     reversed := false |}.

Definition brokenSeries : Series :=
  {| s_dragDrop := Some {| flags := [("draggableY", true)]; nums := [];
                           groupBy := None |};
     dragDropProps := [("y", movableY)];
     xAxis := Some unitAxisH;
     yAxis := Some brokenAxis;
     s_info := noInfo |}.

Definition brokenPoint : Point :=
  {| p_id := "p"; p_vals := [("x", 0); ("y", 0)]; p_options := [];
     p_dragDrop := None; p_bBox := unitBox |}.

Definition brokenChart : Chart := hovering brokenSeries [brokenPoint] 0%nat.

(** ** One session per chart *)

Definition shiftDown (x y : Q) : Event :=
  {| pageX := x; pageY := y;
     keysDown := fun k => match k with KShift => true | _ => false end |}.

(** A chart with [zoomKey: 'shift'] in the middle of a drag with a guide
    box. *)
Definition guidedSession : Chart :=
  run {| series := reversedSeries; points := [reversedPoint];
         hoverPoint := Some 0%nat; inverted := false;
         panKey := None; zoomKey := Some KShift; dragDropData := None;
         dragGuideBox := None; dragHandles := false;
         isDragDropAnimating := false; c_isDragging := false; log := [] |}
      [Down (pointerAt 0 0); Move (pointerAt 0 4)].

(** ** Grouping *)

Definition linearAxis (a : Axis) (slope offset : Q) : Prop :=
  ~ slope == 0
  /\ (forall v, toPixels a v == slope * v + offset)
  /\ (forall p, toValue a p == (p - offset) / slope).

(** The pixel delta that [getDropValues] feeds to an axis. *)
Definition pointerDelta (a : Axis) (orig : PositionSnapshot)
    (newPos : Event) : Q :=
  if horiz a then pageX newPos - o_pageX orig
  else pageY newPos - o_pageY orig.

Definition groupSeries : Series :=
  {| s_dragDrop := Some {| flags := [("draggableY", true)]; nums := [];
                           groupBy := Some "g" |};
     dragDropProps := Registry.columnrange;
     xAxis := Some unitAxisH;
     yAxis := Some unitAxisV;
     s_info := noInfo |}.

Definition groupPoint (name g : string) (x low high : Q) : Point :=
  {| p_id := name;
     p_vals := [("x", x); ("y", low); ("low", low); ("high", high)];
     p_options := [("g", VStr g)]; p_dragDrop := None; p_bBox := unitBox |}.

(** Two points of the group [A] and one of the group [B]. *)
Definition groupChart : Chart :=
  hovering groupSeries
    [ groupPoint "a" "A" 0 5 15;
      groupPoint "b" "A" 1 (27 # 5) (77 # 5);
      groupPoint "c" "B" 2 5 15 ] 0%nat.

Definition lowHigh (c : Chart) : list (jsnum * jsnum) :=
  map (fun p => (prop p "low", prop p "high")) (points c).

Definition groupMoving : Chart := mouseDown (pointerAt 0 0) groupChart.

(** The drag data of [groupMoving]. *)
Definition groupData : DragDropData :=
  {| origin :=
       getPositionSnapshot groupSeries (pointerAt 0 0)
         (deref (points groupChart) [0%nat; 1%nat]) None;
     dd_point := 0%nat;
     groupedPoints := [0%nat; 1%nat];
     isDragging := true;
     draggedPastSensitivity := false;
     updateProp := None;
     newPoints := None |}.

(** * Further statements *)

(** ** Options of a point *)

(** A series and a point whose options disagree on the precision. *)
Definition coarseOptions : DragDropOptions :=
  {| flags := [("draggableY", true)];
     nums := [("dragPrecisionY", 10); ("dragMinY", 0)];
     groupBy := None |}.

Definition fineOptions : DragDropOptions :=
  {| flags := []; nums := [("dragPrecisionY", 1 # 2)]; groupBy := None |}.

(** ** Range with the bounds the wrong way round *)

Definition crossedOptions : DragDropOptions :=
  {| flags := []; nums := [("dragMinY", 8); ("dragMaxY", 3)];
     groupBy := None |}.

(** ** Values of a whole-point move *)

(** A columnrange point whose [low] and [high] are moved together. *)
Definition moveProps : Obj.t DragDropProp :=
  [("low", Registry.columnrange_low); ("high", Registry.columnrange_high)].

(** An xrange series and one of its points. *)
Definition xrangeSeries : Series :=
  {| s_dragDrop := Some {| flags := [("draggableX", true)]; nums := [];
                           groupBy := None |};
     dragDropProps := Registry.xrange;
     xAxis := Some unitAxisH;
     yAxis := Some unitAxisV;
     s_info := noInfo |}.

Definition xrangePoint : Point :=
  {| p_id := "t"; p_vals := [("x", 2); ("x2", 9); ("y", 0)];
     p_options := []; p_dragDrop := None; p_bBox := unitBox |}.

Definition xrangeOrigin : PositionSnapshot :=
  getPositionSnapshot xrangeSeries (pointerAt 0 0) [(0%nat, xrangePoint)]
    None.

(** ** Bounds of a guide box *)

(** One step of the loop of [getGuideBox] over the bounding boxes. *)
Definition growBounds (acc : option (Q * Q * Q * Q)) (bBox : Rect)
  : option (Q * Q * Q * Q) :=
  match acc with
  | None =>
      Some (rx bBox, rx bBox + rwidth bBox, ry bBox, ry bBox + rheight bBox)
  | Some (minX, maxX, minY, maxY) =>
      Some (Qmin2 (rx bBox) minX, Qmax2 (rx bBox + rwidth bBox) maxX,
            Qmin2 (ry bBox) minY, Qmax2 (ry bBox + rheight bBox) maxY)
  end.

(** The rectangle [outer] covers the rectangle [inner]. *)
Definition covers (outer inner : Rect) : Prop :=
  rx outer <= rx inner
  /\ rx inner + rwidth inner <= rx outer + rwidth outer
  /\ ry outer <= ry inner
  /\ ry inner + rheight inner <= ry outer + rheight outer.

Definition boxedPoint (name : string) (b : Rect) : Point :=
  {| p_id := name; p_vals := [("x", 0); ("y", 0)]; p_options := [];
     p_dragDrop := None; p_bBox := b |}.

Definition twoBoxes : list (nat * Point) :=
  [ (0%nat, boxedPoint "a" {| rx := 10; ry := 20; rwidth := 5; rheight := 5 |});
    (1%nat, boxedPoint "b" {| rx := 2; ry := 30; rwidth := 4; rheight := 1 |}) ].

Definition sampleBox : GuideBox :=
  {| attrs := {| rx := 10; ry := 20; rwidth := 30; rheight := 40 |};
     translateX := 0; translateY := 0 |}.

(** ** Draggable charts and enabled props *)

(** [isChartDraggable]: the series are tried from the last to the
    first. *)
Definition isChartDraggable (hasCartesianSeries : bool) (ss : list Series)
  : bool :=
  hasCartesianSeries
  && existsb (fun s => match s_dragDrop s with
                       | Some _ => isSeriesDraggable s
                       | None => false
                       end) (rev ss).

(** The local [enabled] of the loop of [getNewPoints]:
    [pick(val.optionName && options[val.optionName],
          val.axis === 'x' ? options.draggableX : options.draggableY)]. *)
Definition propEnabled (options : DragDropOptions) (val : DragDropProp)
  : bool :=
  pickD (pick (match optionName val with
               | Some n => if String.eqb n "" then Some false
                           else Obj.get n (flags options)
               | None => None
               end)
              (match axis val with
               | AxisX => Obj.get "draggableX" (flags options)
               | AxisY => Obj.get "draggableY" (flags options)
               end)) false.

(** A columnrange series with the y direction on and [low] switched off
    by its own option. *)
Definition lowOffOptions : DragDropOptions :=
  {| flags := [("draggableY", true); ("draggableLow", false)];
     nums := []; groupBy := None |}.

Definition lowOffSeries : Series :=
  {| s_dragDrop := Some lowOffOptions;
     dragDropProps := Registry.columnrange;
     xAxis := Some unitAxisH;
     yAxis := Some unitAxisV;
     s_info := noInfo |}.

(** A columnrange series with the prop options on and no direction on. *)
Definition propsOnlySeries : Series :=
  {| s_dragDrop :=
       Some {| flags := [("draggableLow", true); ("draggableHigh", true)];
               nums := []; groupBy := None |};
     dragDropProps := Registry.columnrange;
     xAxis := Some unitAxisH;
     yAxis := Some unitAxisV;
     s_info := noInfo |}.

Definition pinnedPoint : Point :=
  {| p_id := "q";
     p_vals := [("x", 0); ("y", 5); ("low", 5); ("high", 15)];
     p_options := [];
     p_dragDrop :=
       Some {| flags := [("draggableX", false); ("draggableY", false)];
               nums := []; groupBy := None |};
     p_bBox := unitBox |}.

(** ** Sessions *)

(** The new points that [updatePoints] writes. *)
Definition pendingNewPoints (c : Chart) : Obj.t NewPoint :=
  match dragDropData c with
  | Some data => pickD (newPoints data) []
  | None => []
  end.

(** What a session keeps from its start: the dragged point, the group,
    the resized prop and the snapshot of pointer, guide box and points;
    once the sensitivity has been passed it stays passed. *)
Definition sameSession (d d' : DragDropData) : Prop :=
  dd_point d' = dd_point d
  /\ groupedPoints d' = groupedPoints d
  /\ isDragging d' = isDragging d
  /\ updateProp d' = updateProp d
  /\ o_pageX (origin d') = o_pageX (origin d)
  /\ o_pageY (origin d') = o_pageY (origin d)
  /\ o_guideBox (origin d') = o_guideBox (origin d)
  /\ o_points (origin d') = o_points (origin d)
  /\ o_x (origin d') = o_x (origin d)
  /\ o_y (origin d') = o_y (origin d)
  /\ (draggedPastSensitivity d = true -> draggedPastSensitivity d' = true).

(** The parts of a chart that no handler writes. *)
Definition sameSetup (c c' : Chart) : Prop :=
  series c' = series c
  /\ hoverPoint c' = hoverPoint c
  /\ inverted c' = inverted c
  /\ panKey c' = panKey c
  /\ zoomKey c' = zoomKey c
  /\ map p_id (points c') = map p_id (points c).

(** Whether the merged options of a point ask for live redraw. *)
Definition liveRedrawOf (s : Series) (point : Point) : bool :=
  pickD (Obj.get "liveRedraw"
           (flags (mergeOptions (s_dragDrop s) (p_dragDrop point)))) true.

(** The pointer delta of [dragMove], turned for an inverted chart. *)
Definition dragDX (c : Chart) (e : Event) (o : PositionSnapshot) : Q :=
  if inverted c then - (pageY e - o_pageY o) else pageX e - o_pageX o.

Definition dragDY (c : Chart) (e : Event) (o : PositionSnapshot) : Q :=
  if inverted c then - (pageX e - o_pageX o) else pageY e - o_pageY o.

(** What is added to the log when a guide box, if any, is destroyed. *)
Definition guideBoxGone (c : Chart) : list Effect :=
  match dragGuideBox c with
  | Some g => [GuideBoxDestroyed g]
  | None => []
  end.

(** The new points refer to the point [r] only and hold no other prop
    than [key]. *)
Definition resizeOnly (r : nat) (key : string) (nps : Obj.t NewPoint)
  : Prop :=
  forall kv,
    In kv nps ->
    np_point (snd kv) = r
    /\ forall k, In k (Obj.keys (newValues (snd kv))) -> k = key.

(** The group chart without live redraw. *)
Definition guidedGroupSeries : Series :=
  {| s_dragDrop :=
       Some {| flags := [("draggableY", true); ("liveRedraw", false)];
               nums := []; groupBy := Some "g" |};
     dragDropProps := Registry.columnrange;
     xAxis := Some unitAxisH;
     yAxis := Some unitAxisV;
     s_info := noInfo |}.

Definition guidedGroupChart : Chart :=
  mouseDown (pointerAt 0 0)
    (hovering guidedGroupSeries (points groupChart) 0%nat).

(** ** Presentation of handles and guide box *)

(** The cursor that [showDragHandles] gives to a handle:
    [handleOptions.cursor || (val.axis === 'x') !== !!chart.inverted ?
     'ew-resize' : 'ns-resize'], where [||] binds tighter than the
    conditional. *)
Definition handleCursor (cursor : option string) (a : AxisName)
    (inv : bool) : string :=
  if truthyKey cursor
     || negb (Bool.eqb (match a with AxisX => true | AxisY => false end) inv)
  then "ew-resize"
  else "ns-resize".

Definition defaultGuideBoxOptions : Obj.t (Obj.t jsval) :=
  [("default",
    [("className", VStr "highcharts-drag-box-default");
     ("lineWidth", VNum 1);
     ("lineColor", VStr "#888");
     ("color", VStr "rgba(0, 0, 0, 0.1)");
     ("cursor", VStr "move");
     ("zIndex", VNum 900)])].

(** [H.merge] on objects of objects: a key of [b] is merged into what
    the copy holds under it. *)
Definition mergeStates (a b : Obj.t (Obj.t jsval)) : Obj.t (Obj.t jsval) :=
  fold_left
    (fun copy kv =>
       Obj.set (fst kv)
               (Obj.merge (pickD (Obj.get (fst kv) copy) []) (snd kv))
               copy)
    b a.

(** The [stateOptions] of [Chart.prototype.setGuideBoxState]. *)
Definition guideBoxStateOptions (state : string)
    (options : option (Obj.t (Obj.t jsval))) : Obj.t jsval :=
  let guideBoxOptions :=
    mergeStates defaultGuideBoxOptions (pickD options []) in
  Obj.merge (pickD (Obj.get "default" guideBoxOptions) [])
            (pickD (Obj.get state guideBoxOptions) []).

(** The attributes that [setGuideBoxState] sets on the guide box. *)
Definition setGuideBoxState (state : string)
    (options : option (Obj.t (Obj.t jsval))) : Obj.t (option jsval) :=
  let stateOptions := guideBoxStateOptions state options in
  [("className", Obj.get "className" stateOptions);
   ("stroke", Obj.get "lineColor" stateOptions);
   ("strokeWidth", Obj.get "lineWidth" stateOptions);
   ("fill", Obj.get "color" stateOptions);
   ("cursor", Obj.get "cursor" stateOptions);
   ("zIndex", Obj.get "zIndex" stateOptions)].

(** Guide box options of a user: a colour for every state and a class
    name for the state [active]. *)
Definition userGuideBox : Obj.t (Obj.t jsval) :=
  [("default", [("color", VStr "red")]);
   ("active", [("className", VStr "my-box")])].

(** ** The column registry *)

Definition columnInfo : SeriesInfo :=
  {| threshold := Some 0; translatedThreshold := Some 200 |}.

(** The group chart after a press on [a] and a move of 3 pixels. *)
Definition movedGroup : Chart :=
  run groupChart [Down (pointerAt 0 0); Move (pointerAt 0 3)].

(** The moved group with the points as before the move: the state in which
    a drop finds a chart whose moves were shown by a guide box. *)
Definition pendingGroup : Chart :=
  setPoints movedGroup (points groupChart).

(** * Properties *)

(** ** Objects *)

Section ObjectFacts.

Context {A : Type}.

Lemma get_set_same (k : string) (v : A) (o : Obj.t A) :
  Obj.get k (Obj.set k v o) = Some v.
Proof.
  induction o as [|[k' v'] rest IH]; simpl.
  - now rewrite String.eqb_refl.
  - destruct (String.eqb k k') eqn:E; simpl; rewrite ?String.eqb_refl, ?E; auto.
Qed.

Lemma get_set_other (k k' : string) (v : A) (o : Obj.t A) :
  k <> k' -> Obj.get k (Obj.set k' v o) = Obj.get k o.
Proof.
  intros Hne. induction o as [|[k2 v2] rest IH]; simpl.
  - destruct (String.eqb k k') eqn:E; auto.
    apply String.eqb_eq in E. contradiction.
  - destruct (String.eqb k' k2) eqn:E2; simpl.
    + apply String.eqb_eq in E2. subst k2.
      destruct (String.eqb k k') eqn:E; auto.
      apply String.eqb_eq in E. contradiction.
    + destruct (String.eqb k k2); auto.
Qed.

(** A fold that assigns [F k x] under the key [k] for some of the entries
    [(k, x)] of a list: what is read afterwards was there before or was
    assigned from an entry of the list. *)
Lemma get_fold_assign {B : Type} (F : string -> B -> A)
    (skip : string -> B -> bool) (l : Obj.t B) :
  forall (acc : Obj.t A) (k : string) (a : A),
    Obj.get k
      (fold_left (fun res kv => if skip (fst kv) (snd kv) then res
                                else Obj.set (fst kv) (F (fst kv) (snd kv)) res)
                 l acc) = Some a ->
    Obj.get k acc = Some a
    \/ exists x, In (k, x) l /\ skip k x = false /\ a = F k x.
Proof.
  induction l as [|[k1 x1] rest IH]; intros acc k a H; simpl in H.
  - now left.
  - apply IH in H. destruct H as [H | (x & Hin & Hs & Ha)].
    + destruct (skip k1 x1) eqn:Es.
      * now left.
      * destruct (string_dec k k1) as [->|Hne].
        -- rewrite get_set_same in H. inversion H. right.
           exists x1. repeat split; auto. now left.
        -- rewrite get_set_other in H by assumption. now left.
    + right. exists x. repeat split; auto. now right.
Qed.

(** An object with distinct keys holds one value per key. *)
Lemma keys_unique (o : Obj.t A) (k : string) (v w : A) :
  NoDup (Obj.keys o) -> In (k, v) o -> In (k, w) o -> v = w.
Proof.
  induction o as [|[k' v'] rest IH]; simpl; intros Hnd Hv Hw; [destruct Hv|].
  inversion Hnd as [|? ? Hnot Hnd']. subst.
  destruct Hv as [Hv|Hv], Hw as [Hw|Hw].
  - congruence.
  - inversion Hv. subst. exfalso. apply Hnot.
    apply (in_map fst) in Hw. exact Hw.
  - inversion Hw. subst. exfalso. apply Hnot.
    apply (in_map fst) in Hv. exact Hv.
  - now apply IH.
Qed.

(** Entries under other keys do not touch what is stored under [k]. *)
Lemma get_fold_assign_absent {B : Type} (F : string -> B -> A)
    (skip : string -> B -> bool) (l : Obj.t B) (k : string) :
  ~ In k (Obj.keys l) ->
  forall acc : Obj.t A,
    Obj.get k
      (fold_left (fun res kv => if skip (fst kv) (snd kv) then res
                                else Obj.set (fst kv) (F (fst kv) (snd kv)) res)
                 l acc)
    = Obj.get k acc.
Proof.
  induction l as [|[k1 x1] rest IH]; intros Hno acc; simpl; [reflexivity|].
  rewrite IH by (intros Hin; apply Hno; now right).
  destruct (skip k1 x1); [reflexivity|].
  apply get_set_other. intros E. apply Hno. now left.
Qed.

(** With distinct keys an entry that is not skipped is read back. *)
Lemma get_fold_assign_written {B : Type} (F : string -> B -> A)
    (skip : string -> B -> bool) (l : Obj.t B) (k : string) (x : B) :
  NoDup (Obj.keys l) -> In (k, x) l -> skip k x = false ->
  forall acc : Obj.t A,
    Obj.get k
      (fold_left (fun res kv => if skip (fst kv) (snd kv) then res
                                else Obj.set (fst kv) (F (fst kv) (snd kv)) res)
                 l acc)
    = Some (F k x).
Proof.
  induction l as [|[k1 x1] rest IH]; intros Hnd Hin Hs acc; [destruct Hin|].
  simpl in Hnd. inversion Hnd as [|? ? Hnot Hnd']. subst.
  destruct Hin as [E|Hin].
  - inversion E. subst k1 x1. simpl. rewrite Hs.
    rewrite get_fold_assign_absent by exact Hnot. apply get_set_same.
  - simpl. now apply IH.
Qed.

End ObjectFacts.

(** ** Numbers *)

Lemma Qltb_lt (a b : Q) : Qltb a b = true <-> a < b.
Proof.
  unfold Qltb. rewrite negb_true_iff. split.
  - intros H. apply Qnot_le_lt. intros Hle.
    apply Qle_bool_iff in Hle. congruence.
  - intros H. destruct (Qle_bool b a) eqn:E; auto.
    apply Qle_bool_iff in E. exfalso. apply (Qlt_not_le _ _ H E).
Qed.

Lemma MathRound_nearest (x : Q) :
  inject_Z (MathRound x) <= x + (1 # 2)
  /\ x + (1 # 2) < inject_Z (MathRound x) + 1.
Proof.
  unfold MathRound. split.
  - apply Qfloor_le.
  - pose proof (Qlt_floor (x + (1 # 2))) as H.
    rewrite inject_Z_plus in H. exact H.
Qed.

Lemma MathMin_comp (hi : option Q) (a b : Q) :
  a == b -> MathMin hi a == MathMin hi b.
Proof.
  intros H. destruct hi as [h|]; simpl; auto.
  rewrite H. destruct (Qle_bool b h); auto. reflexivity.
Qed.

Lemma MathMax_comp (lo : option Q) (a b : Q) :
  a == b -> MathMax lo a == MathMax lo b.
Proof.
  intros H. destruct lo as [l|]; simpl; auto.
  rewrite H. destruct (Qle_bool l b); auto. reflexivity.
Qed.

Lemma MathMin_cases (h v : Q) :
  (v <= h /\ MathMin (Some h) v = v) \/ (h < v /\ MathMin (Some h) v = h).
Proof.
  simpl. destruct (Qle_bool v h) eqn:E.
  - left. split; auto. now apply Qle_bool_iff.
  - right. split; auto. apply Qnot_le_lt. intros H.
    apply Qle_bool_iff in H. congruence.
Qed.

Lemma MathMax_cases (l v : Q) :
  (l <= v /\ MathMax (Some l) v = v) \/ (v < l /\ MathMax (Some l) v = l).
Proof.
  simpl. destruct (Qle_bool l v) eqn:E.
  - left. split; auto. now apply Qle_bool_iff.
  - right. split; auto. apply Qnot_le_lt. intros H.
    apply Qle_bool_iff in H. congruence.
Qed.

(** The four ways [Math.max(mn, Math.min(mx, res))] can go. *)
Ltac clamp_split mn mx res :=
  let H1 := fresh "Hmin" in
  let E1 := fresh "Emin" in
  let H2 := fresh "Hmax" in
  let E2 := fresh "Emax" in
  destruct (MathMin_cases mx res) as [[H1 E1]|[H1 E1]]; rewrite E1;
  [destruct (MathMax_cases mn res) as [[H2 E2]|[H2 E2]]
  |destruct (MathMax_cases mn mx) as [[H2 E2]|[H2 E2]]];
  rewrite E2.

Lemma clamp_bounds (mn mx res : Q) :
  mn <= mx -> mn <= MathMax (Some mn) (MathMin (Some mx) res) <= mx.
Proof.
  intros Hle. clamp_split mn mx res; split; lra.
Qed.

Lemma clamp_cases (mn mx res : Q) :
  MathMax (Some mn) (MathMin (Some mx) res) = res
  \/ MathMax (Some mn) (MathMin (Some mx) res) = mn
  \/ MathMax (Some mn) (MathMin (Some mx) res) = mx.
Proof.
  clamp_split mn mx res; auto.
Qed.

Lemma limitToRange_unfold (o : DragDropOptions) (val : Q) (dir : string) :
  limitToRange o val dir =
  MathMax (dragMin o dir)
    (MathMin (dragMax o dir)
       (if negb (Qeq_bool (pickD (dragPrecision o dir) 1) 0)
        then inject_Z (MathRound (val / pickD (dragPrecision o dir) 1))
             * pickD (dragPrecision o dir) 1
        else val)).
Proof. reflexivity. Qed.

Lemma limitToRange_bounds (o : DragDropOptions) (val : Q) (dir : string)
    (mn mx : Q) :
  dragMin o dir = Some mn -> dragMax o dir = Some mx -> mn <= mx ->
  mn <= limitToRange o val dir <= mx.
Proof.
  intros Hmn Hmx Hle. rewrite limitToRange_unfold, Hmn, Hmx.
  now apply clamp_bounds.
Qed.

(** After rounding and clamping the value is the rounded proposal or one
    of the two bounds. *)
Lemma limitToRange_rounded_or_bound (o : DragDropOptions) (val : Q)
    (dir : string) (mn mx P : Q) :
  dragMin o dir = Some mn -> dragMax o dir = Some mx ->
  dragPrecision o dir = Some P -> ~ P == 0 ->
  limitToRange o val dir = inject_Z (MathRound (val / P)) * P
  \/ limitToRange o val dir = mn
  \/ limitToRange o val dir = mx.
Proof.
  intros Hmn Hmx HP Hnz. rewrite limitToRange_unfold, Hmn, Hmx, HP. simpl pickD.
  destruct (Qeq_bool P 0) eqn:E; [apply Qeq_bool_iff in E; contradiction|].
  cbn [negb]. apply clamp_cases.
Qed.

Lemma limitToRange_no_precision (o : DragDropOptions) (val : Q)
    (dir : string) (P : Q) :
  dragPrecision o dir = Some P -> P == 0 ->
  limitToRange o val dir = MathMax (dragMin o dir) (MathMin (dragMax o dir) val).
Proof.
  intros HP Hz. rewrite limitToRange_unfold, HP. simpl pickD.
  apply Qeq_bool_iff in Hz. now rewrite Hz.
Qed.

(** ** getDropValues *)

(** Every value of the result is the [newVal] of one of the props. *)
Lemma getDropValues_entry (s : Series) (point : Point)
    (orig : PositionSnapshot) (newPos : Event)
    (updateProps : Obj.t DragDropProp) (key : string) (nv : jsnum) :
  Obj.get key (getDropValues s point orig newPos updateProps) = Some nv ->
  exists xAx yAx pointOrigin val,
    xAxis s = Some xAx /\ yAxis s = Some yAx
    /\ Obj.get (p_id point) (o_points orig) = Some pointOrigin
    /\ In (key, val) updateProps
    /\ nv = newVal (mergeOptions (s_dragDrop s) (p_dragDrop point))
                   pointOrigin
                   (deltaValue xAx (pick (o_x orig) (prop point "x"))
                      (pageX newPos - o_pageX orig)
                      (pageY newPos - o_pageY orig))
                   (deltaValue yAx (pick (o_y orig) (prop point "y"))
                      (pageX newPos - o_pageX orig)
                      (pageY newPos - o_pageY orig))
                   key val.
Proof.
  unfold getDropValues.
  destruct (xAxis s) as [xAx|]; [|discriminate].
  destruct (yAxis s) as [yAx|]; [|discriminate].
  destruct (Obj.get (p_id point) (o_points orig)) as [pointOrigin|];
    [|discriminate].
  intros H.
  pose proof (get_fold_assign
    (fun k v => newVal (mergeOptions (s_dragDrop s) (p_dragDrop point))
                  pointOrigin
                  (deltaValue xAx (pick (o_x orig) (prop point "x"))
                     (pageX newPos - o_pageX orig)
                     (pageY newPos - o_pageY orig))
                  (deltaValue yAx (pick (o_y orig) (prop point "y"))
                     (pageX newPos - o_pageX orig)
                     (pageY newPos - o_pageY orig)) k v)
    (fun k v => pickD (updateSingleProp updateProps) false
                && match propValidate v with
                   | Some validate =>
                       negb (validate
                         (newVal (mergeOptions (s_dragDrop s) (p_dragDrop point))
                            pointOrigin
                            (deltaValue xAx (pick (o_x orig) (prop point "x"))
                               (pageX newPos - o_pageX orig)
                               (pageY newPos - o_pageY orig))
                            (deltaValue yAx (pick (o_y orig) (prop point "y"))
                               (pageX newPos - o_pageX orig)
                               (pageY newPos - o_pageY orig)) k v) point)
                   | None => false
                   end)
    updateProps [] key nv H) as [Hacc | (val & Hin & _ & Hnv)].
  - discriminate.
  - exists xAx, yAx, pointOrigin, val. repeat split; auto.
Qed.

(** ** Scenario: a movable [y] on a linear axis *)

(** C1: with the only movable prop [y] at 10, the axis [toPixels(v) = v * 2]
    and the pointer 6 pixels further down than at the start of the drag,
    the value delta is [toValue(toPixels(10) + 6) - 10 = 3] and
    [getDropValues] proposes [y = 13]; a session that presses the point and
    moves the pointer 6 pixels down writes [y = 13] to it. *)
Theorem C1_linear_axis_scenario :
  (forall (fl : Obj.t bool) (xAx : Axis) (name : string) (x px py px' : Q),
      let s := ySeries fl xAx in
      let point := yPoint name x in
      let orig :=
        getPositionSnapshot s (pointerAt px py) [(0%nat, point)] None in
      exists d v : Q,
        deltaValue doublingAxis (prop point "y") (px' - px) (py + 6 - py)
          = Some d
        /\ d == 3
        /\ getDropValues s point orig (pointerAt px' (py + 6))
             [("y", movableY)]
           = [("y", Some v)]
        /\ v == 13)
  /\ (let s := ySeries [("draggableY", true)] unitAxisH in
      let c := run (hovering s [yPoint "p" 0] 0%nat)
                   [Down (pointerAt 40 40); Move (pointerAt 40 46)] in
      getUpdateProps s (mergeOptions (s_dragDrop s) None) None
        = [("y", movableY)]
      /\ map (fun p => prop p "y") (points c) = [Some 13]).
Proof.
  split; [|vm_compute; split; reflexivity].
  intros fl xAx name x px py px'. cbv zeta.
  eexists. eexists. split; [reflexivity|]. split.
  - cbn. field.
  - unfold getDropValues, getPositionSnapshot.
    cbn [ySeries xAxis yAxis o_points fold_left snd fst p_id yPoint
         dragDropProps prop p_vals Obj.get Obj.set String.eqb Ascii.eqb
         Bool.eqb].
    rewrite String.eqb_refl.
    cbn [updateSingleProp pickD propValidate movableY andb fst snd Obj.set
         fold_left].
    split; [reflexivity|].
    rewrite limitToRange_unfold.
    change (dragMin _ (axisUpper (axis movableY))) with (@None Q).
    change (dragMax _ (axisUpper (axis movableY))) with (@None Q).
    change (dragPrecision _ (axisUpper (axis movableY))) with (@None Q).
    cbn [pickD MathMax MathMin].
    change (negb (Qeq_bool 1 0)) with true. cbv iota.
    cbn [o_x o_y pick pp_props Obj.get String.eqb Ascii.eqb Bool.eqb
         o_pageX o_pageY pageX pageY pointerAt doublingAxis toValue toPixels
         horiz nadd deltaValue option_map].
    unfold MathRound.
    match goal with
    | |- inject_Z (Qfloor ?a) * 1 == 13 =>
        assert (E : a == 27 # 2) by field
    end.
    rewrite E. reflexivity.
Qed.

(** ** Precision and range *)

Lemma getDropValues_number (s : Series) (point : Point)
    (orig : PositionSnapshot) (newPos : Event)
    (updateProps : Obj.t DragDropProp) (key : string) (v : Q) :
  Obj.get key (getDropValues s point orig newPos updateProps)
    = Some (Some v) ->
  exists val proposed,
    In (key, val) updateProps
    /\ proposedValue s point orig newPos key val = Some proposed
    /\ v = limitToRange (mergeOptions (s_dragDrop s) (p_dragDrop point))
                        proposed (axisUpper (axis val)).
Proof.
  intros H. apply getDropValues_entry in H.
  destruct H as (xAx & yAx & pointOrigin & val & Hx & Hy & Hp & Hin & Hnv).
  exists val. unfold proposedValue. rewrite Hx, Hy, Hp.
  unfold newVal in Hnv.
  destruct (nadd _ _) as [proposed|]; [|discriminate].
  exists proposed. simpl in Hnv. inversion Hnv. auto.
Qed.

(** With [dragMinY = 1], [dragMaxY = 5] and [dragPrecisionY = 2] a point at
    [y = 0] whose pointer has not moved is given [y = 1]: inside the range,
    but not a multiple of the precision. *)
Lemma C2_clamped_value_off_grid :
  dragMin clampOptions "Y" = Some 1
  /\ dragMax clampOptions "Y" = Some 5
  /\ dragPrecision clampOptions "Y" = Some 2
  /\ 1 <= 5 /\ 0 < 2
  /\ getDropValues clampSeries clampPoint clampOrigin (pointerAt 0 0)
       [("y", movableY)] = [("y", Some 1)]
  /\ ~ multipleOf 2 1.
Proof.
  repeat split; try reflexivity; try lra.
  intros [k Hk]. unfold Qeq in Hk. simpl in Hk. lia.
Qed.

(** C2, as the code has it: every number written by [getDropValues] is
    [limitToRange] of the proposed value.  With [min <= max] configured it
    lies within [[min, max]]; with a precision [P > 0] it is the proposal
    rounded and then clamped, [max(min, min(max, round(proposed / P) *
    P))]: the product [round(proposed / P) * P] itself when that lies in
    the range, the bound [min] when the product is below it and the bound
    [max] when it is above; with the precision 0 the proposal is clamped
    without rounding. *)
Theorem C2_range_then_precision :
  forall (s : Series) (point : Point) (orig : PositionSnapshot)
         (newPos : Event) (updateProps : Obj.t DragDropProp)
         (key : string) (v : Q),
    Obj.get key (getDropValues s point orig newPos updateProps)
      = Some (Some v) ->
    exists val proposed,
      In (key, val) updateProps
      /\ proposedValue s point orig newPos key val = Some proposed
      /\ let o := mergeOptions (s_dragDrop s) (p_dragDrop point) in
         let dir := axisUpper (axis val) in
         (forall mn mx,
             dragMin o dir = Some mn -> dragMax o dir = Some mx -> mn <= mx ->
             mn <= v <= mx
             /\ forall P, dragPrecision o dir = Some P -> 0 < P ->
                  let rounded := inject_Z (MathRound (proposed / P)) * P in
                  v = MathMax (Some mn) (MathMin (Some mx) rounded)
                  /\ (mn <= rounded <= mx -> v = rounded)
                  /\ (rounded < mn -> v = mn)
                  /\ (mx < rounded -> v = mx))
         /\ (forall P, dragPrecision o dir = Some P -> P == 0 ->
               v = MathMax (dragMin o dir) (MathMin (dragMax o dir) proposed)).
Proof.
  intros s point orig newPos updateProps key v H.
  apply getDropValues_number in H.
  destruct H as (val & proposed & Hin & Hprop & Hv).
  exists val, proposed. split; [exact Hin|]. split; [exact Hprop|].
  cbv zeta. split.
  - intros mn mx Hmn Hmx Hle. split.
    + subst v. now apply limitToRange_bounds.
    + intros P HP Hpos.
      assert (Hnz : ~ P == 0) by lra.
      assert (E : v = MathMax (Some mn)
                        (MathMin (Some mx)
                           (inject_Z (MathRound (proposed / P)) * P))).
      { rewrite Hv, limitToRange_unfold, Hmn, Hmx, HP. cbn [pickD].
        destruct (Qeq_bool P 0) eqn:Ez; [|reflexivity].
        apply Qeq_bool_iff in Ez. contradiction. }
      set (rounded := inject_Z (MathRound (proposed / P)) * P) in *.
      assert (Hin_range : mn <= rounded <= mx -> v = rounded).
      { intros [Hlo Hhi]. rewrite E.
        destruct (MathMin_cases mx rounded) as [[H1 E1]|[H1 E1]];
          rewrite E1; [|lra].
        destruct (MathMax_cases mn rounded) as [[H2 E2]|[H2 E2]];
          rewrite E2; [reflexivity|lra]. }
      assert (Hbelow : rounded < mn -> v = mn).
      { intros Hlt. rewrite E.
        destruct (MathMin_cases mx rounded) as [[H1 E1]|[H1 E1]];
          rewrite E1; [|lra].
        destruct (MathMax_cases mn rounded) as [[H2 E2]|[H2 E2]];
          rewrite E2; [lra|reflexivity]. }
      assert (Habove : mx < rounded -> v = mx).
      { intros Hlt. rewrite E.
        destruct (MathMin_cases mx rounded) as [[H1 E1]|[H1 E1]];
          rewrite E1; [lra|].
        destruct (MathMax_cases mn mx) as [[H2 E2]|[H2 E2]];
          rewrite E2; [reflexivity|lra]. }
      split; [exact E|]. split; [exact Hin_range|].
      split; [exact Hbelow|exact Habove].
  - intros P HP Hz. subst v. now apply limitToRange_no_precision with P.
Qed.

Lemma C2_range_then_precision_witness :
  exists val proposed,
    In ("y", val) [("y", movableY)]
    /\ proposedValue clampSeries clampPoint clampOrigin (pointerAt 0 7)
         "y" val = Some proposed
    /\ let o := mergeOptions (s_dragDrop clampSeries)
                             (p_dragDrop clampPoint) in
       let dir := axisUpper (axis val) in
       (forall mn mx,
             dragMin o dir = Some mn -> dragMax o dir = Some mx -> mn <= mx ->
             mn <= 4 <= mx
             /\ forall P, dragPrecision o dir = Some P -> 0 < P ->
                  let rounded := inject_Z (MathRound (proposed / P)) * P in
                  4 = MathMax (Some mn) (MathMin (Some mx) rounded)
                  /\ (mn <= rounded <= mx -> 4 = rounded)
                  /\ (rounded < mn -> 4 = mn)
                  /\ (mx < rounded -> 4 = mx))
         /\ (forall P, dragPrecision o dir = Some P -> P == 0 ->
               4 = MathMax (dragMin o dir) (MathMin (dragMax o dir) proposed)).
Proof.
  apply (C2_range_then_precision clampSeries clampPoint clampOrigin
           (pointerAt 0 7) [("y", movableY)] "y" 4).
  reflexivity.
Defined.

(** C10: without a configured precision [limitToRange] rounds the
    proposed value to the nearest integer (precision 1) and then clamps it
    into the range; a configured precision [P] other than 0 rounds to a
    multiple of [P]; only the configured precision 0 leaves the proposal
    unrounded. *)
Theorem C10_default_precision_is_one :
  forall (s : Series) (point : Point) (orig : PositionSnapshot)
         (newPos : Event) (updateProps : Obj.t DragDropProp)
         (key : string) (v : Q),
    Obj.get key (getDropValues s point orig newPos updateProps)
      = Some (Some v) ->
    exists val proposed,
      In (key, val) updateProps
      /\ proposedValue s point orig newPos key val = Some proposed
      /\ let o := mergeOptions (s_dragDrop s) (p_dragDrop point) in
         let dir := axisUpper (axis val) in
         let clamp := fun r => MathMax (dragMin o dir)
                                 (MathMin (dragMax o dir) r) in
         (dragPrecision o dir = None ->
            v == clamp (inject_Z (MathRound proposed))
            /\ inject_Z (MathRound proposed) <= proposed + (1 # 2)
            /\ proposed + (1 # 2) < inject_Z (MathRound proposed) + 1)
         /\ (forall P, dragPrecision o dir = Some P ->
               (P == 0 -> v = clamp proposed)
               /\ (~ P == 0 ->
                   v = clamp (inject_Z (MathRound (proposed / P)) * P))).
Proof.
  intros s point orig newPos updateProps key v H.
  apply getDropValues_number in H.
  destruct H as (val & proposed & Hin & Hprop & Hv).
  exists val, proposed. split; [exact Hin|]. split; [exact Hprop|].
  cbv zeta. rewrite limitToRange_unfold in Hv. split.
  - intros Hnone. rewrite Hnone in Hv. simpl pickD in Hv.
    change (negb (Qeq_bool 1 0)) with true in Hv. cbv iota in Hv.
    split; [|apply MathRound_nearest].
    subst v. apply MathMax_comp, MathMin_comp.
    unfold MathRound.
    assert (E : proposed / 1 + (1 # 2) == proposed + (1 # 2)) by field.
    rewrite E. ring.
  - intros P HP. rewrite HP in Hv. simpl pickD in Hv. split.
    + intros Hz. apply Qeq_bool_iff in Hz. now rewrite Hz in Hv.
    + intros Hnz. destruct (Qeq_bool P 0) eqn:E.
      * apply Qeq_bool_iff in E. contradiction.
      * exact Hv.
Qed.

Lemma C10_default_precision_is_one_witness :
  exists val proposed,
    In ("y", val) [("y", movableY)]
    /\ proposedValue (ySeries [] doublingAxis) (yPoint "p" 0)
         (getPositionSnapshot (ySeries [] doublingAxis) (pointerAt 0 0)
            [(0%nat, yPoint "p" 0)] None)
         (pointerAt 0 5) "y" val = Some proposed
    /\ let o := mergeOptions (s_dragDrop (ySeries [] doublingAxis))
                             (p_dragDrop (yPoint "p" 0)) in
       let dir := axisUpper (axis val) in
       let clamp := fun r => MathMax (dragMin o dir)
                               (MathMin (dragMax o dir) r) in
       (dragPrecision o dir = None ->
          13 == clamp (inject_Z (MathRound proposed))
          /\ inject_Z (MathRound proposed) <= proposed + (1 # 2)
          /\ proposed + (1 # 2) < inject_Z (MathRound proposed) + 1)
       /\ (forall P, dragPrecision o dir = Some P ->
             (P == 0 -> 13 = clamp proposed)
             /\ (~ P == 0 ->
                 13 = clamp (inject_Z (MathRound (proposed / P)) * P))).
Proof.
  apply (C10_default_precision_is_one (ySeries [] doublingAxis)
           (yPoint "p" 0)
           (getPositionSnapshot (ySeries [] doublingAxis) (pointerAt 0 0)
              [(0%nat, yPoint "p" 0)] None)
           (pointerAt 0 5) [("y", movableY)] "y" 13).
  vm_compute. reflexivity.
Defined.

(** ** Validation of a single resized prop *)

Lemma pointUpdate_nothing (p : Point) : pointUpdate p [] = p.
Proof. destruct p. reflexivity. Qed.

(** C3: when [getDropValues] updates exactly one prop and that prop has a
    validation function that rejects the proposed value, the prop is
    absent from the result and writing the result to the point leaves the
    point as it is.  For the columnrange point with [low = 5] and
    [high = 15], resizing [low] to the proposal 16 fails [low < high]:
    the new values of the point are empty and [low] is 5 during the drag
    and after the drop. *)
Theorem C3_rejected_resize_keeps_value :
  (forall (s : Series) (point : Point) (orig : PositionSnapshot)
          (newPos : Event) (key : string) (val : DragDropProp)
          (validate : jsnum -> Point -> bool),
      propValidate val = Some validate ->
      validate
        (option_map
           (fun v => limitToRange
                       (mergeOptions (s_dragDrop s) (p_dragDrop point))
                       v (axisUpper (axis val)))
           (proposedValue s point orig newPos key val))
        point = false ->
      Obj.get key (getDropValues s point orig newPos [(key, val)]) = None
      /\ pointUpdate point (getDropValues s point orig newPos [(key, val)])
         = point)
  /\ (let dragged := run rangeChart lowResize in
      let dropped := run rangeChart (lowResize ++ [Up (pointerAt 0 11)]) in
      option_map (proposedValue rangeSeries rangePoint
                    (getPositionSnapshot rangeSeries (pointerAt 0 0)
                       [(0%nat, rangePoint)] None)
                    (pointerAt 0 11) "low")
                 (Obj.get "low" Registry.columnrange) = Some (Some 16)
      /\ option_map newPoints (dragDropData dragged)
         = Some (Some [("r", {| np_point := 0%nat; newValues := [] |})])
      /\ draggedPastSensitivity_of dragged = true
      /\ map (fun p => prop p "low") (points dragged) = [Some 5]
      /\ map (fun p => prop p "low") (points dropped) = [Some 5]
      /\ points dropped = [rangePoint]).
Proof.
  split.
  - intros s point orig newPos key val validate Hval Hrej.
    assert (E : getDropValues s point orig newPos [(key, val)] = []).
    { unfold getDropValues, proposedValue in *.
      destruct (xAxis s) as [xAx|]; [|reflexivity].
      destruct (yAxis s) as [yAx|]; [|reflexivity].
      destruct (Obj.get (p_id point) (o_points orig)) as [pointOrigin|];
        [|reflexivity].
      cbn [fold_left updateSingleProp pickD fst snd andb].
      rewrite Hval. unfold newVal. rewrite Hrej. reflexivity. }
    rewrite E. split; [reflexivity | apply pointUpdate_nothing].
  - vm_compute. repeat split; reflexivity.
Qed.

Lemma C3_rejected_resize_keeps_value_witness :
  Obj.get "low"
    (getDropValues rangeSeries rangePoint rangeOrigin (pointerAt 0 11)
       [("low", Registry.columnrange_low)]) = None
  /\ pointUpdate rangePoint
       (getDropValues rangeSeries rangePoint rangeOrigin (pointerAt 0 11)
          [("low", Registry.columnrange_low)]) = rangePoint.
Proof.
  apply (proj1 C3_rejected_resize_keeps_value rangeSeries rangePoint
           rangeOrigin (pointerAt 0 11) "low" Registry.columnrange_low
           (fun val point => nlt val (prop point "high")));
    reflexivity.
Defined.

(** ** Guide box: resizing on a reversed axis *)

(** C7: for a resized prop with a static [resizeSide] on a reversed axis
    [resizeGuideBox] resizes the opposite side of the guide box: the
    static side [top] on a reversed y axis resizes the bottom edge, whose
    height follows the pointer while x, y and width stay, and likewise
    [left] and [right] swap on a reversed x axis. *)
Theorem C7_reversed_axis_flips_side :
  forall (c : Chart) (point : Point) (dX dY : Q) (data : DragDropData)
         (box : GuideBox) (resizeProp : DragDropProp) (np : NewPoint)
         (sd : Side),
    dragDropData c = Some data ->
    dragGuideBox c = Some box ->
    Obj.get (pickD (updateProp data) "") (dragDropProps (series c))
      = Some resizeProp ->
    Obj.get (p_id point) (pickD (newPoints data) []) = Some np ->
    resizeSide resizeProp = Some (SideStatic sd) ->
    axisReversed (series c) (axis resizeProp) = true ->
    let box1 :=
      match beforeResize resizeProp with
      | Some hook =>
          withAttrs box
            (hook (attrs box) (newValues np) point (s_info (series c)))
      | None => box
      end in
    let update :=
      (match axis resizeProp with
       | AxisX => dX - pickD (o_prevdX (origin data)) 0
       | AxisY => 0
       end,
       match axis resizeProp with
       | AxisX => 0
       | AxisY => dY - pickD (o_prevdY (origin data)) 0
       end) in
    dragGuideBox (resizeGuideBox point dX dY c)
      = Some (resizeRect box1 (Some (flipResizeSide sd)) update)
    /\ (sd = STop ->
        flipResizeSide sd = SBottom
        /\ option_map attrs (dragGuideBox (resizeGuideBox point dX dY c))
           = Some {| rx := rx (attrs box1); ry := ry (attrs box1);
                     rwidth := rwidth (attrs box1);
                     rheight :=
                       Qmax2 1 (rheight (attrs box1) + snd update) |})
    /\ (sd = SLeft ->
        flipResizeSide sd = SRight
        /\ option_map attrs (dragGuideBox (resizeGuideBox point dX dY c))
           = Some {| rx := rx (attrs box1); ry := ry (attrs box1);
                     rwidth := Qmax2 1 (rwidth (attrs box1) + fst update);
                     rheight := rheight (attrs box1) |})
    /\ (sd = SRight ->
        flipResizeSide sd = SLeft
        /\ option_map attrs (dragGuideBox (resizeGuideBox point dX dY c))
           = Some {| rx := rx (attrs box1) + fst update;
                     ry := ry (attrs box1);
                     rwidth := Qmax2 1 (rwidth (attrs box1) - fst update);
                     rheight := rheight (attrs box1) |}).
Proof.
  intros c point dX dY data box resizeProp np sd Hd Hb Hp Hn Hs Hr
         box1 update.
  assert (E : dragGuideBox (resizeGuideBox point dX dY c)
              = Some (resizeRect box1 (Some (flipResizeSide sd)) update)).
  { unfold resizeGuideBox. rewrite Hd, Hb, Hp, Hn, Hs, Hr. reflexivity. }
  split; [exact E|].
  split; [|split]; intros ->;
    (split; [reflexivity | rewrite E; reflexivity]).
Qed.

Lemma C7_reversed_axis_flips_side_witness :
  exists box1 update,
    dragGuideBox (resizeGuideBox reversedPoint 0 7 reversedResizing)
    = Some (resizeRect box1 (Some SBottom) update).
Proof.
  eexists. eexists.
  refine (proj1 (C7_reversed_axis_flips_side reversedResizing reversedPoint
                   0 7 _ _ _ _ STop _ _ _ _ _ _));
    vm_compute; reflexivity.
Defined.

(** ** The sensitivity gate *)

Lemma hasDraggedPastSensitivity_within (e : Event) (data : DragDropData)
    (t : Q) :
  withinSensitivity e (origin data) t ->
  hasDraggedPastSensitivity e data t = false.
Proof.
  intros [Ht Hd]. unfold squaredDistance in Hd.
  unfold hasDraggedPastSensitivity, sqrtGt.
  apply orb_false_iff. split.
  - destruct (Qltb t 0) eqn:E; auto. apply Qltb_lt in E. lra.
  - match goal with
    | |- Qltb ?a ?b = false => destruct (Qltb a b) eqn:E; auto
    end.
    apply Qltb_lt in E. lra.
Qed.

(** [sqrtGt] is the comparison of the source: for [d2 >= 0] it holds
    exactly when the threshold is below the real square root of [d2]. *)
Lemma sqrtGt_sqrt (d2 s : Q) :
  0 <= d2 ->
  (sqrtGt d2 s = true <-> (Q2R s < sqrt (Q2R d2))%R).
Proof.
  intros Hd. unfold sqrtGt. rewrite orb_true_iff, !Qltb_lt.
  assert (Hd' : (0 <= Q2R d2)%R).
  { apply Qle_Rle in Hd. now rewrite RMicromega.Q2R_0 in Hd. }
  pose proof (sqrt_pos (Q2R d2)) as Hpos.
  pose proof (sqrt_sqrt (Q2R d2) Hd') as Hsq.
  split.
  - intros [Hneg|Hlt].
    + apply Qlt_Rlt in Hneg. rewrite RMicromega.Q2R_0 in Hneg.
      apply Rlt_le_trans with 0%R; assumption.
    + apply Qlt_Rlt in Hlt. rewrite Q2R_mult in Hlt.
      destruct (Rlt_le_dec (Q2R s) (sqrt (Q2R d2))) as [H|H]; [exact H|].
      exfalso.
      assert (Hle : (sqrt (Q2R d2) * sqrt (Q2R d2) <= Q2R s * Q2R s)%R).
      { apply Rmult_le_compat; assumption. }
      rewrite Hsq in Hle. apply (Rlt_irrefl _ (Rlt_le_trans _ _ _ Hlt Hle)).
  - intros H. destruct (Qlt_le_dec s 0) as [Hneg|Hnn]; [now left|right].
    apply Rlt_Qlt. rewrite Q2R_mult.
    apply Qle_Rle in Hnn. rewrite RMicromega.Q2R_0 in Hnn.
    rewrite <- Hsq.
    apply Rmult_le_0_lt_compat; assumption.
Qed.

Lemma square_nonneg (a : Q) : 0 <= a * a.
Proof.
  destruct (Qlt_le_dec a 0) as [Hneg|Hnn].
  - setoid_replace (a * a) with ((- a) * (- a)) by ring.
    apply Qmult_le_0_compat; lra.
  - now apply Qmult_le_0_compat.
Qed.

(** The squared distance of the pointer from the pointer of the
    snapshot. *)
Lemma squaredDistance_nonneg (e : Event) (o : PositionSnapshot) :
  0 <= squaredDistance e o.
Proof.
  unfold squaredDistance.
  pose proof (square_nonneg (pageX e - o_pageX o)) as Hx.
  pose proof (square_nonneg (pageY e - o_pageY o)) as Hy.
  lra.
Qed.

(** Over the reals [hasDraggedPastSensitivity] is [sqrt(...) >
    sensitivity], and [withinSensitivity] its negation: the Euclidean
    distance is at most the threshold.  (The double [Math.sqrt] of the
    source can differ for a threshold within one unit in the last place of
    the distance.) *)
Lemma hasDraggedPastSensitivity_distance (e : Event) (data : DragDropData)
    (t : Q) :
  hasDraggedPastSensitivity e data t = true
  <-> (Q2R t < sqrt (Q2R (squaredDistance e (origin data))))%R.
Proof.
  unfold hasDraggedPastSensitivity.
  apply (sqrtGt_sqrt (squaredDistance e (origin data)) t).
  apply squaredDistance_nonneg.
Qed.

Lemma withinSensitivity_distance (e : Event) (o : PositionSnapshot) (t : Q) :
  withinSensitivity e o t
  <-> (sqrt (Q2R (squaredDistance e o)) <= Q2R t)%R.
Proof.
  pose proof (sqrtGt_sqrt (squaredDistance e o) t
                (squaredDistance_nonneg e o)) as H.
  unfold sqrtGt in H. rewrite orb_true_iff, !Qltb_lt in H.
  unfold withinSensitivity. fold (squaredDistance e o). split.
  - intros [Ht Hd]. apply Rnot_lt_le. intros Hlt. apply H in Hlt.
    destruct Hlt; lra.
  - intros Hle. split.
    + destruct (Qlt_le_dec t 0) as [Hneg|Hnn]; [|exact Hnn].
      exfalso. apply (Rlt_irrefl (Q2R t)).
      apply Rlt_le_trans with (sqrt (Q2R (squaredDistance e o))); [|exact Hle].
      apply H. now left.
    + destruct (Qlt_le_dec (t * t) (squaredDistance e o)) as [Hlt|Hge];
        [|exact Hge].
      exfalso. apply (Rlt_irrefl (Q2R t)).
      apply Rlt_le_trans with (sqrt (Q2R (squaredDistance e o))); [|exact Hle].
      apply H. now right.
Qed.

Lemma setData_same (c : Chart) (data : DragDropData) :
  dragDropData c = Some data ->
  draggedPastSensitivity data = false ->
  setData c (Some (withPastSensitivity data false)) = c.
Proof.
  intros Hd Hp. destruct c, data. simpl in *. subst. reflexivity.
Qed.

Lemma mouseMove_within (e : Event) (c : Chart) (data : DragDropData) :
  dragDropData c = Some data ->
  draggedPastSensitivity data = false ->
  (forall point,
      nth_error (points c) (dd_point data) = Some point ->
      withinSensitivity e (origin data) (sensitivityOf (series c) point)) ->
  mouseMove e c = c.
Proof.
  intros Hd Hp Hw. unfold mouseMove.
  destruct (zoomOrPanKeyPressed c e); [reflexivity|].
  rewrite Hd. destruct (isDragging data); [|reflexivity].
  destruct (nth_error (points c) (dd_point data)) as [point|] eqn:En;
    [|reflexivity].
  rewrite Hp. rewrite hasDraggedPastSensitivity_within by auto.
  now apply setData_same.
Qed.

(** C4: as long as no move of the session has exceeded the threshold
    handed to the gate, pointer moves whose distance from the pointer-down
    position is at most that threshold leave the chart as it is: the
    pending updates [newPoints] are not computed, no [drag] event is fired
    and no point is written. *)
Theorem C4_moves_within_sensitivity_are_ignored :
  forall (c : Chart) (data : DragDropData) (moves : list Event),
    dragDropData c = Some data ->
    draggedPastSensitivity data = false ->
    (forall e point,
        In e moves ->
        nth_error (points c) (dd_point data) = Some point ->
        withinSensitivity e (origin data) (sensitivityOf (series c) point)) ->
    run c (map Move moves) = c
    /\ points (run c (map Move moves)) = points c
    /\ option_map newPoints (dragDropData (run c (map Move moves)))
       = Some (newPoints data)
    /\ log (run c (map Move moves)) = log c.
Proof.
  intros c data moves Hd Hp Hw.
  assert (E : run c (map Move moves) = c).
  { induction moves as [|e rest IH]; [reflexivity|].
    unfold run in *. simpl.
    rewrite (mouseMove_within e c data Hd Hp).
    - apply IH. intros e' point Hin. apply Hw. now right.
    - intros point. apply Hw. now left. }
  rewrite E, Hd. repeat split; reflexivity.
Qed.

(** A session opened by [mouseDown] or by the handle of a prop starts
    below the threshold, without pending updates, at the pointer of the
    down event. *)
Lemma session_start_is_armed (c : Chart) (e : Event) (r : nat)
    (point : Point) :
  forall data,
    dragDropData (initDragDrop e r point c) = Some data ->
    draggedPastSensitivity data = false
    /\ newPoints data = None
    /\ o_pageX (origin data) = pageX e
    /\ o_pageY (origin data) = pageY e.
Proof.
  intros data H. unfold initDragDrop in H.
  destruct (pickD (seriesFlag (series c) "liveRedraw") true);
    simpl in H; inversion H; repeat split; reflexivity.
Qed.

Lemma C4_moves_within_sensitivity_are_ignored_witness :
  run armedChart
      (map Move [pointerAt 101 101; pointerAt 100 98; pointerAt 102 100])
  = armedChart.
Proof.
  refine (proj1 (C4_moves_within_sensitivity_are_ignored armedChart _
                   [pointerAt 101 101; pointerAt 100 98; pointerAt 102 100]
                   _ _ _)).
  - vm_compute. reflexivity.
  - reflexivity.
  - intros e point Hin Hpt. vm_compute in Hpt. inversion Hpt. subst point.
    simpl in Hin.
    destruct Hin as [<-|[<-|[<-|[]]]]; vm_compute; split; discriminate.
Defined.

(** ** The configured sensitivity *)

(** C9, as the code has it: the gate reads the option under the name
    [dragSensitiviy].  A [dragSensitivity] configured on the series or on
    the point does not reach it and the threshold stays 2: with
    [dragSensitivity = 10] a move of 5 pixels starts the drag and writes
    the point.  Under the name [dragSensitiviy] the point option overrides
    the series option. *)
Theorem C9_documented_option_is_not_read :
  (forall (v : Q) (w : option Q),
      sensitivityOf (sensitiveSeries v) (sensitivePoint w) = 2)
  /\ (let c := run (hovering (sensitiveSeries 10) [sensitivePoint None] 0%nat)
                   [Down (pointerAt 0 0); Move (pointerAt 0 5)] in
      draggedPastSensitivity_of c = true
      /\ map (fun p => prop p "y") (points c) = [Some 5]
      /\ log c = [Fired "dragStart"; Fired "drag"; Redraw false])
  /\ (forall (s : Series) (point : Point) (sv pv : Q)
             (so po : DragDropOptions),
         (s_dragDrop s = Some so ->
          Obj.get "dragSensitiviy" (nums so) = Some sv ->
          p_dragDrop point = Some po ->
          Obj.get "dragSensitiviy" (nums po) = Some pv ->
          sensitivityOf s point = pv)
         /\ (s_dragDrop s = Some so ->
             Obj.get "dragSensitiviy" (nums so) = Some sv ->
             numOption (p_dragDrop point) "dragSensitiviy" = None ->
             sensitivityOf s point = sv)
         /\ (numOption (s_dragDrop s) "dragSensitiviy" = None ->
             numOption (p_dragDrop point) "dragSensitiviy" = None ->
             sensitivityOf s point = 2)).
Proof.
  split; [|split].
  - intros v [w|]; reflexivity.
  - vm_compute. repeat split; reflexivity.
  - intros s point sv pv so po. unfold sensitivityOf, numOption.
    split; [|split].
    + intros -> Hs -> Hp. now rewrite Hp.
    + intros -> Hs Hp. rewrite Hp. simpl. now rewrite Hs.
    + intros Hs Hp. unfold numOption in *. now rewrite Hs, Hp.
Qed.

(** ** The origin of the value computation *)

(** C6, as the code has it: with live redraw the pixel position that the
    pointer delta is added to is taken from the live point ([origin.x] and
    [origin.y] are not part of the snapshot, so [pick] falls through to
    [point.x] and [point.y]).  On an axis that is not linear two moves to
    the same pointer position, with the same snapshot, give different
    values: 10 after the first move, 5 after the second, where the
    snapshot alone gives 10. *)
Theorem C6_live_point_is_the_base_of_the_delta :
  let down := Down (pointerAt 0 0) in
  let move := Move (pointerAt 0 10) in
  let once := run brokenChart [down; move] in
  let twice := run brokenChart [down; move; move] in
  option_map (fun d => o_points (origin d)) (dragDropData once)
    = option_map (fun d => o_points (origin d)) (dragDropData twice)
  /\ option_map (fun d => (o_pageX (origin d), o_pageY (origin d),
                           o_x (origin d), o_y (origin d)))
                (dragDropData twice) = Some (0, 0, None, None)
  /\ map (fun p => prop p "y") (points once) = [Some 10]
  /\ map (fun p => prop p "y") (points twice) = [Some 5]
  /\ getDropValues brokenSeries brokenPoint
       (getPositionSnapshot brokenSeries (pointerAt 0 0)
          [(0%nat, brokenPoint)] None)
       (pointerAt 0 10) [("y", movableY)] = [("y", Some 10)].
Proof.
  vm_compute. repeat split; reflexivity.
Qed.

(** ** One session per chart *)

Lemma dragGuideBox_hideDragHandles (c : Chart) :
  dragGuideBox (hideDragHandles c) = dragGuideBox c.
Proof. unfold hideDragHandles. now destruct (dragHandles c). Qed.

Lemma dragGuideBox_updatePoints (c : Chart) (animate : bool) :
  dragGuideBox (updatePoints c animate) = dragGuideBox c.
Proof. reflexivity. Qed.

(** What [mouseUp] does before it resets the session. *)
Lemma mouseUp_unfold (e : Event) (c : Chart) :
  exists c1,
    dragGuideBox c1 = dragGuideBox c
    /\ mouseUp e c =
       match dragGuideBox c with
       | Some g => setGuideBox (emit (setData c1 None) (GuideBoxDestroyed g))
                               None
       | None => setData c1 None
       end.
Proof.
  unfold mouseUp.
  set (c1 := match dragDropData c with
             | Some data =>
                 if isDragging data && draggedPastSensitivity data
                 then updatePoints (emit (hideDragHandles c) (Fired "drop"))
                                   true
                 else c
             | None => c
             end).
  assert (Hg : dragGuideBox c1 = dragGuideBox c).
  { unfold c1. destruct (dragDropData c) as [data|]; [|reflexivity].
    destruct (isDragging data && draggedPastSensitivity data);
      [|reflexivity].
    rewrite dragGuideBox_updatePoints. simpl.
    apply dragGuideBox_hideDragHandles. }
  exists c1. split; [exact Hg|].
  change (dragGuideBox (setData c1 None)) with (dragGuideBox c1).
  now rewrite Hg.
Qed.

(** A pointer-down with the zoom key held arrives while the session is
    dragging: the session and its guide box stay. *)
Lemma C8_down_with_zoom_key_keeps_session :
  sessionDragging guidedSession = true
  /\ draggedPastSensitivity_of guidedSession = true
  /\ dragGuideBox guidedSession <> None
  /\ mouseDown (shiftDown 0 4) guidedSession = guidedSession
  /\ sessionDragging (mouseDown (shiftDown 0 4) guidedSession) = true
  /\ dragGuideBox (mouseDown (shiftDown 0 4) guidedSession)
     = dragGuideBox guidedSession.
Proof.
  repeat split; try reflexivity. vm_compute. discriminate.
Qed.

(** C8, as the code has it: the chart holds at most one session ([dragDropData]).
    A pointer-down on the container that arrives while a session is
    dragging, without the zoom or pan key held, does what pointer-up does
    and nothing more: the session is closed and the down event starts no
    new one.  With the zoom or pan key held the pointer-down is ignored
    and the session stays.  Every end of a session through [mouseUp]
    (pointer-up, leave, forced close) deletes the session data and
    destroys the guide box if there is one. *)
Theorem C8_down_while_dragging_closes_session :
  (forall (e : Event) (c : Chart),
      zoomOrPanKeyPressed c e = false ->
      sessionDragging c = true ->
      mouseDown e c = mouseUp e c
      /\ dragDropData (mouseDown e c) = None
      /\ sessionDragging (mouseDown e c) = false)
  /\ (forall (e : Event) (c : Chart),
         zoomOrPanKeyPressed c e = true -> mouseDown e c = c)
  /\ (forall (e : Event) (c : Chart),
         step c (Up e) = mouseUp e c
         /\ step c (Leave e) = mouseUp e c
         /\ dragDropData (mouseUp e c) = None
         /\ dragGuideBox (mouseUp e c) = None
         /\ forall g, dragGuideBox c = Some g ->
                      In (GuideBoxDestroyed g) (log (mouseUp e c))).
Proof.
  assert (Hup : forall e c,
             dragDropData (mouseUp e c) = None
             /\ dragGuideBox (mouseUp e c) = None
             /\ forall g, dragGuideBox c = Some g ->
                          In (GuideBoxDestroyed g) (log (mouseUp e c))).
  { intros e c. destruct (mouseUp_unfold e c) as (c1 & Hg & E).
    rewrite E. destruct (dragGuideBox c) as [g|] eqn:Eg.
    - repeat split; try reflexivity.
      intros g' H. inversion H. subst g'. simpl.
      apply in_or_app. right. now left.
    - repeat split; try reflexivity; [|discriminate].
      simpl. exact Hg. }
  split; [|split].
  - intros e c Hk Hs.
    assert (E : mouseDown e c = mouseUp e c).
    { unfold mouseDown. now rewrite Hk, Hs. }
    rewrite E. split; [reflexivity|].
    destruct (Hup e c) as (Hd & _). split; [exact Hd|].
    unfold sessionDragging. now rewrite Hd.
  - intros e c Hk. unfold mouseDown. now rewrite Hk.
  - intros e c. split; [reflexivity|]. split; [reflexivity|]. apply Hup.
Qed.

Lemma C8_down_while_dragging_closes_session_witness :
  mouseDown (pointerAt 0 4) guidedSession = mouseUp (pointerAt 0 4) guidedSession
  /\ dragDropData (mouseDown (pointerAt 0 4) guidedSession) = None
  /\ sessionDragging (mouseDown (pointerAt 0 4) guidedSession) = false.
Proof.
  apply (proj1 C8_down_while_dragging_closes_session (pointerAt 0 4)
           guidedSession); reflexivity.
Defined.

(** ** Grouping *)

Lemma filterRefs_In (f : Point -> bool) (ps : list Point) :
  forall (k i : nat),
    In i (filterRefs f k ps)
    <-> (k <= i)%nat
        /\ exists q, nth_error ps (i - k) = Some q /\ f q = true.
Proof.
  induction ps as [|p rest IH]; intros k i; simpl.
  - split; [intros []|]. intros (_ & q & Hq & _).
    destruct (i - k)%nat; discriminate.
  - assert (Hrest : In i (filterRefs f (S k) rest)
                    <-> (k < i)%nat
                        /\ exists q, nth_error rest (i - S k) = Some q
                                     /\ f q = true).
    { rewrite IH. reflexivity. }
    destruct (f p) eqn:Ef; simpl; rewrite Hrest; split.
    + intros [<-|(Hlt & q & Hq & Hf)].
      * split; [lia|]. exists p. now rewrite Nat.sub_diag.
      * split; [lia|]. exists q.
        replace (i - k)%nat with (S (i - S k)) by lia. auto.
    + intros (Hle & q & Hq & Hf).
      destruct (Nat.eq_dec k i) as [->|Hne]; [now left|right].
      split; [lia|]. exists q.
      replace (i - k)%nat with (S (i - S k)) in Hq by lia. auto.
    + intros (Hlt & q & Hq & Hf).
      split; [lia|]. exists q.
      replace (i - k)%nat with (S (i - S k)) by lia. auto.
    + intros (Hle & q & Hq & Hf).
      destruct (Nat.eq_dec k i) as [->|Hne].
      * rewrite Nat.sub_diag in Hq. simpl in Hq. inversion Hq. congruence.
      * split; [lia|]. exists q.
        replace (i - k)%nat with (S (i - S k)) in Hq by lia. auto.
Qed.

Lemma deref_In (ps : list Point) (refs : list nat) (r : nat) (p : Point) :
  In (r, p) (deref ps refs) <-> In r refs /\ nth_error ps r = Some p.
Proof.
  unfold deref. rewrite in_flat_map. split.
  - intros (r' & Hin & H). destruct (nth_error ps r') as [p'|] eqn:E.
    + destruct H as [H|[]]. inversion H. subst. auto.
    + destruct H.
  - intros (Hin & E). exists r. split; [exact Hin|]. rewrite E. now left.
Qed.

Lemma unique_id_same_ref (ps : list Point) (i j : nat) (a b : Point) :
  NoDup (map p_id ps) ->
  nth_error ps i = Some a -> nth_error ps j = Some b ->
  p_id a = p_id b -> i = j /\ a = b.
Proof.
  intros Hnd Ha Hb Hid.
  assert (E : i = j).
  { apply (proj1 (NoDup_nth_error (map p_id ps)) Hnd).
    - rewrite length_map. apply nth_error_Some. congruence.
    - rewrite !nth_error_map, Ha, Hb. simpl. now rewrite Hid. }
  subst j. split; [reflexivity|congruence].
Qed.

(** Assigning along a list keeps what is stored under [k] when every
    entry written under [k] writes that same value. *)
Lemma get_fold_set_stable {A B : Type} (key : B -> string) (F : B -> A)
    (k : string) (a : A) (l : list B) :
  forall acc : Obj.t A,
    Obj.get k acc = Some a ->
    (forall x, In x l -> key x = k -> F x = a) ->
    Obj.get k (fold_left (fun h x => Obj.set (key x) (F x) h) l acc)
    = Some a.
Proof.
  induction l as [|x rest IH]; intros acc Hacc Hsame; simpl; [exact Hacc|].
  apply IH.
  - destruct (string_dec k (key x)) as [E|Hne].
    + rewrite E, get_set_same. f_equal. apply Hsame; [now left|auto].
    + now rewrite get_set_other.
  - intros y Hy. apply Hsame. now right.
Qed.

Lemma get_fold_set_unique {A B : Type} (key : B -> string) (F : B -> A)
    (l : list B) (x0 : B) :
  In x0 l ->
  (forall x, In x l -> key x = key x0 -> x = x0) ->
  forall acc : Obj.t A,
    Obj.get (key x0) (fold_left (fun h x => Obj.set (key x) (F x) h) l acc)
    = Some (F x0).
Proof.
  induction l as [|x rest IH]; intros Hin Huniq acc; [destruct Hin|].
  simpl. destruct (string_dec (key x) (key x0)) as [E|Hne].
  - assert (x = x0) by (apply Huniq; [now left|exact E]). subst x.
    apply get_fold_set_stable.
    + apply get_set_same.
    + intros y Hy Hk. f_equal. apply Huniq; [now right|exact Hk].
  - destruct Hin as [->|Hin]; [contradiction|].
    apply IH; [exact Hin|]. intros y Hy. apply Huniq. now right.
Qed.

(** In a move every point of the group gets its entry in the new points:
    its own [getDropValues] for the props of the drag. *)
Lemma getNewPoints_group_entry (s : Series) (ps : list Point)
    (data : DragDropData) (newPos : Event) (anchor : Point)
    (r : nat) (q : Point) :
  nth_error ps (dd_point data) = Some anchor ->
  truthyKey (updateProp data) = false ->
  NoDup (map p_id ps) ->
  In r (groupedPoints data) ->
  nth_error ps r = Some q ->
  Obj.get (p_id q) (getNewPoints s ps data newPos)
  = Some {| np_point := r;
            newValues :=
              getDropValues s q (origin data) newPos
                (getUpdateProps s
                   (mergeOptions (s_dragDrop s) (p_dragDrop anchor))
                   (updateProp data)) |}.
Proof.
  intros Ha Hmove Hnd Hin Hq. unfold getNewPoints. rewrite Ha, Hmove.
  apply (get_fold_set_unique
           (fun rp : nat * Point => p_id (snd rp))
           (fun rp => {| np_point := fst rp;
                         newValues :=
                           getDropValues s (snd rp) (origin data) newPos
                             (getUpdateProps s
                                (mergeOptions (s_dragDrop s)
                                   (p_dragDrop anchor))
                                (updateProp data)) |})
           (deref ps (groupedPoints data)) (r, q)).
  - apply deref_In. auto.
  - intros [r2 p2] H2 Hid. apply deref_In in H2. destruct H2 as [_ H2].
    simpl in Hid.
    destruct (unique_id_same_ref ps r2 r p2 q Hnd H2 Hq Hid) as [-> ->].
    reflexivity.
Qed.

(** On a linear axis the value delta does not depend on the value the
    pixel delta is added to. *)
Lemma deltaValue_linear (a : Axis) (slope offset old dX dY : Q) :
  ~ slope == 0 ->
  (forall v, toPixels a v == slope * v + offset) ->
  (forall p, toValue a p == (p - offset) / slope) ->
  exists d,
    deltaValue a (Some old) dX dY = Some d
    /\ d == (if horiz a then dX else dY) / slope.
Proof.
  intros Hs Hpx Hval. eexists. split; [reflexivity|].
  rewrite Hval. rewrite Hpx. field. exact Hs.
Qed.

(** A drag of the point [a], whose group [A] also holds [b].  Resizing
    [high] of [a] by its handle writes [a] only; moving [a] by 3 units
    moves [a] by 3 and [b], rounded to the precision, by 13/5. *)
Lemma C5_group_not_updated_alike :
  let resized := run groupChart [HandleDown (pointerAt 0 0) 0%nat "high";
                                 Move (pointerAt 0 3)] in
  let moved := run groupChart [Down (pointerAt 0 0); Move (pointerAt 0 3)] in
  option_map groupedPoints (dragDropData resized) = Some [0%nat; 1%nat]
  /\ option_map (fun d => Obj.keys (pickD (newPoints d) []))
                (dragDropData resized) = Some ["a"]
  /\ lowHigh resized = [(Some 5, Some 18);
                        (Some (27 # 5), Some (77 # 5));
                        (Some 5, Some 15)]
  /\ option_map groupedPoints (dragDropData moved) = Some [0%nat; 1%nat]
  /\ lowHigh moved = [(Some 8, Some 18); (Some 8, Some 18);
                      (Some 5, Some 15)]
  /\ 8 - 5 == 3
  /\ 8 - (27 # 5) == 13 # 5
  /\ ~ 3 == 13 # 5.
Proof.
  vm_compute. repeat split; try reflexivity; discriminate.
Qed.

Lemma initDragDrop_groupedPoints (e : Event) (r : nat) (point : Point)
    (c : Chart) (data : DragDropData) :
  dragDropData (initDragDrop e r point c) = Some data ->
  groupedPoints data = getGroupedPoints (series c) (points c) r point
  /\ updateProp data = None.
Proof.
  unfold initDragDrop.
  destruct (pickD (seriesFlag (series c) "liveRedraw") true);
    simpl; intros H; inversion H; split; reflexivity.
Qed.

(** With both axes and the point in the snapshot, a prop of
    [updateProps] (distinct keys) is written with its proposed value,
    rounded and limited, unless it is the only prop and has a validation
    function. *)
Lemma getDropValues_written (s : Series) (point : Point)
    (orig : PositionSnapshot) (newPos : Event)
    (updateProps : Obj.t DragDropProp) (xAx yAx : Axis)
    (pointOrigin : PointProps) (key : string) (val : DragDropProp) :
  xAxis s = Some xAx -> yAxis s = Some yAx ->
  Obj.get (p_id point) (o_points orig) = Some pointOrigin ->
  NoDup (Obj.keys updateProps) ->
  In (key, val) updateProps ->
  (2 <= List.length updateProps)%nat \/ propValidate val = None ->
  Obj.get key (getDropValues s point orig newPos updateProps)
  = Some (option_map
            (fun v => limitToRange
                        (mergeOptions (s_dragDrop s) (p_dragDrop point))
                        v (axisUpper (axis val)))
            (proposedValue s point orig newPos key val)).
Proof.
  intros Hx Hy Hp Hnd Hin Hok.
  unfold getDropValues, proposedValue. rewrite Hx, Hy, Hp.
  apply (get_fold_assign_written
           (fun k v =>
              newVal (mergeOptions (s_dragDrop s) (p_dragDrop point))
                pointOrigin
                (deltaValue xAx (pick (o_x orig) (prop point "x"))
                   (pageX newPos - o_pageX orig)
                   (pageY newPos - o_pageY orig))
                (deltaValue yAx (pick (o_y orig) (prop point "y"))
                   (pageX newPos - o_pageX orig)
                   (pageY newPos - o_pageY orig)) k v)
           (fun k v =>
              pickD (updateSingleProp updateProps) false
              && match propValidate v with
                 | Some validate =>
                     negb (validate
                       (newVal (mergeOptions (s_dragDrop s)
                                  (p_dragDrop point))
                          pointOrigin
                          (deltaValue xAx (pick (o_x orig) (prop point "x"))
                             (pageX newPos - o_pageX orig)
                             (pageY newPos - o_pageY orig))
                          (deltaValue yAx (pick (o_y orig) (prop point "y"))
                             (pageX newPos - o_pageX orig)
                             (pageY newPos - o_pageY orig)) k v) point)
                 | None => false
                 end)
           updateProps key val Hnd Hin).
  destruct Hok as [Hlen|Hnone].
  - destruct updateProps as [|a [|b rest]]; simpl in Hlen; try lia.
    reflexivity.
  - rewrite Hnone. apply andb_false_r.
Qed.

(** On linear axes the proposed value is the snapshot value plus the
    pointer delta divided by the slope of the axis of the prop. *)
Lemma proposedValue_linear (s : Series) (q : Point)
    (orig : PositionSnapshot) (newPos : Event) (key : string)
    (val : DragDropProp) (xAx yAx : Axis) (sx ox sy oy : Q)
    (pointOrigin : PointProps) (old qx qy : Q) :
  xAxis s = Some xAx -> yAxis s = Some yAx ->
  linearAxis xAx sx ox -> linearAxis yAx sy oy ->
  Obj.get (p_id q) (o_points orig) = Some pointOrigin ->
  Obj.get key (pp_props pointOrigin) = Some old ->
  pick (o_x orig) (prop q "x") = Some qx ->
  pick (o_y orig) (prop q "y") = Some qy ->
  exists proposed,
    proposedValue s q orig newPos key val = Some proposed
    /\ proposed ==
       old + match axis val with
             | AxisX => pointerDelta xAx orig newPos / sx
             | AxisY => pointerDelta yAx orig newPos / sy
             end.
Proof.
  intros Hx Hy (Hsx & Hpx & Hvx) (Hsy & Hpy & Hvy) Hp Hold Hqx Hqy.
  unfold proposedValue. rewrite Hx, Hy, Hp, Hold, Hqx, Hqy.
  destruct (axis val).
  - destruct (deltaValue_linear xAx sx ox qx
                (pageX newPos - o_pageX orig) (pageY newPos - o_pageY orig)
                Hsx Hpx Hvx) as (d & Hd & Ed).
    rewrite Hd. simpl. eexists. split; [reflexivity|].
    rewrite Ed. unfold pointerDelta. destruct (horiz xAx); reflexivity.
  - destruct (deltaValue_linear yAx sy oy qy
                (pageX newPos - o_pageX orig) (pageY newPos - o_pageY orig)
                Hsy Hpy Hvy) as (d & Hd & Ed).
    rewrite Hd. simpl. eexists. split; [reflexivity|].
    rewrite Ed. unfold pointerDelta. destruct (horiz yAx); reflexivity.
Qed.

(** C5, as the code has it: a session on a point whose grouping option has a truthy
    value takes as its group the points of the series whose grouping
    option is strictly equal to it.  In a move (no resized prop) the new
    points hold, for every point of the group, that point's own
    [getDropValues] for the same snapshot, pointer and props; on linear
    axes the value proposed for a prop is the snapshot value of the point
    plus a delta that is the same for every point, and what
    [getDropValues] writes for the prop is that proposal with the rounding
    and the range of the point applied: it is written whenever two or more
    props move or the prop has no validation function, and nothing else is
    ever written for it.  In a resize the new points hold the dragged
    point only. *)
Theorem C5_group_moves_together :
  (forall (c : Chart) (e : Event) (r : nat) (point : Point)
          (groupKey : string) (data : DragDropData),
      groupBy (pickD (s_dragDrop (series c)) noOptions) = Some groupKey ->
      truthy (Obj.get groupKey (p_options point)) = true ->
      dragDropData (initDragDrop e r point c) = Some data ->
      forall (r' : nat) (q : Point),
        nth_error (points c) r' = Some q ->
        (In r' (groupedPoints data)
         <-> strictEq (Obj.get groupKey (p_options q))
                      (Obj.get groupKey (p_options point)) = true))
  /\ (forall (s : Series) (ps : list Point) (data : DragDropData)
             (newPos : Event) (anchor : Point) (r : nat) (q : Point),
         nth_error ps (dd_point data) = Some anchor ->
         truthyKey (updateProp data) = false ->
         NoDup (map p_id ps) ->
         In r (groupedPoints data) ->
         nth_error ps r = Some q ->
         Obj.get (p_id q) (getNewPoints s ps data newPos)
         = Some {| np_point := r;
                   newValues :=
                     getDropValues s q (origin data) newPos
                       (getUpdateProps s
                          (mergeOptions (s_dragDrop s) (p_dragDrop anchor))
                          (updateProp data)) |})
  /\ (forall (s : Series) (q : Point) (orig : PositionSnapshot)
             (newPos : Event) (key : string) (val : DragDropProp)
             (xAx yAx : Axis) (sx ox sy oy : Q) (pointOrigin : PointProps)
             (old qx qy : Q),
         xAxis s = Some xAx -> yAxis s = Some yAx ->
         linearAxis xAx sx ox -> linearAxis yAx sy oy ->
         Obj.get (p_id q) (o_points orig) = Some pointOrigin ->
         Obj.get key (pp_props pointOrigin) = Some old ->
         pick (o_x orig) (prop q "x") = Some qx ->
         pick (o_y orig) (prop q "y") = Some qy ->
         exists proposed,
           proposedValue s q orig newPos key val = Some proposed
           /\ proposed ==
              old + match axis val with
                    | AxisX => pointerDelta xAx orig newPos / sx
                    | AxisY => pointerDelta yAx orig newPos / sy
                    end)
  /\ (forall (s : Series) (ps : list Point) (data : DragDropData)
             (newPos : Event) (anchor : Point),
         nth_error ps (dd_point data) = Some anchor ->
         truthyKey (updateProp data) = true ->
         getNewPoints s ps data newPos
         = [(p_id anchor,
             {| np_point := dd_point data;
                newValues :=
                  getDropValues s anchor (origin data) newPos
                    (getUpdateProps s
                       (mergeOptions (s_dragDrop s) (p_dragDrop anchor))
                       (updateProp data)) |})])
  /\ (forall (s : Series) (q : Point) (orig : PositionSnapshot)
             (newPos : Event) (updateProps : Obj.t DragDropProp)
             (key : string) (val : DragDropProp)
             (xAx yAx : Axis) (sx ox sy oy : Q) (pointOrigin : PointProps)
             (old qx qy : Q),
         xAxis s = Some xAx -> yAxis s = Some yAx ->
         linearAxis xAx sx ox -> linearAxis yAx sy oy ->
         Obj.get (p_id q) (o_points orig) = Some pointOrigin ->
         Obj.get key (pp_props pointOrigin) = Some old ->
         pick (o_x orig) (prop q "x") = Some qx ->
         pick (o_y orig) (prop q "y") = Some qy ->
         NoDup (Obj.keys updateProps) ->
         In (key, val) updateProps ->
         exists proposed,
           proposed ==
             old + match axis val with
                   | AxisX => pointerDelta xAx orig newPos / sx
                   | AxisY => pointerDelta yAx orig newPos / sy
                   end
           /\ (forall nv,
                  Obj.get key (getDropValues s q orig newPos updateProps)
                    = Some nv ->
                  nv = Some (limitToRange
                               (mergeOptions (s_dragDrop s) (p_dragDrop q))
                               proposed (axisUpper (axis val))))
           /\ ((2 <= List.length updateProps)%nat
               \/ propValidate val = None ->
               Obj.get key (getDropValues s q orig newPos updateProps)
               = Some (Some (limitToRange
                               (mergeOptions (s_dragDrop s) (p_dragDrop q))
                               proposed (axisUpper (axis val)))))).
Proof.
  split; [|split; [|split; [|split]]].
  - intros c e r point groupKey data Hg Ht Hd r' q Hq.
    apply initDragDrop_groupedPoints in Hd. destruct Hd as [Hd _].
    rewrite Hd. unfold getGroupedPoints. rewrite Hg, Ht.
    rewrite filterRefs_In. rewrite Nat.sub_0_r. split.
    + intros (_ & q' & Hq' & Hf). congruence.
    + intros Hf. split; [lia|]. exists q. auto.
  - intros. now apply getNewPoints_group_entry.
  - intros s q orig newPos key val xAx yAx sx ox sy oy pointOrigin old qx qy
           Hx Hy (Hsx & Hpx & Hvx) (Hsy & Hpy & Hvy) Hp Hold Hqx Hqy.
    unfold proposedValue. rewrite Hx, Hy, Hp, Hold, Hqx, Hqy.
    destruct (axis val).
    + destruct (deltaValue_linear xAx sx ox qx
                  (pageX newPos - o_pageX orig) (pageY newPos - o_pageY orig)
                  Hsx Hpx Hvx) as (d & Hd & Ed).
      rewrite Hd. simpl. eexists. split; [reflexivity|].
      rewrite Ed. unfold pointerDelta. destruct (horiz xAx); reflexivity.
    + destruct (deltaValue_linear yAx sy oy qy
                  (pageX newPos - o_pageX orig) (pageY newPos - o_pageY orig)
                  Hsy Hpy Hvy) as (d & Hd & Ed).
      rewrite Hd. simpl. eexists. split; [reflexivity|].
      rewrite Ed. unfold pointerDelta. destruct (horiz yAx); reflexivity.
  - intros s ps data newPos anchor Ha Hr. unfold getNewPoints.
    rewrite Ha, Hr. reflexivity.
  - intros s q orig newPos updateProps key val xAx yAx sx ox sy oy
           pointOrigin old qx qy Hx Hy Hlx Hly Hp Hold Hqx Hqy Hnd Hin.
    destruct (proposedValue_linear s q orig newPos key val xAx yAx sx ox
                sy oy pointOrigin old qx qy Hx Hy Hlx Hly Hp Hold Hqx Hqy)
      as (proposed & Hprop & Eprop).
    exists proposed. split; [exact Eprop|]. split.
    + intros nv Hnv. apply getDropValues_entry in Hnv.
      destruct Hnv as (xAx' & yAx' & po' & val' & Hx' & Hy' & Hp' & Hin'
                       & Hnv).
      assert (val' = val) by now apply (keys_unique updateProps key).
      subst val'.
      rewrite Hx in Hx'. rewrite Hy in Hy'. rewrite Hp in Hp'.
      inversion Hx'. inversion Hy'. inversion Hp'. subst xAx' yAx' po'.
      rewrite Hnv. unfold proposedValue in Hprop.
      rewrite Hx, Hy, Hp in Hprop. unfold newVal. cbv zeta in Hprop.
      rewrite Hprop. reflexivity.
    + intros Hok.
      rewrite (getDropValues_written s q orig newPos updateProps xAx yAx
                 pointOrigin key val Hx Hy Hp Hnd Hin Hok).
      now rewrite Hprop.
Qed.

Lemma C5_group_moves_together_witness :
  dragDropData groupMoving = Some groupData
  /\ Obj.get "b" (getNewPoints groupSeries (points groupMoving) groupData
                    (pointerAt 0 3))
     = Some {| np_point := 1%nat;
               newValues :=
                 getDropValues groupSeries
                   (groupPoint "b" "A" 1 (27 # 5) (77 # 5))
                   (origin groupData) (pointerAt 0 3)
                   (getUpdateProps groupSeries
                      (mergeOptions (s_dragDrop groupSeries) None)
                      (updateProp groupData)) |}
  /\ exists proposed,
       proposed == (27 # 5)
                   + pointerDelta unitAxisV (origin groupData)
                       (pointerAt 0 3) / 1
       /\ Obj.get "low"
            (getDropValues groupSeries
               (groupPoint "b" "A" 1 (27 # 5) (77 # 5))
               (origin groupData) (pointerAt 0 3) moveProps)
          = Some (Some (limitToRange
                          (mergeOptions (s_dragDrop groupSeries) None)
                          proposed "Y")).
Proof.
  split; [reflexivity|]. split.
  - refine (proj1 (proj2 C5_group_moves_together) groupSeries
              (points groupMoving) groupData (pointerAt 0 3)
              (groupPoint "a" "A" 0 5 15) 1%nat
              (groupPoint "b" "A" 1 (27 # 5) (77 # 5)) _ _ _ _ _).
    + reflexivity.
    + reflexivity.
    + repeat constructor; simpl; intuition discriminate.
    + simpl. auto.
    + reflexivity.
  - assert (Hlin : forall a, a = unitAxisH \/ a = unitAxisV ->
                             linearAxis a 1 0).
    { intros a [->| ->]; (split; [discriminate|]); split; intros v; simpl;
        field. }
    destruct (proj2 (proj2 (proj2 (proj2 C5_group_moves_together)))
                groupSeries (groupPoint "b" "A" 1 (27 # 5) (77 # 5))
                (origin groupData) (pointerAt 0 3) moveProps "low"
                Registry.columnrange_low unitAxisH unitAxisV 1 0 1 0
                {| pp_props := [("x", 1); ("low", 27 # 5); ("high", 77 # 5)];
                   pp_point := 1%nat |}
                (27 # 5) 1 (27 # 5)
                eq_refl eq_refl
                (Hlin unitAxisH (or_introl eq_refl))
                (Hlin unitAxisV (or_intror eq_refl))
                eq_refl eq_refl eq_refl eq_refl)
      as (proposed & E & _ & Hw).
    + repeat constructor; simpl; intuition discriminate.
    + simpl. auto.
    + exists proposed. split; [exact E|]. apply Hw. left. simpl. lia.
Defined.

(** * Further properties of the module *)

(** ** Merged options *)

Section MergeFacts.

Context {A : Type}.

Lemma get_fold_set_absent {B : Type} (key : B -> string) (F : B -> A)
    (k : string) (l : list B) :
  (forall x, In x l -> key x <> k) ->
  forall acc : Obj.t A,
    Obj.get k (fold_left (fun h x => Obj.set (key x) (F x) h) l acc)
    = Obj.get k acc.
Proof.
  induction l as [|x rest IH]; intros Hno acc; simpl; [reflexivity|].
  rewrite IH.
  - apply get_set_other. intros E. apply (Hno x); [now left|auto].
  - intros y Hy. apply Hno. now right.
Qed.

Lemma get_None_keys (k : string) (o : Obj.t A) :
  Obj.get k o = None <-> ~ In k (Obj.keys o).
Proof.
  induction o as [|[k' v] rest IH]; simpl.
  - split; auto.
  - destruct (String.eqb k k') eqn:E.
    + apply String.eqb_eq in E. subst. split; [discriminate|].
      intros H. exfalso. apply H. now left.
    + apply String.eqb_neq in E. rewrite IH. split.
      * intros H [H1|H1]; [congruence|auto].
      * intros H H1. apply H. now right.
Qed.

Lemma get_Some_In (k : string) (v : A) (o : Obj.t A) :
  Obj.get k o = Some v -> In (k, v) o.
Proof.
  induction o as [|[k' v'] rest IH]; simpl; [discriminate|].
  destruct (String.eqb k k') eqn:E.
  - apply String.eqb_eq in E. subst. intros H. inversion H. now left.
  - intros H. right. auto.
Qed.

(** [merge(a, b)[k]] is [b[k]] when [b] has the key and [a[k]]
    otherwise. *)
Lemma get_merge (a b : Obj.t A) (k : string) :
  NoDup (Obj.keys b) ->
  Obj.get k (Obj.merge a b) = pick (Obj.get k b) (Obj.get k a).
Proof.
  intros Hnd. unfold Obj.merge.
  destruct (Obj.get k b) as [v|] eqn:E; simpl.
  - apply get_Some_In in E.
    apply (get_fold_set_unique (fun kv : string * A => fst kv)
             (fun kv => snd kv) b (k, v) E).
    intros [k' v'] Hin Hk. simpl in Hk. subst k'. f_equal.
    now apply (keys_unique b k).
  - apply (get_fold_set_absent (fun kv : string * A => fst kv)
             (fun kv => snd kv)).
    intros [k' v'] Hin Hk. simpl in Hk. subst k'.
    apply get_None_keys in E. apply E.
    apply (in_map fst) in Hin. exact Hin.
Qed.

End MergeFacts.

(** X1: in the options that [getDropValues], [getNewPoints] and
    [dragMove] merge from the series and the point, a number or a flag
    set on the point overrides the one of the series, and the series
    value is used where the point sets none. *)
Theorem merged_options_point_overrides_series :
  forall (so po : DragDropOptions) (name : string),
    NoDup (Obj.keys (nums po)) ->
    NoDup (Obj.keys (flags po)) ->
    let o := mergeOptions (Some so) (Some po) in
    Obj.get name (nums o)
      = pick (Obj.get name (nums po)) (Obj.get name (nums so))
    /\ Obj.get name (flags o)
       = pick (Obj.get name (flags po)) (Obj.get name (flags so))
    /\ groupBy o = pick (groupBy po) (groupBy so).
Proof.
  intros so po name Hn Hf o. unfold o, mergeOptions. simpl.
  split; [now apply get_merge|]. split; [now apply get_merge|].
  reflexivity.
Qed.

Lemma merged_options_point_overrides_series_witness :
  Obj.get "dragPrecisionY"
    (nums (mergeOptions (Some coarseOptions) (Some fineOptions)))
  = Some (1 # 2)
  /\ Obj.get "dragMinY"
       (nums (mergeOptions (Some coarseOptions) (Some fineOptions)))
     = Some 0.
Proof.
  assert (Hn : NoDup (Obj.keys (nums fineOptions)))
    by (repeat constructor; simpl; intuition discriminate).
  assert (Hf : NoDup (Obj.keys (flags fineOptions))) by constructor.
  split.
  - exact (proj1 (merged_options_point_overrides_series coarseOptions
                    fineOptions "dragPrecisionY" Hn Hf)).
  - exact (proj1 (merged_options_point_overrides_series coarseOptions
                    fineOptions "dragMinY" Hn Hf)).
Defined.

(** ** Precision and range: order and error *)

Lemma MathMin_mono (hi : option Q) (a b : Q) :
  a <= b -> MathMin hi a <= MathMin hi b.
Proof.
  intros H. destruct hi as [h|]; simpl; [|exact H].
  destruct (Qle_bool a h) eqn:Ea, (Qle_bool b h) eqn:Eb;
    try apply Qle_bool_iff in Ea; try apply Qle_bool_iff in Eb; try lra.
  assert (~ a <= h) by (intros C; apply Qle_bool_iff in C; congruence).
  lra.
Qed.

Lemma MathMax_mono (lo : option Q) (a b : Q) :
  a <= b -> MathMax lo a <= MathMax lo b.
Proof.
  intros H. destruct lo as [l|]; simpl; [|exact H].
  destruct (Qle_bool l a) eqn:Ea, (Qle_bool l b) eqn:Eb;
    try apply Qle_bool_iff in Ea; try apply Qle_bool_iff in Eb; try lra.
  assert (~ l <= b) by (intros C; apply Qle_bool_iff in C; congruence).
  lra.
Qed.

Lemma rounded_mono (P a b : Q) :
  0 < P -> a <= b ->
  inject_Z (MathRound (a / P)) * P <= inject_Z (MathRound (b / P)) * P.
Proof.
  intros HP Hab. apply Qmult_le_compat_r; [|lra].
  rewrite <- Zle_Qle. unfold MathRound. apply Qfloor_resp_le.
  apply Qplus_le_l. unfold Qdiv. apply Qmult_le_compat_r; [exact Hab|].
  apply Qlt_le_weak. now apply Qinv_lt_0_compat.
Qed.

(** X2: with a precision that is not negative [limitToRange] keeps the
    order of the proposed values: a larger proposal never gives a smaller
    value, whatever the range. *)
Theorem limitToRange_monotone :
  forall (o : DragDropOptions) (dir : string) (a b : Q),
    0 <= pickD (dragPrecision o dir) 1 ->
    a <= b ->
    limitToRange o a dir <= limitToRange o b dir.
Proof.
  intros o dir a b HP Hab. rewrite !limitToRange_unfold.
  apply MathMax_mono, MathMin_mono.
  destruct (Qeq_bool (pickD (dragPrecision o dir) 1) 0) eqn:E; simpl.
  - exact Hab.
  - apply Qeq_bool_neq in E. apply rounded_mono; [lra|exact Hab].
Qed.

Lemma limitToRange_monotone_witness :
  limitToRange clampOptions (7 # 2) "Y" <= limitToRange clampOptions 9 "Y".
Proof.
  apply (limitToRange_monotone clampOptions "Y" (7 # 2) 9);
    vm_compute; discriminate.
Defined.

(** X4: the lower bound is applied last: the result is never below a
    configured [dragMin], and when [dragMax] is below [dragMin] the result
    is [dragMin] for every proposal. *)
Theorem limitToRange_lower_bound_wins :
  forall (o : DragDropOptions) (dir : string) (mn val : Q),
    dragMin o dir = Some mn ->
    mn <= limitToRange o val dir
    /\ (forall mx, dragMax o dir = Some mx -> mx < mn ->
                   limitToRange o val dir = mn).
Proof.
  intros o dir mn val Hmn. rewrite limitToRange_unfold, Hmn.
  match goal with
  | |- context [MathMin ?hi ?r] => generalize r; intros res
  end.
  split.
  - destruct (MathMax_cases mn (MathMin (dragMax o dir) res))
      as [[H E]|[H E]]; rewrite E; lra.
  - intros mx Hmx Hlt. rewrite Hmx.
    destruct (MathMin_cases mx res) as [[H1 E1]|[H1 E1]]; rewrite E1;
      [destruct (MathMax_cases mn res) as [[H2 E2]|[H2 E2]]
      |destruct (MathMax_cases mn mx) as [[H2 E2]|[H2 E2]]];
      rewrite E2; try reflexivity; lra.
Qed.

Lemma limitToRange_lower_bound_wins_witness :
  8 <= limitToRange crossedOptions 5 "Y"
  /\ (forall mx, dragMax crossedOptions "Y" = Some mx -> mx < 8 ->
                 limitToRange crossedOptions 5 "Y" = 8).
Proof.
  apply (limitToRange_lower_bound_wins crossedOptions "Y" 8 5).
  reflexivity.
Defined.

(** ** What getDropValues writes *)

Section KeyFacts.

Context {A : Type}.

Lemma keys_set (k k' : string) (v : A) (o : Obj.t A) :
  In k (Obj.keys (Obj.set k' v o)) <-> k = k' \/ In k (Obj.keys o).
Proof.
  induction o as [|[k2 v2] rest IH]; simpl.
  - intuition.
  - destruct (String.eqb k' k2) eqn:E; simpl.
    + apply String.eqb_eq in E. subst. intuition.
    + rewrite IH. intuition.
Qed.

Lemma NoDup_keys_set (k : string) (v : A) (o : Obj.t A) :
  NoDup (Obj.keys o) -> NoDup (Obj.keys (Obj.set k v o)).
Proof.
  induction o as [|[k2 v2] rest IH]; simpl; intros Hnd.
  - constructor; [intros []|constructor].
  - inversion Hnd as [|? ? Hnot Hnd']. subst.
    destruct (String.eqb k k2) eqn:E; simpl.
    + apply String.eqb_eq in E. subst. now constructor.
    + apply String.eqb_neq in E. constructor; [|now apply IH].
      intros Hin. apply keys_set in Hin. destruct Hin as [->|Hin]; auto.
Qed.

Lemma keys_In_get (k : string) (o : Obj.t A) :
  In k (Obj.keys o) -> exists v, Obj.get k o = Some v.
Proof.
  intros Hin. destruct (Obj.get k o) as [v|] eqn:E; [now exists v|].
  apply get_None_keys in E. contradiction.
Qed.

Lemma NoDup_fold_assign {B : Type} (F : string -> B -> A)
    (skip : string -> B -> bool) (l : Obj.t B) :
  forall acc : Obj.t A,
    NoDup (Obj.keys acc) ->
    NoDup (Obj.keys
      (fold_left (fun res kv => if skip (fst kv) (snd kv) then res
                                else Obj.set (fst kv) (F (fst kv) (snd kv)) res)
                 l acc)).
Proof.
  induction l as [|[k x] rest IH]; intros acc Hnd; simpl; [exact Hnd|].
  apply IH. destruct (skip k x); [exact Hnd|now apply NoDup_keys_set].
Qed.

End KeyFacts.

(** X5: [getDropValues] writes only props of [updateProps], each at most
    once; for a series with both axes the result is empty when there is no
    prop to update, whether or not the point is in the snapshot. *)
Theorem getDropValues_writes_only_update_props :
  forall (s : Series) (point : Point) (orig : PositionSnapshot)
         (newPos : Event) (updateProps : Obj.t DragDropProp),
    (forall key,
        In key (Obj.keys (getDropValues s point orig newPos updateProps)) ->
        In key (Obj.keys updateProps))
    /\ NoDup (Obj.keys (getDropValues s point orig newPos updateProps))
    /\ (xAxis s <> None -> yAxis s <> None ->
        getDropValues s point orig newPos [] = []).
Proof.
  intros s point orig newPos updateProps. split; [|split].
  - intros key Hin. apply keys_In_get in Hin. destruct Hin as [nv Hnv].
    apply getDropValues_entry in Hnv.
    destruct Hnv as (_ & _ & _ & val & _ & _ & _ & Hin & _).
    apply (in_map fst) in Hin. exact Hin.
  - unfold getDropValues.
    destruct (xAxis s); [|constructor].
    destruct (yAxis s); [|constructor].
    destruct (Obj.get (p_id point) (o_points orig)); [|constructor].
    match goal with
    | |- NoDup (Obj.keys (fold_left ?f _ _)) =>
        match f with
        | (fun result kv => if @?c kv then _ else Obj.set _ (@?nv kv) _) =>
            change f with
              (fun (res : Obj.t jsnum) (kv : string * DragDropProp) =>
                 if (fun k v => c (k, v)) (fst kv) (snd kv) then res
                 else Obj.set (fst kv)
                        ((fun k v => nv (k, v)) (fst kv) (snd kv)) res)
        end
    end.
    apply NoDup_fold_assign. constructor.
  - intros Hx Hy. unfold getDropValues.
    destruct (xAxis s); [|contradiction].
    destruct (yAxis s); [|contradiction].
    destruct (Obj.get (p_id point) (o_points orig)); reflexivity.
Qed.

Lemma getDropValues_writes_only_update_props_witness :
  getDropValues rangeSeries rangePoint rangeOrigin (pointerAt 0 11) [] = [].
Proof.
  apply (proj2 (proj2 (getDropValues_writes_only_update_props rangeSeries
                         rangePoint rangeOrigin (pointerAt 0 11) [])));
    discriminate.
Defined.

Lemma limitToRange_comp (o : DragDropOptions) (dir : string) (a b : Q) :
  a == b -> limitToRange o a dir == limitToRange o b dir.
Proof.
  intros H. rewrite !limitToRange_unfold.
  apply MathMax_comp, MathMin_comp.
  destruct (negb (Qeq_bool (pickD (dragPrecision o dir) 1) 0)); [|exact H].
  unfold MathRound. now rewrite H.
Qed.

(** The value that the loop of [getDropValues] computes for a prop. *)
Lemma newVal_proposed (s : Series) (point : Point) (orig : PositionSnapshot)
    (newPos : Event) (xAx yAx : Axis) (pointOrigin : PointProps)
    (key : string) (val : DragDropProp) :
  xAxis s = Some xAx -> yAxis s = Some yAx ->
  Obj.get (p_id point) (o_points orig) = Some pointOrigin ->
  newVal (mergeOptions (s_dragDrop s) (p_dragDrop point)) pointOrigin
    (deltaValue xAx (pick (o_x orig) (prop point "x"))
       (pageX newPos - o_pageX orig) (pageY newPos - o_pageY orig))
    (deltaValue yAx (pick (o_y orig) (prop point "y"))
       (pageX newPos - o_pageX orig) (pageY newPos - o_pageY orig))
    key val
  = option_map
      (fun v => limitToRange (mergeOptions (s_dragDrop s) (p_dragDrop point))
                             v (axisUpper (axis val)))
      (proposedValue s point orig newPos key val).
Proof.
  intros Hx Hy Hp. unfold proposedValue, newVal. now rewrite Hx, Hy, Hp.
Qed.

(** X6: when two or more props are updated (a whole-point move) no
    validation function is run: every prop of [updateProps] gets its
    proposed value, rounded and limited, in the result. *)
Theorem getDropValues_move_skips_validation :
  forall (s : Series) (point : Point) (orig : PositionSnapshot)
         (newPos : Event) (updateProps : Obj.t DragDropProp)
         (xAx yAx : Axis) (pointOrigin : PointProps)
         (key : string) (val : DragDropProp),
    xAxis s = Some xAx -> yAxis s = Some yAx ->
    Obj.get (p_id point) (o_points orig) = Some pointOrigin ->
    (2 <= List.length updateProps)%nat ->
    NoDup (Obj.keys updateProps) ->
    In (key, val) updateProps ->
    Obj.get key (getDropValues s point orig newPos updateProps)
    = Some (option_map
              (fun v => limitToRange
                          (mergeOptions (s_dragDrop s) (p_dragDrop point))
                          v (axisUpper (axis val)))
              (proposedValue s point orig newPos key val)).
Proof.
  intros s point orig newPos updateProps xAx yAx pointOrigin key val
         Hx Hy Hp Hlen Hnd Hin.
  rewrite <- (newVal_proposed s point orig newPos xAx yAx pointOrigin key val
                Hx Hy Hp).
  unfold getDropValues. rewrite Hx, Hy, Hp.
  assert (Hs : pickD (updateSingleProp updateProps) false = false).
  { destruct updateProps as [|a [|b rest]]; simpl in Hlen; try lia.
    reflexivity. }
  rewrite Hs. cbn [andb].
  apply (get_fold_set_unique
           (fun kv : string * DragDropProp => fst kv)
           (fun kv =>
              newVal (mergeOptions (s_dragDrop s) (p_dragDrop point))
                pointOrigin
                (deltaValue xAx (pick (o_x orig) (prop point "x"))
                   (pageX newPos - o_pageX orig)
                   (pageY newPos - o_pageY orig))
                (deltaValue yAx (pick (o_y orig) (prop point "y"))
                   (pageX newPos - o_pageX orig)
                   (pageY newPos - o_pageY orig))
                (fst kv) (snd kv))
           updateProps (key, val) Hin).
  intros [k' v'] Hin' Hk. simpl in Hk. subst k'. f_equal.
  now apply (keys_unique updateProps key).
Qed.

Lemma getDropValues_move_skips_validation_witness :
  Obj.get "low"
    (getDropValues rangeSeries rangePoint rangeOrigin (pointerAt 0 11)
       moveProps)
  = Some (option_map
            (fun v => limitToRange
                        (mergeOptions (s_dragDrop rangeSeries)
                                      (p_dragDrop rangePoint))
                        v (axisUpper (axis Registry.columnrange_low)))
            (proposedValue rangeSeries rangePoint rangeOrigin
               (pointerAt 0 11) "low" Registry.columnrange_low)).
Proof.
  refine (getDropValues_move_skips_validation rangeSeries rangePoint
            rangeOrigin (pointerAt 0 11) moveProps unitAxisH unitAxisV _
            "low" Registry.columnrange_low _ _ _ _ _ _).
  - reflexivity.
  - reflexivity.
  - reflexivity.
  - simpl. lia.
  - repeat constructor; simpl; intuition discriminate.
  - simpl. auto.
Defined.

(** X7: a pointer that is back at the position of the snapshot proposes
    the values of the snapshot: on axes whose [toValue] undoes [toPixels]
    every number of the result is the snapshot value of its prop, rounded
    and limited. *)
Theorem getDropValues_without_movement :
  forall (s : Series) (point : Point) (orig : PositionSnapshot)
         (newPos : Event) (updateProps : Obj.t DragDropProp)
         (xAx yAx : Axis) (pointOrigin : PointProps) (key : string) (v : Q),
    xAxis s = Some xAx -> yAxis s = Some yAx ->
    Obj.get (p_id point) (o_points orig) = Some pointOrigin ->
    (forall a p q, (a = xAx \/ a = yAx) -> p == q ->
                   toValue a p == toValue a q) ->
    (forall a w, (a = xAx \/ a = yAx) -> toValue a (toPixels a w) == w) ->
    pageX newPos == o_pageX orig ->
    pageY newPos == o_pageY orig ->
    Obj.get key (getDropValues s point orig newPos updateProps)
      = Some (Some v) ->
    exists val old,
      In (key, val) updateProps
      /\ Obj.get key (pp_props pointOrigin) = Some old
      /\ v == limitToRange (mergeOptions (s_dragDrop s) (p_dragDrop point))
                           old (axisUpper (axis val)).
Proof.
  intros s point orig newPos updateProps xAx yAx pointOrigin key v
         Hx Hy Hp Hcomp Hinv HpX HpY H.
  apply getDropValues_number in H.
  destruct H as (val & proposed & Hin & Hprop & Hv).
  unfold proposedValue in Hprop. rewrite Hx, Hy, Hp in Hprop.
  destruct (Obj.get key (pp_props pointOrigin)) as [old|] eqn:Eold;
    [|discriminate].
  exists val, old. split; [exact Hin|]. split; [reflexivity|].
  subst v. apply limitToRange_comp.
  assert (Hdelta : forall a base d,
             (a = xAx \/ a = yAx) ->
             deltaValue a base (pageX newPos - o_pageX orig)
                        (pageY newPos - o_pageY orig) = Some d ->
             d == 0).
  { intros a base d Ha Hd. unfold deltaValue in Hd.
    destruct base as [w|]; [|discriminate]. inversion Hd.
    assert (E : toPixels a w
                + (if horiz a then pageX newPos - o_pageX orig
                   else pageY newPos - o_pageY orig)
                == toPixels a w) by (destruct (horiz a); lra).
    rewrite (Hcomp a _ _ Ha E), (Hinv a w Ha). ring. }
  destruct (axis val); simpl in Hprop.
  - destruct (deltaValue xAx _ _ _) as [d|] eqn:Ed; [|discriminate].
    inversion Hprop. rewrite (Hdelta xAx _ d (or_introl eq_refl) Ed). ring.
  - destruct (deltaValue yAx _ _ _) as [d|] eqn:Ed; [|discriminate].
    inversion Hprop. rewrite (Hdelta yAx _ d (or_intror eq_refl) Ed). ring.
Qed.

Lemma getDropValues_without_movement_witness :
  exists val old,
    In ("high", val) moveProps
    /\ Obj.get "high" [("x", 0); ("low", 5); ("high", 15)] = Some old
    /\ 15 == limitToRange (mergeOptions (s_dragDrop rangeSeries)
                                        (p_dragDrop rangePoint))
                          old (axisUpper (axis val)).
Proof.
  refine (getDropValues_without_movement rangeSeries rangePoint rangeOrigin
            (pointerAt 0 0) moveProps unitAxisH unitAxisV
            {| pp_props := [("x", 0); ("low", 5); ("high", 15)];
               pp_point := 0%nat |}
            "high" 15 _ _ _ _ _ _ _ _);
    try reflexivity.
  - intros a p q [->| ->] E; exact E.
  - intros a w [->| ->]; reflexivity.
Defined.

(** A single updated prop with a validation function is written only
    when the function accepts the value. *)
Lemma getDropValues_single_validated (s : Series) (point : Point)
    (orig : PositionSnapshot) (newPos : Event) (key : string)
    (val : DragDropProp) (validate : jsnum -> Point -> bool) (nv : jsnum) :
  propValidate val = Some validate ->
  Obj.get key (getDropValues s point orig newPos [(key, val)]) = Some nv ->
  validate nv point = true.
Proof.
  intros Hval. unfold getDropValues.
  destruct (xAxis s); [|discriminate].
  destruct (yAxis s); [|discriminate].
  destruct (Obj.get (p_id point) (o_points orig)); [|discriminate].
  cbn [fold_left updateSingleProp pickD fst snd andb]. rewrite Hval.
  match goal with
  | |- context [validate ?n point] => destruct (validate n point) eqn:E
  end; simpl; [|discriminate].
  rewrite String.eqb_refl. intros H. inversion H. subst. exact E.
Qed.

Lemma nlt_lt (a b : jsnum) :
  nlt a b = true -> exists x y, a = Some x /\ b = Some y /\ x < y.
Proof.
  destruct a as [x|], b as [y|]; simpl; try discriminate.
  intros H. apply Qltb_lt in H. now exists x, y.
Qed.

(** X8: a resize keeps the ends of a range in order.  A [low] written by
    the resize of a columnrange point is a number below the [high] of the
    point and a [high] is above its [low]; for an xrange point a written
    [x] is below [x2] and a written [x2] above [x]. *)
Theorem resize_keeps_range_in_order :
  forall (s : Series) (point : Point) (orig : PositionSnapshot)
         (newPos : Event) (nv : jsnum),
    (Obj.get "low" (getDropValues s point orig newPos
                      [("low", Registry.columnrange_low)]) = Some nv ->
     exists v h, nv = Some v /\ prop point "high" = Some h /\ v < h)
    /\ (Obj.get "high" (getDropValues s point orig newPos
                          [("high", Registry.columnrange_high)]) = Some nv ->
        exists v l, nv = Some v /\ prop point "low" = Some l /\ l < v)
    /\ (Obj.get "x" (getDropValues s point orig newPos
                       [("x", Registry.xrange_x)]) = Some nv ->
        exists v x2, nv = Some v /\ prop point "x2" = Some x2 /\ v < x2)
    /\ (Obj.get "x2" (getDropValues s point orig newPos
                        [("x2", Registry.xrange_x2)]) = Some nv ->
        exists v x, nv = Some v /\ prop point "x" = Some x /\ x < v).
Proof.
  intros s point orig newPos nv. repeat split; intros H.
  - apply (getDropValues_single_validated s point orig newPos "low"
             Registry.columnrange_low
             (fun val p => nlt val (prop p "high")) nv eq_refl) in H.
    apply nlt_lt in H. destruct H as (x & y & -> & Hy & Hlt).
    exists x, y. auto.
  - apply (getDropValues_single_validated s point orig newPos "high"
             Registry.columnrange_high
             (fun val p => nlt (prop p "low") val) nv eq_refl) in H.
    apply nlt_lt in H. destruct H as (x & y & Hx & -> & Hlt).
    exists y, x. auto.
  - apply (getDropValues_single_validated s point orig newPos "x"
             Registry.xrange_x
             (fun val p => nlt val (prop p "x2")) nv eq_refl) in H.
    apply nlt_lt in H. destruct H as (x & y & -> & Hy & Hlt).
    exists x, y. auto.
  - apply (getDropValues_single_validated s point orig newPos "x2"
             Registry.xrange_x2
             (fun val p => nlt (prop p "x") val) nv eq_refl) in H.
    apply nlt_lt in H. destruct H as (x & y & Hx & -> & Hlt).
    exists y, x. auto.
Qed.

Lemma resize_keeps_range_in_order_witness :
  exists v x2,
    Some 6 = Some v /\ prop xrangePoint "x2" = Some x2 /\ v < x2.
Proof.
  apply (proj1 (proj2 (proj2
           (resize_keeps_range_in_order xrangeSeries xrangePoint xrangeOrigin
              (pointerAt 4 0) (Some 6))))).
  reflexivity.
Defined.

(** ** The snapshot *)

Lemma pick_idem {A : Type} (a b : option A) : pick a (pick a b) = pick a b.
Proof. now destruct a. Qed.

(** The props copied from a point into the snapshot. *)
Lemma snapshot_props (point : Point) (props : Obj.t DragDropProp) :
  forall (acc : Obj.t Q) (key : string),
    Obj.get key
      (fold_left (fun acc kv => match prop point (fst kv) with
                                | Some v => Obj.set (fst kv) v acc
                                | None => acc
                                end) props acc)
    = if existsb (String.eqb key) (Obj.keys props)
      then pick (prop point key) (Obj.get key acc)
      else Obj.get key acc.
Proof.
  induction props as [|[k d] rest IH]; intros acc key; simpl; [reflexivity|].
  rewrite IH. destruct (String.eqb key k) eqn:E; simpl.
  - apply String.eqb_eq in E. subst k.
    assert (Hacc : Obj.get key
                     match prop point key with
                     | Some v => Obj.set key v acc
                     | None => acc
                     end = pick (prop point key) (Obj.get key acc)).
    { destruct (prop point key) as [v|]; simpl; [apply get_set_same|auto]. }
    rewrite Hacc, pick_idem. now destruct (existsb _ _).
  - apply String.eqb_neq in E.
    assert (Hacc : Obj.get key
                     match prop point k with
                     | Some v => Obj.set k v acc
                     | None => acc
                     end = Obj.get key acc).
    { destruct (prop point k) as [v|]; [now apply get_set_other|auto]. }
    now rewrite Hacc.
Qed.

Lemma NoDup_map_same {A B : Type} (f : A -> B) (l : list A) (x y : A) :
  NoDup (map f l) -> In x l -> In y l -> f x = f y -> x = y.
Proof.
  induction l as [|a rest IH]; simpl; intros Hnd Hx Hy E; [destruct Hx|].
  inversion Hnd as [|? ? Hnot Hnd']. subst.
  destruct Hx as [->|Hx], Hy as [->|Hy]; auto.
  - exfalso. apply Hnot. rewrite E. now apply in_map.
  - exfalso. apply Hnot. rewrite <- E. now apply in_map.
Qed.

(** X9: [getPositionSnapshot] records the pointer of the event and, for
    each of the points (with distinct ids), an entry under the id of the
    point that refers to the point and holds the value of every prop of
    the series' [dragDropProps] and no other key; it sets no [x] or [y]
    on the snapshot itself. *)
Theorem getPositionSnapshot_records_points :
  forall (s : Series) (e : Event) (pts : list (nat * Point))
         (guideBox : option GuideBox) (r : nat) (p : Point),
    NoDup (map (fun rp => p_id (snd rp)) pts) ->
    In (r, p) pts ->
    let snap := getPositionSnapshot s e pts guideBox in
    o_pageX snap = pageX e /\ o_pageY snap = pageY e
    /\ o_x snap = None /\ o_y snap = None
    /\ o_guideBox snap = option_map attrs guideBox
    /\ exists pp,
         Obj.get (p_id p) (o_points snap) = Some pp
         /\ pp_point pp = r
         /\ forall key,
              (In key (Obj.keys (dragDropProps s)) ->
               Obj.get key (pp_props pp) = prop p key)
              /\ (~ In key (Obj.keys (dragDropProps s)) ->
                  Obj.get key (pp_props pp) = None).
Proof.
  intros s e pts guideBox r p Hnd Hin snap.
  repeat (split; [reflexivity|]).
  eexists. split; [|split].
  - unfold snap, getPositionSnapshot. cbn [o_points].
    apply (get_fold_set_unique
             (fun rp : nat * Point => p_id (snd rp))
             (fun rp =>
                {| pp_props :=
                     fold_left
                       (fun acc kv => match prop (snd rp) (fst kv) with
                                      | Some v => Obj.set (fst kv) v acc
                                      | None => acc
                                      end) (dragDropProps s) [];
                   pp_point := fst rp |})
             pts (r, p) Hin).
    intros x Hx E. now apply (NoDup_map_same _ pts x (r, p) Hnd).
  - reflexivity.
  - intros key. cbn [pp_props snd]. rewrite snapshot_props. simpl.
    split; intros H.
    + assert (Hex : existsb (String.eqb key) (Obj.keys (dragDropProps s))
                    = true).
      { apply existsb_exists. exists key. split; [exact H|].
        apply String.eqb_refl. }
      rewrite Hex. now destruct (prop p key).
    + destruct (existsb (String.eqb key) (Obj.keys (dragDropProps s)))
        eqn:Hex; [|reflexivity].
      apply existsb_exists in Hex. destruct Hex as (k & Hk & E).
      apply String.eqb_eq in E. subst k. contradiction.
Qed.

Lemma getPositionSnapshot_records_points_witness :
  let snap := getPositionSnapshot rangeSeries (pointerAt 3 4)
                [(0%nat, rangePoint)] None in
  o_pageX snap = 3 /\ o_pageY snap = 4
  /\ o_x snap = None /\ o_y snap = None
  /\ o_guideBox snap = None
  /\ exists pp,
       Obj.get "r" (o_points snap) = Some pp
       /\ pp_point pp = 0%nat
       /\ forall key,
            (In key (Obj.keys (dragDropProps rangeSeries)) ->
             Obj.get key (pp_props pp) = prop rangePoint key)
            /\ (~ In key (Obj.keys (dragDropProps rangeSeries)) ->
                Obj.get key (pp_props pp) = None).
Proof.
  apply (getPositionSnapshot_records_points rangeSeries (pointerAt 3 4)
           [(0%nat, rangePoint)] None 0%nat rangePoint).
  - repeat constructor. simpl. intuition.
  - simpl. auto.
Defined.

(** ** The group of a point *)

Lemma strictEq_refl (v : option jsval) : strictEq v v = true.
Proof.
  destruct v as [[s|q|b]|]; simpl.
  - apply String.eqb_refl.
  - apply Qeq_bool_iff. reflexivity.
  - now destruct b.
  - reflexivity.
Qed.

Lemma filterRefs_NoDup (f : Point -> bool) (ps : list Point) :
  forall k, NoDup (filterRefs f k ps).
Proof.
  induction ps as [|p rest IH]; intros k; simpl; [constructor|].
  destruct (f p); [|apply IH]. constructor; [|apply IH].
  intros Hin. apply filterRefs_In in Hin. lia.
Qed.

(** X10: the group of a point of the series always holds the point
    itself, holds no point twice and only points of the series; it is the
    point alone when the series has no [groupBy] or the point has no
    truthy value for it. *)
Theorem getGroupedPoints_holds_the_point :
  forall (s : Series) (ps : list Point) (r : nat) (point : Point),
    nth_error ps r = Some point ->
    let g := getGroupedPoints s ps r point in
    In r g
    /\ NoDup g
    /\ (forall r', In r' g -> (r' < List.length ps)%nat)
    /\ (groupBy (pickD (s_dragDrop s) noOptions) = None -> g = [r])
    /\ (forall groupKey,
           groupBy (pickD (s_dragDrop s) noOptions) = Some groupKey ->
           truthy (Obj.get groupKey (p_options point)) = false ->
           g = [r]).
Proof.
  intros s ps r point Hr g.
  assert (Hlt : (r < List.length ps)%nat)
    by (apply nth_error_Some; congruence).
  unfold g, getGroupedPoints.
  destruct (groupBy (pickD (s_dragDrop s) noOptions)) as [groupKey|].
  - destruct (truthy (Obj.get groupKey (p_options point))) eqn:Et.
    + split; [|split; [|split; [|split]]].
      * apply filterRefs_In. split; [lia|]. exists point.
        rewrite Nat.sub_0_r. split; [exact Hr|apply strictEq_refl].
      * apply filterRefs_NoDup.
      * intros r' Hin. apply filterRefs_In in Hin.
        destruct Hin as (_ & q & Hq & _). rewrite Nat.sub_0_r in Hq.
        apply nth_error_Some. congruence.
      * discriminate.
      * intros k Hk. inversion Hk. subst k. congruence.
    + split; [now left|]. split; [repeat constructor; intros []|].
      split; [intros r' [<-|[]]; exact Hlt|]. split; reflexivity.
  - split; [now left|]. split; [repeat constructor; intros []|].
    split; [intros r' [<-|[]]; exact Hlt|]. split; reflexivity.
Qed.

Lemma getGroupedPoints_holds_the_point_witness :
  In 1%nat (getGroupedPoints groupSeries (points groupChart) 1%nat
              (groupPoint "b" "A" 1 (27 # 5) (77 # 5))).
Proof.
  apply (getGroupedPoints_holds_the_point groupSeries (points groupChart)
           1%nat (groupPoint "b" "A" 1 (27 # 5) (77 # 5))).
  reflexivity.
Defined.

(** ** Guide-box geometry *)

Lemma Qmin2_le (a b : Q) : Qmin2 a b <= a /\ Qmin2 a b <= b.
Proof.
  unfold Qmin2. destruct (Qle_bool a b) eqn:E.
  - apply Qle_bool_iff in E. lra.
  - assert (~ a <= b) by (intros C; apply Qle_bool_iff in C; congruence).
    lra.
Qed.

Lemma Qmax2_ge (a b : Q) : a <= Qmax2 a b /\ b <= Qmax2 a b.
Proof.
  unfold Qmax2. destruct (Qle_bool a b) eqn:E.
  - apply Qle_bool_iff in E. lra.
  - assert (~ a <= b) by (intros C; apply Qle_bool_iff in C; congruence).
    lra.
Qed.

(** The bounds only grow along the points and take every box in. *)
Lemma growBounds_fold (pts : list (nat * Point)) :
  forall minX maxX minY maxY : Q,
  exists minX' maxX' minY' maxY',
    fold_left (fun acc rp => growBounds acc (p_bBox (snd rp))) pts
              (Some (minX, maxX, minY, maxY))
    = Some (minX', maxX', minY', maxY')
    /\ minX' <= minX /\ maxX <= maxX' /\ minY' <= minY /\ maxY <= maxY'
    /\ forall rp, In rp pts ->
         minX' <= rx (p_bBox (snd rp))
         /\ rx (p_bBox (snd rp)) + rwidth (p_bBox (snd rp)) <= maxX'
         /\ minY' <= ry (p_bBox (snd rp))
         /\ ry (p_bBox (snd rp)) + rheight (p_bBox (snd rp)) <= maxY'.
Proof.
  induction pts as [|rp0 rest IH]; intros minX maxX minY maxY.
  - exists minX, maxX, minY, maxY. simpl.
    split; [reflexivity|]. repeat (split; [apply Qle_refl|]).
    intros rp [].
  - simpl.
    set (b := p_bBox (snd rp0)).
    destruct (IH (Qmin2 (rx b) minX) (Qmax2 (rx b + rwidth b) maxX)
                 (Qmin2 (ry b) minY) (Qmax2 (ry b + rheight b) maxY))
      as (x1 & x2 & y1 & y2 & E & H1 & H2 & H3 & H4 & Hall).
    exists x1, x2, y1, y2. split; [exact E|].
    pose proof (Qmin2_le (rx b) minX). pose proof (Qmin2_le (ry b) minY).
    pose proof (Qmax2_ge (rx b + rwidth b) maxX).
    pose proof (Qmax2_ge (ry b + rheight b) maxY).
    split; [lra|]. split; [lra|]. split; [lra|]. split; [lra|].
    intros rp [<-|Hin]; [fold b; repeat split; lra|now apply Hall].
Qed.

(** X11: for at least one point [getGuideBox] gives a rectangle, not
    translated, that covers the bounding box of every one of the
    points. *)
Theorem getGuideBox_covers_every_point :
  forall (pts : list (nat * Point)),
    pts <> [] ->
    exists g,
      getGuideBox pts = Some g
      /\ translateX g = 0 /\ translateY g = 0
      /\ forall rp, In rp pts -> covers (attrs g) (p_bBox (snd rp)).
Proof.
  intros [|rp0 rest] Hne; [contradiction|].
  unfold getGuideBox. cbn [fold_left]. cbv beta iota.
  set (b := p_bBox (snd rp0)).
  destruct (growBounds_fold rest (rx b) (rx b + rwidth b) (ry b)
              (ry b + rheight b))
    as (x1 & x2 & y1 & y2 & E & H1 & H2 & H3 & H4 & Hall).
  change (fold_left _ rest _)
    with (fold_left (fun acc rp => growBounds acc (p_bBox (snd rp))) rest
            (Some (rx b, rx b + rwidth b, ry b, ry b + rheight b))).
  rewrite E. eexists. split; [reflexivity|].
  split; [reflexivity|]. split; [reflexivity|].
  intros rp [<-|Hin]; unfold covers; cbn [attrs rx ry rwidth rheight].
  - fold b. repeat split; lra.
  - destruct (Hall rp Hin) as (A1 & A2 & A3 & A4). repeat split; lra.
Qed.

Lemma getGuideBox_covers_every_point_witness :
  exists g,
    getGuideBox twoBoxes = Some g
    /\ translateX g = 0 /\ translateY g = 0
    /\ forall rp, In rp twoBoxes -> covers (attrs g) (p_bBox (snd rp)).
Proof.
  apply (getGuideBox_covers_every_point twoBoxes). discriminate.
Defined.

(** X12: [resizeRect] moves one side only.  The size along the resized
    direction is never below 1 and the other size and the translation are
    kept; resizing [left] or [top] keeps the opposite edge in place as
    long as the size is not floored at 1, resizing [right] or [bottom]
    keeps the origin; without a side nothing changes. *)
Theorem resizeRect_moves_one_side :
  forall (rect : GuideBox) (update : Q * Q),
    let a := attrs rect in
    let l := attrs (resizeRect rect (Some SLeft) update) in
    let r := attrs (resizeRect rect (Some SRight) update) in
    let t := attrs (resizeRect rect (Some STop) update) in
    let b := attrs (resizeRect rect (Some SBottom) update) in
    (1 <= rwidth l /\ 1 <= rwidth r /\ 1 <= rheight t /\ 1 <= rheight b)
    /\ (rheight l = rheight a /\ ry l = ry a
        /\ rheight r = rheight a /\ ry r = ry a /\ rx r = rx a)
    /\ (rwidth t = rwidth a /\ rx t = rx a
        /\ rwidth b = rwidth a /\ rx b = rx a /\ ry b = ry a)
    /\ (1 <= rwidth a - fst update ->
        rx l + rwidth l == rx a + rwidth a)
    /\ (1 <= rheight a - snd update ->
        ry t + rheight t == ry a + rheight a)
    /\ (forall sd, translateX (resizeRect rect sd update) = translateX rect
                   /\ translateY (resizeRect rect sd update)
                      = translateY rect)
    /\ resizeRect rect None update = rect.
Proof.
  intros rect update. cbv zeta. simpl.
  split; [|split; [|split; [|split; [|split; [|split]]]]].
  - repeat split; apply Qmax2_ge.
  - repeat split; reflexivity.
  - repeat split; reflexivity.
  - intros H. unfold Qmax2.
    destruct (Qle_bool 1 (rwidth (attrs rect) - fst update)) eqn:E.
    + ring.
    + apply Qle_bool_iff in H. congruence.
  - intros H. unfold Qmax2.
    destruct (Qle_bool 1 (rheight (attrs rect) - snd update)) eqn:E.
    + ring.
    + apply Qle_bool_iff in H. congruence.
  - intros [[| | |]|]; split; reflexivity.
  - reflexivity.
Qed.

Lemma resizeRect_moves_one_side_witness :
  rx (attrs (resizeRect sampleBox (Some SLeft) (4, 0)))
  + rwidth (attrs (resizeRect sampleBox (Some SLeft) (4, 0)))
  == rx (attrs sampleBox) + rwidth (attrs sampleBox).
Proof.
  apply (proj1 (proj2 (proj2 (proj2
           (resizeRect_moves_one_side sampleBox (4, 0)))))).
  vm_compute. discriminate.
Defined.

(** X13: [flipResizeSide] is its own inverse, never returns the side it
    was given, and keeps a horizontal side horizontal and a vertical side
    vertical. *)
Theorem flipResizeSide_involution :
  forall side : Side,
    flipResizeSide (flipResizeSide side) = side
    /\ flipResizeSide side <> side
    /\ ((side = SLeft \/ side = SRight)
        <-> (flipResizeSide side = SLeft \/ flipResizeSide side = SRight)).
Proof.
  intros [| | |]; simpl; repeat split; try discriminate;
    intuition discriminate.
Qed.

(** ** Draggability *)

(** X14: for a series with drag options a point is never movable when
    its own options switch off both directions, when the series has
    neither [draggableX] nor [draggableY] on (whatever the options of the
    single props say), or when the series lacks an axis. *)
Theorem isPointMovable_refusals :
  forall (s : Series) (point : Point) (so : DragDropOptions),
    s_dragDrop s = Some so ->
    (forall pdd,
        p_dragDrop point = Some pdd ->
        Obj.get "draggableX" (flags pdd) = Some false ->
        Obj.get "draggableY" (flags pdd) = Some false ->
        isPointMovable s point = false)
    /\ (flagOn so "draggableX" = false ->
        flagOn so "draggableY" = false ->
        isPointMovable s point = false)
    /\ (xAxis s = None \/ yAxis s = None -> isPointMovable s point = false).
Proof.
  intros s point so Hso. unfold isPointMovable. rewrite Hso. cbn [pickD].
  split; [|split].
  - intros pdd Hp Hx Hy. rewrite Hp, Hx, Hy. simpl.
    now rewrite andb_false_r.
  - intros Hx Hy. now rewrite Hx, Hy.
  - intros [H|H]; rewrite H; [apply andb_false_r|].
    now rewrite andb_false_r, andb_false_l.
Qed.

Lemma isPointMovable_refusals_witness :
  isPointMovable rangeSeries pinnedPoint = false
  /\ isPointMovable propsOnlySeries rangePoint = false.
Proof.
  split.
  - apply (proj1 (isPointMovable_refusals rangeSeries pinnedPoint
                    rangeOptions eq_refl)
             {| flags := [("draggableX", false); ("draggableY", false)];
                nums := []; groupBy := None |}); reflexivity.
  - apply (proj1 (proj2 (isPointMovable_refusals propsOnlySeries
                           rangePoint
                           {| flags := [("draggableLow", true);
                                        ("draggableHigh", true)];
                              nums := []; groupBy := None |} eq_refl)));
      reflexivity.
Defined.

Lemma flagOn_draggable (s : Series) (name : string) :
  name = "draggableX" \/ name = "draggableY" ->
  flagOn (pickD (s_dragDrop s) noOptions) name = true ->
  isSeriesDraggable s = true.
Proof.
  intros Hn Hf. unfold isSeriesDraggable. apply existsb_exists.
  exists name. split; [|exact Hf].
  apply in_or_app. left. destruct Hn as [->| ->]; simpl; auto.
Qed.

(** X15: the series of a movable point has drag options and is draggable,
    and a chart with cartesian series that holds it is draggable: the
    handlers of the module are bound for every chart with a movable
    point. *)
Theorem movable_point_means_draggable_chart :
  forall (s : Series) (point : Point) (ss : list Series),
    isPointMovable s point = true ->
    s_dragDrop s <> None
    /\ isSeriesDraggable s = true
    /\ (In s ss -> isChartDraggable true ss = true)
    /\ isChartDraggable false ss = false.
Proof.
  intros s point ss H.
  assert (Hflag : flagOn (pickD (s_dragDrop s) noOptions) "draggableX" = true
                  \/ flagOn (pickD (s_dragDrop s) noOptions) "draggableY"
                     = true).
  { unfold isPointMovable in H.
    repeat (apply andb_true_iff in H; destruct H as [H _]).
    apply orb_true_iff in H.
    destruct H as [H|H]; apply andb_true_iff in H; tauto. }
  assert (Hd : isSeriesDraggable s = true).
  { destruct Hflag as [Hf|Hf];
      [apply (flagOn_draggable s "draggableX")
      |apply (flagOn_draggable s "draggableY")]; auto. }
  assert (Hopt : s_dragDrop s <> None).
  { intros E. rewrite E in Hflag. simpl in Hflag.
    destruct Hflag; discriminate. }
  split; [exact Hopt|]. split; [exact Hd|]. split; [|reflexivity].
  intros Hin. unfold isChartDraggable. simpl. apply existsb_exists.
  exists s. split; [now apply in_rev in Hin|].
  destruct (s_dragDrop s); [exact Hd|contradiction].
Qed.

Lemma movable_point_means_draggable_chart_witness :
  s_dragDrop rangeSeries <> None
  /\ isSeriesDraggable rangeSeries = true
  /\ (In rangeSeries [xrangeSeries; rangeSeries] ->
      isChartDraggable true [xrangeSeries; rangeSeries] = true)
  /\ isChartDraggable false [xrangeSeries; rangeSeries] = false.
Proof.
  apply (movable_point_means_draggable_chart rangeSeries rangePoint
           [xrangeSeries; rangeSeries]).
  reflexivity.
Defined.

(** ** The props of a drag *)

(** The loop of [getNewPoints] over the props of the series. *)
Lemma getUpdateProps_fold (options : DragDropOptions)
    (resizeProp : option string) (l : Obj.t DragDropProp) :
  forall (acc : Obj.t DragDropProp) (k : string) (v : DragDropProp),
    Obj.get k
      (fold_left
         (fun updateProps kv =>
            if truthyKey resizeProp
               && negb (String.eqb (pickD resizeProp "") (fst kv))
            then updateProps
            else if propEnabled options (snd kv)
                    && (if truthyKey resizeProp then resize (snd kv)
                        else move (snd kv))
            then Obj.set (fst kv) (snd kv) updateProps
            else updateProps) l acc) = Some v ->
    Obj.get k acc = Some v
    \/ (In (k, v) l
        /\ propEnabled options v = true
        /\ (if truthyKey resizeProp
            then resizeProp = Some k /\ resize v = true
            else move v = true)).
Proof.
  induction l as [|[k1 v1] rest IH]; intros acc k v H; simpl in H;
    [now left|].
  apply IH in H. destruct H as [H|(Hin & He & Hm)].
  - destruct (truthyKey resizeProp
              && negb (String.eqb (pickD resizeProp "") k1)) eqn:Eskip;
      [now left|].
    destruct (propEnabled options v1
              && (if truthyKey resizeProp then resize v1 else move v1))
      eqn:Ekeep; [|now left].
    destruct (string_dec k k1) as [->|Hne].
    + rewrite get_set_same in H. inversion H. subst v1. right.
      apply andb_true_iff in Ekeep. destruct Ekeep as [He Hm].
      split; [now left|]. split; [exact He|].
      destruct (truthyKey resizeProp) eqn:Et; [|exact Hm].
      split; [|exact Hm]. simpl in Eskip.
      apply negb_false_iff, String.eqb_eq in Eskip.
      destruct resizeProp as [rp|]; [|discriminate]. simpl in Eskip.
      now subst.
    + rewrite get_set_other in H by assumption. now left.
  - right. split; [now right|]. auto.
Qed.

(** X16: a prop is updated by a drag only if it is a prop of the series
    that is enabled, by its own option where that is set and by the
    option of its direction otherwise; in a move only props with [move]
    are updated, and in a resize only the resized prop, which must have
    [resize].  A prop whose own option is [false] is never updated. *)
Theorem getUpdateProps_only_enabled_props :
  forall (s : Series) (options : DragDropOptions)
         (resizeProp : option string) (k : string) (v : DragDropProp),
    Obj.get k (getUpdateProps s options resizeProp) = Some v ->
    In (k, v) (dragDropProps s)
    /\ propEnabled options v = true
    /\ (truthyKey resizeProp = true ->
        resizeProp = Some k /\ resize v = true)
    /\ (truthyKey resizeProp = false -> move v = true)
    /\ (forall n, optionName v = Some n ->
                  Obj.get n (flags options) <> Some false).
Proof.
  intros s options resizeProp k v H.
  apply (getUpdateProps_fold options resizeProp (dragDropProps s) [] k v)
    in H.
  destruct H as [H|(Hin & He & Hm)]; [discriminate|].
  split; [exact Hin|]. split; [exact He|].
  split; [|split].
  - intros Ht. now rewrite Ht in Hm.
  - intros Ht. now rewrite Ht in Hm.
  - intros n Hn Hoff. unfold propEnabled in He. rewrite Hn in He.
    destruct (String.eqb n ""); [discriminate|].
    rewrite Hoff in He. discriminate.
Qed.

Lemma getUpdateProps_only_enabled_props_witness :
  In ("high", Registry.columnrange_high) (dragDropProps lowOffSeries)
  /\ propEnabled lowOffOptions Registry.columnrange_high = true
  /\ (truthyKey None = true ->
      None = Some "high" /\ resize Registry.columnrange_high = true)
  /\ (truthyKey None = false -> move Registry.columnrange_high = true)
  /\ (forall n, optionName Registry.columnrange_high = Some n ->
                Obj.get n (flags lowOffOptions) <> Some false).
Proof.
  apply (getUpdateProps_only_enabled_props lowOffSeries lowOffOptions None
           "high" Registry.columnrange_high).
  reflexivity.
Defined.

(** ** Writing the new points *)

Section UpdateNth.

Context {A : Type}.

Lemma updateNth_other (f : A -> A) (l : list A) :
  forall n i, i <> n -> nth_error (updateNth n f l) i = nth_error l i.
Proof.
  induction l as [|a rest IH]; intros n i Hne; destruct n, i; simpl;
    try reflexivity; try congruence.
  apply IH. congruence.
Qed.

Lemma updateNth_map {B : Type} (g : A -> B) (f : A -> A) (l : list A) :
  (forall a, g (f a) = g a) ->
  forall n, map g (updateNth n f l) = map g l.
Proof.
  intros Hg. induction l as [|a rest IH]; intros n; destruct n; simpl;
    try reflexivity.
  - now rewrite Hg.
  - now rewrite IH.
Qed.

End UpdateNth.

Lemma writeAll_ids (nps : Obj.t NewPoint) :
  forall ps : list Point,
    map p_id
      (fold_left (fun acc kv =>
                    updateNth (np_point (snd kv))
                      (fun p => pointUpdate p (newValues (snd kv))) acc)
                 nps ps)
    = map p_id ps.
Proof.
  induction nps as [|kv rest IH]; intros ps; simpl; [reflexivity|].
  rewrite IH. now apply updateNth_map.
Qed.

Lemma writeAll_other (nps : Obj.t NewPoint) (i : nat) :
  (forall kv, In kv nps -> np_point (snd kv) <> i) ->
  forall ps : list Point,
    nth_error
      (fold_left (fun acc kv =>
                    updateNth (np_point (snd kv))
                      (fun p => pointUpdate p (newValues (snd kv))) acc)
                 nps ps) i
    = nth_error ps i.
Proof.
  induction nps as [|kv rest IH]; intros Hno ps; simpl; [reflexivity|].
  rewrite IH by (intros kv' Hin; apply Hno; now right).
  apply updateNth_other. intros E. apply (Hno kv); [now left|auto].
Qed.

Lemma updateNth_same {A : Type} (f : A -> A) (l : list A) :
  forall n, nth_error (updateNth n f l) n = option_map f (nth_error l n).
Proof.
  induction l as [|a rest IH]; intros n; destruct n; simpl;
    try reflexivity.
  apply IH.
Qed.

(** When the new points refer to distinct points each of these points is
    updated once, with the new values of its entry. *)
Lemma writeAll_written (nps : Obj.t NewPoint) :
  NoDup (map (fun kv => np_point (snd kv)) nps) ->
  forall (ps : list Point) (kv : string * NewPoint),
    In kv nps ->
    nth_error
      (fold_left (fun acc kv =>
                    updateNth (np_point (snd kv))
                      (fun p => pointUpdate p (newValues (snd kv))) acc)
                 nps ps) (np_point (snd kv))
    = option_map (fun p => pointUpdate p (newValues (snd kv)))
                 (nth_error ps (np_point (snd kv))).
Proof.
  induction nps as [|kv0 rest IH]; intros Hnd ps kv Hin; [destruct Hin|].
  simpl in Hnd. inversion Hnd as [|? ? Hnot Hnd']. subst.
  simpl. destruct Hin as [->|Hin].
  - rewrite writeAll_other; [apply updateNth_same|].
    intros kv' Hin' E. apply Hnot. rewrite <- E.
    now apply (in_map (fun kv => np_point (snd kv))).
  - rewrite (IH Hnd' _ kv Hin). f_equal. apply updateNth_other.
    intros E. apply Hnot. rewrite <- E.
    now apply (in_map (fun kv => np_point (snd kv))).
Qed.

Lemma get_remove_other {A : Type} (k k' : string) (o : Obj.t A) :
  k <> k' -> Obj.get k (Obj.remove k' o) = Obj.get k o.
Proof.
  intros Hne. induction o as [|[k2 v2] rest IH]; simpl; [reflexivity|].
  destruct (String.eqb k' k2) eqn:E2; simpl.
  - apply String.eqb_eq in E2. subst k2.
    destruct (String.eqb k k') eqn:E; [|reflexivity].
    apply String.eqb_eq in E. contradiction.
  - destruct (String.eqb k k2); auto.
Qed.

(** The write of values to the data props of a point. *)
Lemma pointUpdate_absent (values : Obj.t jsnum) (key : string) :
  ~ In key (Obj.keys values) ->
  forall vs : Obj.t Q,
    Obj.get key
      (fold_left (fun vs kv => match snd kv with
                               | Some v => Obj.set (fst kv) v vs
                               | None => Obj.remove (fst kv) vs
                               end) values vs)
    = Obj.get key vs.
Proof.
  induction values as [|[k nv] rest IH]; intros Hno vs; simpl;
    [reflexivity|].
  rewrite IH by (intros Hin; apply Hno; now right).
  assert (Hne : key <> k) by (intros E; apply Hno; now left).
  destruct nv; [now apply get_set_other|now apply get_remove_other].
Qed.

Lemma pointUpdate_written (values : Obj.t jsnum) (key : string) (v : Q) :
  NoDup (Obj.keys values) -> In (key, Some v) values ->
  forall vs : Obj.t Q,
    Obj.get key
      (fold_left (fun vs kv => match snd kv with
                               | Some v => Obj.set (fst kv) v vs
                               | None => Obj.remove (fst kv) vs
                               end) values vs)
    = Some v.
Proof.
  induction values as [|[k nv] rest IH]; intros Hnd Hin vs; [destruct Hin|].
  simpl in Hnd. inversion Hnd as [|? ? Hnot Hnd']. subst.
  destruct Hin as [E|Hin].
  - inversion E. subst k nv. simpl.
    rewrite pointUpdate_absent by exact Hnot. apply get_set_same.
  - simpl. now apply IH.
Qed.

(** X17: [updatePoints] writes the pending new points and nothing else.
    When the new points refer to distinct points, each of these points is
    replaced by its update with the new values of its entry: it keeps its
    id, every prop that the entry gives a number has that number and
    every prop that the entry does not mention is as before.  The points
    keep their number and ids, a point that no new point refers to is
    left as it is, the session and the guide box are kept, the chart is
    flagged as animating and exactly one redraw is asked for. *)
Theorem updatePoints_writes_pending_only :
  forall (c : Chart) (animate : bool),
    map p_id (points (updatePoints c animate)) = map p_id (points c)
    /\ (forall i,
           (forall kv, In kv (pendingNewPoints c) -> np_point (snd kv) <> i) ->
           nth_error (points (updatePoints c animate)) i
           = nth_error (points c) i)
    /\ (pendingNewPoints c = [] ->
        points (updatePoints c animate) = points c)
    /\ dragDropData (updatePoints c animate) = dragDropData c
    /\ dragGuideBox (updatePoints c animate) = dragGuideBox c
    /\ isDragDropAnimating (updatePoints c animate) = true
    /\ log (updatePoints c animate) = (log c ++ [Redraw animate])%list
    /\ (NoDup (map (fun kv => np_point (snd kv)) (pendingNewPoints c)) ->
        forall kv p,
          In kv (pendingNewPoints c) ->
          nth_error (points c) (np_point (snd kv)) = Some p ->
          nth_error (points (updatePoints c animate)) (np_point (snd kv))
          = Some (pointUpdate p (newValues (snd kv)))
          /\ p_id (pointUpdate p (newValues (snd kv))) = p_id p
          /\ (NoDup (Obj.keys (newValues (snd kv))) ->
              forall key,
                (forall v,
                    Obj.get key (newValues (snd kv)) = Some (Some v) ->
                    prop (pointUpdate p (newValues (snd kv))) key = Some v)
                /\ (Obj.get key (newValues (snd kv)) = None ->
                    prop (pointUpdate p (newValues (snd kv))) key
                    = prop p key))).
Proof.
  intros c animate. unfold updatePoints.
  change (match dragDropData c with
          | Some data => pickD (newPoints data) []
          | None => []
          end) with (pendingNewPoints c).
  cbn [points setPoints emit setAnimating dragDropData dragGuideBox
       isDragDropAnimating log].
  split; [apply writeAll_ids|]. split; [|split].
  - intros i Hno. now apply writeAll_other.
  - intros E. now rewrite E.
  - repeat (split; [reflexivity|]).
    intros Hnd kv p Hin Hp. split; [|split].
    + rewrite (writeAll_written _ Hnd (points c) kv Hin), Hp. reflexivity.
    + reflexivity.
    + intros Hk key. unfold prop, pointUpdate. cbn [p_vals]. split.
      * intros v Hv. apply pointUpdate_written; [exact Hk|].
        now apply get_Some_In.
      * intros Hnone. apply pointUpdate_absent.
        now apply get_None_keys.
Qed.

Lemma updatePoints_writes_pending_only_witness :
  nth_error (points (updatePoints pendingGroup true)) 1%nat
  = Some (pointUpdate (groupPoint "b" "A" 1 (27 # 5) (77 # 5))
            [("low", Some 8); ("high", Some 18)])
  /\ prop (pointUpdate (groupPoint "b" "A" 1 (27 # 5) (77 # 5))
             [("low", Some 8); ("high", Some 18)]) "high" = Some 18
  /\ prop (pointUpdate (groupPoint "b" "A" 1 (27 # 5) (77 # 5))
             [("low", Some 8); ("high", Some 18)]) "x" = Some 1.
Proof.
  assert (Hnd : NoDup (map (fun kv : string * NewPoint => np_point (snd kv))
                           (pendingNewPoints pendingGroup)))
    by (repeat constructor; simpl; intuition discriminate).
  assert (Hin : In ("b", {| np_point := 1%nat;
                            newValues := [("low", Some 8);
                                          ("high", Some 18)] |})
                   (pendingNewPoints pendingGroup))
    by (right; left; reflexivity).
  destruct (proj2 (proj2 (proj2 (proj2 (proj2 (proj2 (proj2
              (updatePoints_writes_pending_only pendingGroup true)))))))
              Hnd _ (groupPoint "b" "A" 1 (27 # 5) (77 # 5)) Hin eq_refl)
    as (H1 & _ & H3).
  assert (Hk : NoDup (Obj.keys [("low", Some 8); ("high", Some 18)]))
    by (repeat constructor; simpl; intuition discriminate).
  split; [exact H1|]. split.
  - apply (proj1 (H3 Hk "high")). reflexivity.
  - apply (proj2 (H3 Hk "x")). reflexivity.
Defined.

(** ** Moves of a session *)

Lemma resizeGuideBox_keeps (point : Point) (dX dY : Q) (c : Chart) :
  dragDropData (resizeGuideBox point dX dY c) = dragDropData c
  /\ points (resizeGuideBox point dX dY c) = points c
  /\ log (resizeGuideBox point dX dY c) = log c
  /\ series (resizeGuideBox point dX dY c) = series c
  /\ hoverPoint (resizeGuideBox point dX dY c) = hoverPoint c
  /\ inverted (resizeGuideBox point dX dY c) = inverted c
  /\ panKey (resizeGuideBox point dX dY c) = panKey c
  /\ zoomKey (resizeGuideBox point dX dY c) = zoomKey c.
Proof.
  unfold resizeGuideBox.
  destruct (dragDropData c) as [data|] eqn:Ed;
    [|rewrite Ed; repeat split; reflexivity].
  destruct (dragGuideBox c) as [box|];
    [|rewrite Ed; repeat split; reflexivity].
  destruct (Obj.get (pickD (updateProp data) "") (dragDropProps (series c)));
    [|rewrite Ed; repeat split; reflexivity].
  destruct (Obj.get (p_id point) (pickD (newPoints data) []));
    [|rewrite Ed; repeat split; reflexivity].
  simpl. rewrite Ed. repeat split; reflexivity.
Qed.

Lemma handles_keep (point : Point) (c : Chart) :
  let c' := showDragHandles point (hideDragHandles c) in
  dragDropData c' = dragDropData c
  /\ points c' = points c
  /\ dragGuideBox c' = dragGuideBox c
  /\ series c' = series c
  /\ hoverPoint c' = hoverPoint c
  /\ inverted c' = inverted c
  /\ panKey c' = panKey c
  /\ zoomKey c' = zoomKey c.
Proof.
  unfold showDragHandles, hideDragHandles.
  destruct (dragHandles c); simpl;
    match goal with
    | |- context [existsb ?f ?l] => destruct (existsb f l)
    end; repeat split; reflexivity.
Qed.

(** What [dragMove] leaves of the chart. *)
Lemma dragMove_unfold (e : Event) (point : Point) (c : Chart)
    (data : DragDropData) :
  dragDropData c = Some data ->
  let data1 :=
    withNewPoints data (Some (getNewPoints (series c) (points c) data e)) in
  dragDropData (dragMove e point c)
  = Some (withOrigin data1
            (withPrev (origin data) (dragDX c e (origin data))
                      (dragDY c e (origin data))))
  /\ points (dragMove e point c)
     = (if liveRedrawOf (series c) point
        then points (updatePoints (setData c (Some data1)) false)
        else points c)
  /\ (liveRedrawOf (series c) point = true ->
      dragGuideBox (dragMove e point c) = dragGuideBox c)
  /\ (liveRedrawOf (series c) point = false ->
      log (dragMove e point c) = log c)
  /\ series (dragMove e point c) = series c
  /\ hoverPoint (dragMove e point c) = hoverPoint c
  /\ inverted (dragMove e point c) = inverted c
  /\ panKey (dragMove e point c) = panKey c
  /\ zoomKey (dragMove e point c) = zoomKey c.
Proof.
  intros Hd data1. unfold dragMove. rewrite Hd.
  fold (liveRedrawOf (series c) point).
  change (withNewPoints data
            (Some (getNewPoints (series c) (points c) data e)))
    with data1.
  set (c1 := setData c (Some data1)).
  destruct (liveRedrawOf (series c) point) eqn:El.
  - destruct (handles_keep point (updatePoints c1 false))
      as (H1 & H2 & H3 & H4 & H5 & H6 & H7 & H8).
    cbv zeta in H1, H2, H3, H4, H5, H6, H7, H8.
    cbn [dragDropData setData points series hoverPoint inverted panKey
         zoomKey dragGuideBox log].
    rewrite H1, H2, H3, H4, H5, H6, H7, H8.
    repeat split; try reflexivity. discriminate.
  - destruct (truthyKey (updateProp data)).
    + destruct (resizeGuideBox_keeps point
                  (if inverted c then - (pageY e - o_pageY (origin data))
                   else pageX e - o_pageX (origin data))
                  (if inverted c then - (pageX e - o_pageX (origin data))
                   else pageY e - o_pageY (origin data)) c1)
        as (H1 & H2 & H3 & H4 & H5 & H6 & H7 & H8).
      cbn [dragDropData setData points series hoverPoint inverted panKey
           zoomKey dragGuideBox log].
      rewrite H1, H2, H3, H4, H5, H6, H7, H8.
      repeat split; try reflexivity. discriminate.
    + cbn [dragDropData setData setGuideBox points series hoverPoint
           inverted panKey zoomKey dragGuideBox log option_map].
      repeat split; try reflexivity. discriminate.
Qed.

Lemma sameSession_refl (d : DragDropData) : sameSession d d.
Proof. unfold sameSession. repeat split; auto. Qed.

Lemma sameSession_trans (a b c : DragDropData) :
  sameSession a b -> sameSession b c -> sameSession a c.
Proof.
  unfold sameSession.
  intros (A1 & A2 & A3 & A4 & A5 & A6 & A7 & A8 & A9 & A10 & A11)
         (B1 & B2 & B3 & B4 & B5 & B6 & B7 & B8 & B9 & B10 & B11).
  repeat split; try congruence. auto.
Qed.

Lemma sameSetup_refl (c : Chart) : sameSetup c c.
Proof. unfold sameSetup. repeat split; reflexivity. Qed.

Lemma sameSetup_trans (a b c : Chart) :
  sameSetup a b -> sameSetup b c -> sameSetup a c.
Proof.
  unfold sameSetup.
  intros (A1 & A2 & A3 & A4 & A5 & A6) (B1 & B2 & B3 & B4 & B5 & B6).
  repeat split; congruence.
Qed.

(** The three ways of [mouseMove] in a session. *)
Lemma mouseMove_cases (e : Event) (c : Chart) (data : DragDropData) :
  dragDropData c = Some data ->
  mouseMove e c = c
  \/ (draggedPastSensitivity data = false
      /\ mouseMove e c = setData c (Some (withPastSensitivity data false)))
  \/ (exists point,
         nth_error (points c) (dd_point data) = Some point
         /\ isDragging data = true
         /\ zoomOrPanKeyPressed c e = false
         /\ mouseMove e c
            = dragMove e point
                (emit (setData c (Some (withPastSensitivity data true)))
                      (Fired "drag"))).
Proof.
  intros Hd. unfold mouseMove.
  destruct (zoomOrPanKeyPressed c e); [now left|]. rewrite Hd.
  destruct (isDragging data); [|now left].
  destruct (nth_error (points c) (dd_point data)) as [point|] eqn:En;
    [|now left].
  destruct (draggedPastSensitivity data) eqn:Ep.
  - right. right. exists point. auto.
  - destruct (hasDraggedPastSensitivity e data
                (sensitivityOf (series c) point)).
    + right. right. exists point. auto.
    + right. left. auto.
Qed.

Lemma mouseMove_session (e : Event) (c : Chart) (data : DragDropData) :
  dragDropData c = Some data ->
  exists data',
    dragDropData (mouseMove e c) = Some data'
    /\ sameSession data data'
    /\ sameSetup c (mouseMove e c).
Proof.
  intros Hd.
  destruct (mouseMove_cases e c data Hd)
    as [E|[(Hp & E)|(point & Hpt & Hdr & Hk & E)]]; rewrite E.
  - exists data. split; [exact Hd|].
    split; [apply sameSession_refl|apply sameSetup_refl].
  - exists (withPastSensitivity data false). split; [reflexivity|].
    split; [|unfold sameSetup; simpl; repeat split; reflexivity].
    unfold sameSession. simpl. repeat split; auto. congruence.
  - set (c1 := emit (setData c (Some (withPastSensitivity data true)))
                    (Fired "drag")).
    destruct (dragMove_unfold e point c1 (withPastSensitivity data true)
                eq_refl)
      as (H1 & H2 & _ & _ & H5 & H6 & H7 & H8 & H9).
    cbv zeta in H1. eexists. split; [exact H1|]. split.
    + unfold sameSession. simpl. repeat split; auto.
    + unfold sameSetup. rewrite H5, H6, H7, H8, H9, H2.
      repeat split; try reflexivity.
      destruct (liveRedrawOf (series c1) point); [|reflexivity].
      destruct (updatePoints_writes_pending_only
                  (setData c1
                     (Some (withNewPoints (withPastSensitivity data true)
                              (Some (getNewPoints (series c1) (points c1)
                                       (withPastSensitivity data true) e)))))
                  false) as [Hids _].
      exact Hids.
Qed.

(** X18: pointer moves never end or replace a session.  After any
    sequence of moves the session is still there with the same dragged
    point, group, resized prop and snapshot (pointer, guide box rectangle
    and point values), and a sensitivity that has been passed stays
    passed. *)
Theorem moves_keep_the_session :
  forall (moves : list Event) (c : Chart) (data : DragDropData),
    dragDropData c = Some data ->
    exists data',
      dragDropData (run c (map Move moves)) = Some data'
      /\ sameSession data data'
      /\ sameSetup c (run c (map Move moves)).
Proof.
  induction moves as [|e rest IH]; intros c data Hd.
  - exists data. split; [exact Hd|].
    split; [apply sameSession_refl|apply sameSetup_refl].
  - destruct (mouseMove_session e c data Hd) as (d1 & H1 & S1 & T1).
    destruct (IH (mouseMove e c) d1 H1) as (d2 & H2 & S2 & T2).
    exists d2. split; [exact H2|].
    split; [now apply sameSession_trans with d1|].
    now apply sameSetup_trans with (mouseMove e c).
Qed.

Lemma moves_keep_the_session_witness :
  exists data',
    dragDropData
      (run groupMoving (map Move [pointerAt 0 1; pointerAt 0 9;
                                  pointerAt 3 2]))
    = Some data'
    /\ sameSession groupData data'
    /\ sameSetup groupMoving
         (run groupMoving (map Move [pointerAt 0 1; pointerAt 0 9;
                                     pointerAt 3 2])).
Proof.
  apply (moves_keep_the_session
           [pointerAt 0 1; pointerAt 0 9; pointerAt 3 2] groupMoving
           groupData).
  reflexivity.
Defined.

(** ** Any sequence of pointer events *)

Lemma initDragDrop_keeps (e : Event) (r : nat) (point : Point) (c : Chart) :
  points (initDragDrop e r point c) = points c
  /\ log (initDragDrop e r point c) = log c
  /\ series (initDragDrop e r point c) = series c
  /\ hoverPoint (initDragDrop e r point c) = hoverPoint c
  /\ inverted (initDragDrop e r point c) = inverted c
  /\ panKey (initDragDrop e r point c) = panKey c
  /\ zoomKey (initDragDrop e r point c) = zoomKey c.
Proof.
  unfold initDragDrop.
  destruct (pickD (seriesFlag (series c) "liveRedraw") true);
    repeat split; reflexivity.
Qed.

Lemma mouseUp_setup (e : Event) (c : Chart) : sameSetup c (mouseUp e c).
Proof.
  unfold mouseUp, sameSetup.
  destruct (dragDropData c) as [data|];
    [destruct (isDragging data && draggedPastSensitivity data)|];
    unfold hideDragHandles;
    try destruct (dragHandles c);
    cbn [dragGuideBox updatePoints emit setPoints setAnimating setData
         setHandles];
    destruct (dragGuideBox c);
    cbn [series hoverPoint inverted panKey zoomKey points setGuideBox emit
         setData setPoints setAnimating setHandles];
    repeat split; try reflexivity; apply writeAll_ids.
Qed.

Lemma mouseMove_setup (e : Event) (c : Chart) : sameSetup c (mouseMove e c).
Proof.
  destruct (dragDropData c) as [data|] eqn:Ed.
  - destruct (mouseMove_session e c data Ed) as (_ & _ & _ & H). exact H.
  - unfold mouseMove. rewrite Ed.
    destruct (zoomOrPanKeyPressed c e); apply sameSetup_refl.
Qed.

Lemma started_setup (e : Event) (r : nat) (point : Point) (c : Chart)
    (f : DragDropData -> DragDropData) :
  sameSetup c
    (emit (setData (initDragDrop e r point c)
                   (option_map f (dragDropData (initDragDrop e r point c))))
          (Fired "dragStart")).
Proof.
  destruct (initDragDrop_keeps e r point c)
    as (H1 & H2 & H3 & H4 & H5 & H6 & H7).
  unfold sameSetup.
  cbn [series hoverPoint inverted panKey zoomKey points emit setData].
  rewrite H1, H3, H4, H5, H6, H7.
  repeat split; reflexivity.
Qed.

Lemma mouseDown_setup (e : Event) (c : Chart) : sameSetup c (mouseDown e c).
Proof.
  unfold mouseDown.
  destruct (zoomOrPanKeyPressed c e); [apply sameSetup_refl|].
  destruct (sessionDragging c); [apply mouseUp_setup|].
  destruct (hoverPoint c) as [r|]; [|apply sameSetup_refl].
  destruct (nth_error (points c) r) as [p|]; [|apply sameSetup_refl].
  destruct (isPointMovable (series c) p); [|apply sameSetup_refl].
  apply started_setup.
Qed.

Lemma handleDown_setup (e : Event) (r : nat) (key : string) (c : Chart) :
  sameSetup c (onResizeHandleMouseDown e r key c).
Proof.
  unfold onResizeHandleMouseDown.
  destruct (zoomOrPanKeyPressed c e); [apply sameSetup_refl|].
  destruct (nth_error (points c) r) as [p|]; [|apply sameSetup_refl].
  apply started_setup.
Qed.

(** X19: no sequence of pointer events adds, removes or renames a point,
    or changes the series, the hovered point, the inversion of the chart
    or its zoom and pan keys. *)
Theorem handlers_keep_the_setup :
  forall (inputs : list Input) (c : Chart),
    sameSetup c (run c inputs)
    /\ List.length (points (run c inputs)) = List.length (points c).
Proof.
  assert (H : forall inputs c, sameSetup c (run c inputs)).
  { induction inputs as [|i rest IH]; intros c; [apply sameSetup_refl|].
    apply sameSetup_trans with (step c i); [|apply IH].
    destruct i; simpl.
    - apply mouseDown_setup.
    - apply handleDown_setup.
    - apply mouseMove_setup.
    - apply mouseUp_setup.
    - apply mouseUp_setup. }
  intros inputs c. split; [apply H|].
  destruct (H inputs c) as (_ & _ & _ & _ & _ & Hids).
  rewrite <- (length_map p_id (points (run c inputs))), Hids.
  apply length_map.
Qed.

(** ** Release *)

Lemma mouseUp_idle (e : Event) (c : Chart) :
  dragDropData c = None -> dragGuideBox c = None -> mouseUp e c = c.
Proof.
  intros Hd Hg. unfold mouseUp. rewrite Hd. simpl. rewrite Hg.
  destruct c. simpl in *. now subst.
Qed.

(** X20: a release (or a leave) in a session that has not passed the
    sensitivity is a click: no point is written, no [drop] is fired and no
    redraw is asked for; only the session is closed and its guide box, if
    any, destroyed. *)
Theorem mouseUp_before_sensitivity_is_a_click :
  forall (e : Event) (c : Chart),
    draggedPastSensitivity_of c = false ->
    points (mouseUp e c) = points c
    /\ log (mouseUp e c) = (log c ++ guideBoxGone c)%list
    /\ dragHandles (mouseUp e c) = dragHandles c
    /\ isDragDropAnimating (mouseUp e c) = isDragDropAnimating c
    /\ dragDropData (mouseUp e c) = None
    /\ dragGuideBox (mouseUp e c) = None.
Proof.
  intros e c Hp. unfold mouseUp, draggedPastSensitivity_of in *.
  assert (E : match dragDropData c with
              | Some data =>
                  if isDragging data && draggedPastSensitivity data
                  then updatePoints (emit (hideDragHandles c) (Fired "drop"))
                                    true
                  else c
              | None => c
              end = c).
  { destruct (dragDropData c) as [data|]; [|reflexivity].
    rewrite Hp. now rewrite andb_false_r. }
  rewrite E. unfold guideBoxGone. simpl.
  destruct (dragGuideBox c) eqn:Eg; simpl; repeat split;
    try reflexivity; try exact Eg.
  now rewrite app_nil_r.
Qed.

Lemma mouseUp_before_sensitivity_is_a_click_witness :
  points (run rangeChart [HandleDown (pointerAt 0 0) 0%nat "low";
                          Up (pointerAt 1 1)])
  = points rangeChart.
Proof.
  apply (mouseUp_before_sensitivity_is_a_click (pointerAt 1 1)
           (onResizeHandleMouseDown (pointerAt 0 0) 0%nat "low" rangeChart)).
  reflexivity.
Defined.

(** X21: releasing twice is releasing once: after [mouseUp] there is no
    session and no guide box, and a further [mouseUp], from whatever
    event, changes nothing. *)
Theorem mouseUp_is_idempotent :
  forall (e e' : Event) (c : Chart),
    mouseUp e' (mouseUp e c) = mouseUp e c.
Proof.
  intros e e' c. apply mouseUp_idle.
  - destruct (mouseUp_unfold e c) as (c1 & _ & E). rewrite E.
    now destruct (dragGuideBox c).
  - destruct (mouseUp_unfold e c) as (c1 & Hg & E). rewrite E.
    destruct (dragGuideBox c) eqn:Eg; [reflexivity|].
    simpl. congruence.
Qed.

(** ** Press *)

(** X22: with no zoom or pan key held and no session dragging, a press
    on a movable hovered point opens a session on that point: dragging,
    below the sensitivity, without pending new points or resized prop,
    with the pointer of the press in its snapshot and the group of the
    point; [dragStart] is fired and no point is written.  A press with no
    hovered point, or on a point that is not movable of a series with drag
    options, does nothing. *)
Theorem mouseDown_opens_a_session :
  forall (e : Event) (c : Chart),
    zoomOrPanKeyPressed c e = false ->
    sessionDragging c = false ->
    (forall r p,
        hoverPoint c = Some r ->
        nth_error (points c) r = Some p ->
        isPointMovable (series c) p = true ->
        exists data,
          dragDropData (mouseDown e c) = Some data
          /\ dd_point data = r
          /\ groupedPoints data = getGroupedPoints (series c) (points c) r p
          /\ isDragging data = true
          /\ draggedPastSensitivity data = false
          /\ newPoints data = None
          /\ updateProp data = None
          /\ o_pageX (origin data) = pageX e
          /\ o_pageY (origin data) = pageY e
          /\ points (mouseDown e c) = points c
          /\ log (mouseDown e c) = (log c ++ [Fired "dragStart"])%list)
    /\ (hoverPoint c = None -> mouseDown e c = c)
    /\ (forall r p,
           s_dragDrop (series c) <> None ->
           hoverPoint c = Some r ->
           nth_error (points c) r = Some p ->
           isPointMovable (series c) p = false ->
           mouseDown e c = c).
Proof.
  intros e c Hk Hs. unfold mouseDown. rewrite Hk, Hs.
  split; [|split].
  - intros r p Hh Hp Hm. rewrite Hh, Hp, Hm.
    unfold initDragDrop.
    destruct (pickD (seriesFlag (series c) "liveRedraw") true);
      eexists; simpl; repeat split; reflexivity.
  - intros Hh. now rewrite Hh.
  - intros r p _ Hh Hp Hm. now rewrite Hh, Hp, Hm.
Qed.

Lemma mouseDown_opens_a_session_witness :
  exists data,
    dragDropData (mouseDown (pointerAt 0 0) groupChart) = Some data
    /\ dd_point data = 0%nat
    /\ groupedPoints data
       = getGroupedPoints (series groupChart) (points groupChart) 0%nat
           (groupPoint "a" "A" 0 5 15)
    /\ isDragging data = true
    /\ draggedPastSensitivity data = false
    /\ newPoints data = None
    /\ updateProp data = None
    /\ o_pageX (origin data) = pageX (pointerAt 0 0)
    /\ o_pageY (origin data) = pageY (pointerAt 0 0)
    /\ points (mouseDown (pointerAt 0 0) groupChart) = points groupChart
    /\ log (mouseDown (pointerAt 0 0) groupChart)
       = (log groupChart ++ [Fired "dragStart"])%list.
Proof.
  apply (proj1 (mouseDown_opens_a_session (pointerAt 0 0) groupChart
                  eq_refl eq_refl) 0%nat (groupPoint "a" "A" 0 5 15));
    reflexivity.
Defined.

(** ** Sessions that resize and sessions with a guide box *)

Lemma getDropValues_keys (s : Series) (point : Point)
    (orig : PositionSnapshot) (newPos : Event)
    (updateProps : Obj.t DragDropProp) (key : string) :
  In key (Obj.keys (getDropValues s point orig newPos updateProps)) ->
  In key (Obj.keys updateProps).
Proof.
  intros Hin. apply keys_In_get in Hin. destruct Hin as [nv Hnv].
  apply getDropValues_entry in Hnv.
  destruct Hnv as (_ & _ & _ & val & _ & _ & _ & Hin & _).
  apply (in_map fst) in Hin. exact Hin.
Qed.

Lemma getNewPoints_resize (s : Series) (ps : list Point)
    (data : DragDropData) (e : Event) (key : string) :
  updateProp data = Some key -> key <> "" ->
  resizeOnly (dd_point data) key (getNewPoints s ps data e).
Proof.
  intros Hu Hne. unfold getNewPoints, resizeOnly.
  destruct (nth_error ps (dd_point data)) as [point|]; [|intros kv []].
  assert (Ht : truthyKey (updateProp data) = true).
  { rewrite Hu. simpl. apply negb_true_iff. now apply String.eqb_neq. }
  rewrite Ht. simpl. intros kv [<-|[]]. simpl. split; [reflexivity|].
  intros k Hk. apply getDropValues_keys in Hk.
  apply keys_In_get in Hk. destruct Hk as [v Hv].
  apply (getUpdateProps_fold _ _ (dragDropProps s) [] k v) in Hv.
  destruct Hv as [Hv|(_ & _ & Hm)]; [discriminate|].
  rewrite Ht in Hm. destruct Hm as [Hm _]. congruence.
Qed.

Lemma mouseMove_resize (e : Event) (c c0 : Chart) (data : DragDropData)
    (r : nat) (key : string) :
  dragDropData c = Some data ->
  updateProp data = Some key -> key <> "" -> dd_point data = r ->
  resizeOnly r key (pendingNewPoints c) ->
  (forall i, i <> r -> nth_error (points c) i = nth_error (points c0) i) ->
  exists data',
    dragDropData (mouseMove e c) = Some data'
    /\ updateProp data' = Some key /\ dd_point data' = r
    /\ resizeOnly r key (pendingNewPoints (mouseMove e c))
    /\ (forall i, i <> r ->
           nth_error (points (mouseMove e c)) i = nth_error (points c0) i).
Proof.
  intros Hd Hu Hne Hr Hnp Hpts.
  assert (Hnp' : resizeOnly r key (pickD (newPoints data) [])).
  { unfold pendingNewPoints in Hnp. now rewrite Hd in Hnp. }
  destruct (mouseMove_cases e c data Hd)
    as [E|[(Hp & E)|(point & Hpt & Hdr & Hk & E)]]; rewrite E.
  - exists data. auto.
  - exists (withPastSensitivity data false).
    unfold pendingNewPoints. simpl. auto.
  - set (dp := withPastSensitivity data true).
    set (c1 := emit (setData c (Some dp)) (Fired "drag")).
    destruct (dragMove_unfold e point c1 dp eq_refl)
      as (H1 & H2 & _).
    cbv zeta in H1, H2.
    assert (Hres : resizeOnly r key
                     (getNewPoints (series c1) (points c1) dp e)).
    { rewrite <- Hr. now apply (getNewPoints_resize _ _ dp e key). }
    eexists. split; [exact H1|]. split; [exact Hu|]. split; [exact Hr|].
    split.
    + unfold pendingNewPoints. rewrite H1. exact Hres.
    + intros i Hi. rewrite H2.
      destruct (liveRedrawOf (series c1) point); [|now apply Hpts].
      unfold updatePoints. cbn [points setPoints emit setAnimating].
      cbn [dragDropData setData newPoints withNewPoints pickD].
      rewrite writeAll_other; [now apply Hpts|].
      intros kv Hin. destruct (Hres kv Hin) as [Hkv _]. congruence.
Qed.

(** X23: in a session opened on the handle of a prop only that prop of
    the dragged point is ever updated: after any sequence of moves every
    other point of the series, grouped or not, is as it was, and the
    pending new points refer to the dragged point and hold no other
    prop. *)
Theorem resize_session_updates_one_prop :
  forall (moves : list Event) (e : Event) (r : nat) (key : string)
         (c0 : Chart) (anchor : Point),
    key <> "" ->
    zoomOrPanKeyPressed c0 e = false ->
    nth_error (points c0) r = Some anchor ->
    let c := run (onResizeHandleMouseDown e r key c0) (map Move moves) in
    (forall i, i <> r -> nth_error (points c) i = nth_error (points c0) i)
    /\ resizeOnly r key (pendingNewPoints c).
Proof.
  intros moves e r key c0 anchor Hne Hk Ha.
  assert (Hstart : exists data,
             dragDropData (onResizeHandleMouseDown e r key c0) = Some data
             /\ updateProp data = Some key /\ dd_point data = r
             /\ resizeOnly r key
                  (pendingNewPoints (onResizeHandleMouseDown e r key c0))
             /\ forall i, i <> r ->
                  nth_error (points (onResizeHandleMouseDown e r key c0)) i
                  = nth_error (points c0) i).
  { unfold onResizeHandleMouseDown, pendingNewPoints. rewrite Hk, Ha.
    unfold initDragDrop.
    destruct (pickD (seriesFlag (series c0) "liveRedraw") true);
      eexists; simpl; repeat split; try reflexivity;
      try (intros kv []); contradiction. }
  generalize dependent (onResizeHandleMouseDown e r key c0).
  induction moves as [|m rest IH]; intros c (data & Hd & Hu & Hr & Hn & Hp).
  - simpl. auto.
  - simpl.
    destruct (mouseMove_resize m c c0 data r key Hd Hu Hne Hr Hn Hp)
      as (data' & H1 & H2 & H3 & H4 & H5).
    apply (IH (mouseMove m c)). exists data'. auto.
Qed.

Lemma resize_session_updates_one_prop_witness :
  let c := run (onResizeHandleMouseDown (pointerAt 0 0) 0%nat "high"
                  groupChart)
               (map Move [pointerAt 0 3; pointerAt 0 6]) in
  (forall i, i <> 0%nat ->
             nth_error (points c) i = nth_error (points groupChart) i)
  /\ resizeOnly 0%nat "high" (pendingNewPoints c).
Proof.
  apply (resize_session_updates_one_prop [pointerAt 0 3; pointerAt 0 6]
           (pointerAt 0 0) 0%nat "high" groupChart
           (groupPoint "a" "A" 0 5 15)).
  - discriminate.
  - reflexivity.
  - reflexivity.
Defined.

Lemma mouseMove_guided (e : Event) (c : Chart) (data : DragDropData)
    (point : Point) :
  dragDropData c = Some data ->
  nth_error (points c) (dd_point data) = Some point ->
  liveRedrawOf (series c) point = false ->
  points (mouseMove e c) = points c
  /\ exists n, log (mouseMove e c) = (log c ++ repeat (Fired "drag") n)%list.
Proof.
  intros Hd Hpt Hl.
  destruct (mouseMove_cases e c data Hd)
    as [E|[(Hp & E)|(point' & Hpt' & Hdr & Hk & E)]]; rewrite E.
  - split; [reflexivity|]. exists 0%nat. simpl. now rewrite app_nil_r.
  - split; [reflexivity|]. exists 0%nat. simpl. now rewrite app_nil_r.
  - assert (point' = point) by congruence. subst point'.
    set (c1 := emit (setData c (Some (withPastSensitivity data true)))
                    (Fired "drag")).
    destruct (dragMove_unfold e point c1 (withPastSensitivity data true)
                eq_refl)
      as (_ & H2 & _ & H4 & _).
    change (series c1) with (series c) in H2, H4.
    rewrite Hl in H2. rewrite H2, (H4 Hl).
    split; [reflexivity|]. exists 1%nat. reflexivity.
Qed.

(** X24: without live redraw (for the dragged point) the moves of a
    session write no point and ask for no redraw: after any sequence of
    moves the points are as they were and the log has only grown by
    [drag] events. *)
Theorem guided_session_writes_nothing_before_drop :
  forall (moves : list Event) (c : Chart) (data : DragDropData)
         (point : Point),
    dragDropData c = Some data ->
    nth_error (points c) (dd_point data) = Some point ->
    liveRedrawOf (series c) point = false ->
    points (run c (map Move moves)) = points c
    /\ exists n,
         log (run c (map Move moves))
         = (log c ++ repeat (Fired "drag") n)%list.
Proof.
  induction moves as [|m rest IH]; intros c data point Hd Hpt Hl.
  - split; [reflexivity|]. exists 0%nat. simpl. now rewrite app_nil_r.
  - simpl.
    destruct (mouseMove_guided m c data point Hd Hpt Hl) as (Hp & n1 & Hlog).
    destruct (mouseMove_session m c data Hd)
      as (d1 & H1 & (S1 & _) & (T1 & _)).
    destruct (IH (mouseMove m c) d1 point H1) as (Hp2 & n2 & Hlog2).
    + rewrite Hp, S1. exact Hpt.
    + now rewrite T1.
    + split; [now rewrite Hp2|]. exists (n1 + n2)%nat.
      rewrite Hlog2, Hlog, repeat_app, app_assoc. reflexivity.
Qed.

Lemma guided_session_writes_nothing_before_drop_witness :
  points (run guidedGroupChart (map Move [pointerAt 0 3; pointerAt 0 6]))
  = points guidedGroupChart.
Proof.
  refine (proj1 (guided_session_writes_nothing_before_drop
                   [pointerAt 0 3; pointerAt 0 6] guidedGroupChart _
                   (groupPoint "a" "A" 0 5 15) _ _ _));
    reflexivity.
Defined.

(** ** The sensitivity test *)

Lemma square_le (a b : Q) : 0 <= a -> a <= b -> a * a <= b * b.
Proof.
  intros Ha Hab. apply Qle_trans with (b * a).
  - apply Qmult_le_compat_r; assumption.
  - setoid_replace (b * a) with (a * b) by ring.
    apply Qmult_le_compat_r; lra.
Qed.

(** X25: a pointer that is where the drag started passes no threshold
    that is not negative; a negative threshold is passed by every event;
    and what passes a threshold passes every smaller one. *)
Theorem hasDraggedPastSensitivity_thresholds :
  forall (e : Event) (data : DragDropData) (t : Q),
    (pageX e == o_pageX (origin data) ->
     pageY e == o_pageY (origin data) ->
     0 <= t -> hasDraggedPastSensitivity e data t = false)
    /\ (t < 0 -> hasDraggedPastSensitivity e data t = true)
    /\ (forall t', t <= t' ->
                   hasDraggedPastSensitivity e data t' = true ->
                   hasDraggedPastSensitivity e data t = true).
Proof.
  intros e data t. split; [|split].
  - intros Hx Hy Ht. apply hasDraggedPastSensitivity_within.
    split; [exact Ht|]. unfold squaredDistance.
    pose proof (square_nonneg t) as Hs.
    setoid_replace ((pageX e - o_pageX (origin data))
                    * (pageX e - o_pageX (origin data))
                    + (pageY e - o_pageY (origin data))
                      * (pageY e - o_pageY (origin data)))
      with 0; [exact Hs|].
    rewrite Hx, Hy. ring.
  - intros Ht. unfold hasDraggedPastSensitivity, sqrtGt.
    apply orb_true_iff. left. now apply Qltb_lt.
  - intros t' Hle. unfold hasDraggedPastSensitivity, sqrtGt.
    rewrite !orb_true_iff, !Qltb_lt. intros [H|H].
    + left. lra.
    + destruct (Qlt_le_dec t 0) as [Hneg|Hnn]; [now left|right].
      pose proof (square_le t t' Hnn Hle). lra.
Qed.

Lemma hasDraggedPastSensitivity_thresholds_witness :
  hasDraggedPastSensitivity (pointerAt 0 0) groupData 0 = false.
Proof.
  apply (proj1 (hasDraggedPastSensitivity_thresholds (pointerAt 0 0)
                  groupData 0)).
  - reflexivity.
  - reflexivity.
  - discriminate.
Defined.

(** ** Presentation *)

(** X26: the cursor of a drag handle is always [ew-resize] or
    [ns-resize].  A configured cursor is not used: whenever one is set
    the handle gets [ew-resize], whatever the direction; without one the
    handle of an x prop gets [ew-resize] and that of a y prop
    [ns-resize], the other way round on an inverted chart. *)
Theorem handleCursor_ignores_configured_cursor :
  forall (cursor : option string) (a : AxisName) (inv : bool),
    (handleCursor cursor a inv = "ew-resize"
     \/ handleCursor cursor a inv = "ns-resize")
    /\ (truthyKey cursor = true -> handleCursor cursor a inv = "ew-resize")
    /\ (truthyKey cursor = false ->
        handleCursor cursor a inv
        = match a, inv with
          | AxisX, false | AxisY, true => "ew-resize"
          | _, _ => "ns-resize"
          end).
Proof.
  intros cursor a inv. unfold handleCursor.
  destruct (truthyKey cursor), a, inv; simpl; repeat split; auto;
    discriminate.
Qed.

Lemma handleCursor_ignores_configured_cursor_witness :
  handleCursor (Some "pointer") AxisY false = "ew-resize".
Proof.
  apply (proj1 (proj2 (handleCursor_ignores_configured_cursor
                         (Some "pointer") AxisY false))).
  reflexivity.
Defined.

Lemma NoDup_keys_merge {A : Type} (a b : Obj.t A) :
  NoDup (Obj.keys a) -> NoDup (Obj.keys (Obj.merge a b)).
Proof.
  unfold Obj.merge. revert a.
  induction b as [|[k v] rest IH]; intros a Ha; simpl; [exact Ha|].
  apply IH. now apply NoDup_keys_set.
Qed.

Lemma get_mergeStates (b : Obj.t (Obj.t jsval)) :
  NoDup (Obj.keys b) ->
  forall (a : Obj.t (Obj.t jsval)) (st : string),
    Obj.get st (mergeStates a b)
    = match Obj.get st b with
      | Some bv => Some (Obj.merge (pickD (Obj.get st a) []) bv)
      | None => Obj.get st a
      end.
Proof.
  unfold mergeStates.
  induction b as [|[k v] rest IH]; intros Hnd a st; simpl; [reflexivity|].
  inversion Hnd as [|? ? Hnot Hnd']. subst.
  rewrite (IH Hnd'). destruct (String.eqb st k) eqn:E.
  - apply String.eqb_eq in E. subst k.
    assert (Hnone : Obj.get st rest = None) by now apply get_None_keys.
    rewrite Hnone. apply get_set_same.
  - apply String.eqb_neq in E. rewrite (get_set_other st k) by assumption.
    reflexivity.
Qed.

(** X27: the presentation of the guide box in a state is resolved key by
    key: the option of the user for that state, else the option of the
    user for the state [default], else the built-in default.  Without
    options of the user every state gets the built-in attributes. *)
Theorem setGuideBoxState_precedence :
  forall (state : string) (options : Obj.t (Obj.t jsval)) (k : string),
    NoDup (Obj.keys options) ->
    (forall st o, In (st, o) options -> NoDup (Obj.keys o)) ->
    let ofState (st : string) :=
      match Obj.get st options with
      | Some o => Obj.get k o
      | None => None
      end in
    Obj.get k (guideBoxStateOptions state (Some options))
    = pick (ofState state)
           (pick (ofState "default")
                 (Obj.get k (pickD (Obj.get "default" defaultGuideBoxOptions)
                                   [])))
    /\ setGuideBoxState state None
       = [("className", Some (VStr "highcharts-drag-box-default"));
          ("stroke", Some (VStr "#888"));
          ("strokeWidth", Some (VNum 1));
          ("fill", Some (VStr "rgba(0, 0, 0, 0.1)"));
          ("cursor", Some (VStr "move"));
          ("zIndex", Some (VNum 900))].
Proof.
  intros state options k Hnd Hin ofState. split.
  - unfold guideBoxStateOptions. cbn [pickD].
    set (builtin := pickD (Obj.get "default" defaultGuideBoxOptions) []).
    assert (Hb : NoDup (Obj.keys builtin))
      by (repeat constructor; simpl; intuition discriminate).
    (* the merged default state *)
    set (Dm := pickD (Obj.get "default"
                        (mergeStates defaultGuideBoxOptions options)) []).
    assert (HDm : Obj.get k Dm = pick (ofState "default") (Obj.get k builtin)
                  /\ NoDup (Obj.keys Dm)).
    { unfold Dm, ofState. rewrite (get_mergeStates options Hnd).
      destruct (Obj.get "default" options) as [ud|] eqn:Eud.
      - cbn [pickD]. fold builtin.
        split; [|now apply NoDup_keys_merge].
        apply get_merge. apply (Hin "default"). now apply get_Some_In.
      - split; [reflexivity|exact Hb]. }
    destruct HDm as [HDk HDn].
    (* the state itself *)
    set (S := pickD (Obj.get state
                       (mergeStates defaultGuideBoxOptions options)) []).
    assert (HS : Obj.get k S = pick (ofState state)
                                 (if String.eqb state "default"
                                  then Obj.get k builtin else None)
                 /\ NoDup (Obj.keys S)).
    { unfold S, ofState. rewrite (get_mergeStates options Hnd).
      assert (Hd0 : Obj.get state defaultGuideBoxOptions
                    = if String.eqb state "default"
                      then Some builtin else None) by reflexivity.
      rewrite Hd0.
      destruct (Obj.get state options) as [us|] eqn:Eus.
      - cbn [pickD].
        assert (Hus : NoDup (Obj.keys us))
          by (apply (Hin state); now apply get_Some_In).
        destruct (String.eqb state "default"); cbn [pickD].
        + split; [now apply get_merge|now apply NoDup_keys_merge].
        + split; [rewrite get_merge by assumption; reflexivity|].
          apply NoDup_keys_merge. constructor.
      - destruct (String.eqb state "default"); cbn [pickD pick].
        + split; [reflexivity|exact Hb].
        + split; [reflexivity|constructor]. }
    destruct HS as [HSk HSn].
    rewrite (get_merge Dm S k HSn), HSk, HDk.
    destruct (String.eqb state "default") eqn:E.
    + apply String.eqb_eq in E. subst state.
      destruct (ofState "default"); cbn [pick]; [reflexivity|].
      now destruct (Obj.get k builtin).
    + destruct (ofState state); reflexivity.
  - unfold setGuideBoxState, guideBoxStateOptions. cbn [pickD mergeStates
      fold_left].
    assert (Hd0 : Obj.get state defaultGuideBoxOptions
                  = if String.eqb state "default"
                    then Obj.get "default" defaultGuideBoxOptions
                    else None) by reflexivity.
    rewrite Hd0. destruct (String.eqb state "default"); reflexivity.
Qed.

Lemma setGuideBoxState_precedence_witness :
  Obj.get "color" (guideBoxStateOptions "active" (Some userGuideBox))
  = Some (VStr "red")
  /\ Obj.get "className" (guideBoxStateOptions "active" (Some userGuideBox))
     = Some (VStr "my-box")
  /\ Obj.get "cursor" (guideBoxStateOptions "active" (Some userGuideBox))
     = Some (VStr "move").
Proof.
  assert (Hnd : NoDup (Obj.keys userGuideBox))
    by (repeat constructor; simpl; intuition discriminate).
  assert (Hin : forall st o, In (st, o) userGuideBox -> NoDup (Obj.keys o)).
  { intros st o [H|[H|[]]]; inversion H; repeat constructor; intros []. }
  split; [|split].
  - exact (proj1 (setGuideBoxState_precedence "active" userGuideBox "color"
                    Hnd Hin)).
  - exact (proj1 (setGuideBoxState_precedence "active" userGuideBox
                    "className" Hnd Hin)).
  - exact (proj1 (setGuideBoxState_precedence "active" userGuideBox "cursor"
                    Hnd Hin)).
Defined.

(** ** The column registry *)

Lemma qround_comp (a b : Q) : a == b -> Registry.qround a = Registry.qround b.
Proof.
  intros H. unfold Registry.qround, MathRound. now rewrite H.
Qed.

(** X28: the hook of the column series keeps the guide box at the
    threshold.  With a translated threshold [t] other than 0 it never
    changes x or width; for a value at or above the threshold of the
    series (where the resized side is [top]) it keeps y and sets the
    height to [t - y], rounded and not below 0; for a value below (where
    the side is [bottom]) it keeps the height and sets y to [t], rounded.
    When the series has no threshold the comparison of the hook fails and
    it always takes the second way. *)
Theorem column_beforeResize_pins_threshold :
  forall (g : Rect) (pv : Obj.t jsnum) (point : Point) (si : SeriesInfo)
         (t : Q),
    translatedThreshold si = Some t -> ~ t == 0 ->
    let g' := Registry.column_beforeResize g pv point si in
    rx g' = rx g /\ rwidth g' = rwidth g
    /\ (forall yv th,
           Obj.get "y" pv = Some (Some yv) -> threshold si = Some th ->
           (th <= yv ->
            ry g' = ry g
            /\ rheight g' = Qmax2 0 (Registry.qround (t - ry g))
            /\ 0 <= rheight g'
            /\ Registry.column_resizeSide pv point si = STop)
           /\ (yv < th ->
               rheight g' = rheight g
               /\ ry g' = Registry.qround t
               /\ Registry.column_resizeSide pv point si = SBottom))
    /\ (threshold si = None ->
        rheight g' = rheight g /\ ry g' = Registry.qround t).
Proof.
  intros g pv point si t Ht Hnz g'.
  assert (Etr : negb (Qeq_bool t 0) = true).
  { destruct (Qeq_bool t 0) eqn:E; [|reflexivity].
    apply Qeq_bool_iff in E. contradiction. }
  unfold g', Registry.column_beforeResize. rewrite Ht, Etr. cbn [pickD].
  split; [|split; [|split]].
  - destruct (nge _ _); reflexivity.
  - destruct (nge _ _); reflexivity.
  - intros yv th Hy Hth. unfold Registry.column_resizeSide.
    rewrite Hy, Hth. cbn [pickD nge]. split.
    + intros Hle. apply Qle_bool_iff in Hle. rewrite Hle.
      cbn [rx ry rwidth rheight].
      assert (E : Registry.qround (rheight g + (t - (ry g + rheight g)))
                  = Registry.qround (t - ry g))
        by (apply qround_comp; ring).
      rewrite E. unfold Qmax2. repeat split.
      destruct (Qle_bool 0 (Registry.qround (t - ry g))) eqn:E0.
      * now apply Qle_bool_iff.
      * apply Qle_refl.
    + intros Hlt.
      assert (E : Qle_bool th yv = false).
      { destruct (Qle_bool th yv) eqn:E; [|reflexivity].
        apply Qle_bool_iff in E. lra. }
      rewrite E. cbn [rx ry rwidth rheight].
      repeat split. apply qround_comp. ring.
  - intros Hth. rewrite Hth.
    assert (E : nge (pickD (Obj.get "y" pv) None) None = false)
      by (destruct (pickD (Obj.get "y" pv) None); reflexivity).
    rewrite E. cbn [rx ry rwidth rheight].
    split; [reflexivity|]. apply qround_comp. ring.
Qed.

Lemma column_beforeResize_pins_threshold_witness :
  let g := {| rx := 10; ry := 150; rwidth := 20; rheight := 40 |} in
  let g' := Registry.column_beforeResize g [("y", Some 7)]
              (boxedPoint "c" g) columnInfo in
  rx g' = rx g /\ rwidth g' = rwidth g.
Proof.
  refine ((fun H => conj (proj1 H) (proj1 (proj2 H)))
            (column_beforeResize_pins_threshold
               {| rx := 10; ry := 150; rwidth := 20; rheight := 40 |}
               [("y", Some 7)]
               (boxedPoint "c"
                  {| rx := 10; ry := 150; rwidth := 20; rheight := 40 |})
               columnInfo 200 _ _)).
  - reflexivity.
  - discriminate.
Defined.
